(** * headliner: the vocabulary builder and the training loop

    A shallow embedding of [headliner/trainer.py] and
    [headliner/callbacks/evaluation_callback.py].

    Python values are modelled as follows.
    - [str] is [string]; texts are taken to be ASCII (on UTF-8 bytes the
      lexicographic order is still the code point order used by [sorted]).
    - counts, sizes and numbers of steps ([max_vocab_size], [steps_per_epoch],
      [num_epochs], [batch_count], [epoch_count]) are [nat].
    - a [dict] whose iteration order matters ([Counter], keras'
      [word_counts]) is an association list in insertion order; a [dict]
      used as a mapping ([word_index], [logs], [scorers]) is a [gmap].
    - a [set] is a [gset]; the order in which Python enumerates it is left
      open (see [SetOrder]).
    - an exception is a value of [exn], carried by [result]. *)

From Stdlib Require Import ZArith QArith List String Ascii Lia Sorted Permutation.
From stdpp Require Import gmap strings list sorting fin_maps.

Local Open Scope nat_scope.

(** ** Exceptions *)

Inductive exn : Type :=
| ValueError (msg : string)
| ZeroDivisionError
| UnboundLocalError (name : string).

Inductive result (A : Type) : Type :=
| OK (a : A)
| Raise (e : exn).
Arguments OK {A} a.
Arguments Raise {A} e.

Definition bind {A B} (r : result A) (k : A -> result B) : result B :=
  match r with
  | OK a => k a
  | Raise e => Raise e
  end.

Notation "'let!' x := r 'in' k" := (bind r (fun x => k))
  (at level 10, x pattern, r at level 100, k at level 200).

(** ** Python primitives *)

Module Py.

(** [str.isspace] on ASCII: TAB, LF, VT, FF, CR, the separators 28..31 and
    the space. *)
Definition is_space (c : ascii) : bool :=
  let n := nat_of_ascii c in
  ((9 <=? n) && (n <=? 13)) || ((28 <=? n) && (n <=? 32)).

Definition snoc_char (w : string) (c : ascii) : string :=
  (w +:+ String c EmptyString)%string.

(** [text.split()]: scan left to right, [word] is the token being read
    (empty when between tokens). *)
Fixpoint split_from (word : string) (s : string) : list string :=
  match s with
  | EmptyString => if decide (word = EmptyString) then [] else [word]
  | String c s' =>
      if is_space c
      then (if decide (word = EmptyString) then split_from EmptyString s'
            else word :: split_from EmptyString s')
      else split_from (snoc_char word c) s'
  end.

Definition split (s : string) : list string := split_from EmptyString s.

(** [text.split(sep)] with an explicit one-character separator: empty
    fields are kept. *)
Fixpoint split_on_from (sep : ascii) (word : string) (s : string) : list string :=
  match s with
  | EmptyString => [word]
  | String c s' =>
      if Ascii.eqb c sep then word :: split_on_from sep EmptyString s'
      else split_on_from sep (snoc_char word c) s'
  end.

Definition split_on (sep : ascii) (s : string) : list string :=
  split_on_from sep EmptyString s.

(** [collections.Counter]: token counts, in first-seen order. *)
Definition Counter : Type := list (string * nat).

Fixpoint counter_incr (tok : string) (c : Counter) : Counter :=
  match c with
  | [] => [(tok, 1)]
  | (k, n) :: c' =>
      if decide (k = tok) then (k, S n) :: c' else (k, n) :: counter_incr tok c'
  end.

(** [counter.update(tokens)] *)
Definition counter_update (c : Counter) (toks : list string) : Counter :=
  foldl (fun c t => counter_incr t c) c toks.

(** [counter[tok]] (0 when absent) *)
Fixpoint counter_get (c : Counter) (tok : string) : nat :=
  match c with
  | [] => 0
  | (k, n) :: c' => if decide (k = tok) then n else counter_get c' tok
  end.

(** [sorted(items, key=itemgetter(1), reverse=True)]: Python's sort is
    stable, also with [reverse=True]; items of equal count keep their
    order. *)
Fixpoint insert_desc (x : string * nat) (l : list (string * nat)) : list (string * nat) :=
  match l with
  | [] => [x]
  | y :: l' => if x.2 <? y.2 then y :: insert_desc x l' else x :: l
  end.

Fixpoint sorted_by_count_desc (l : list (string * nat)) : list (string * nat) :=
  match l with
  | [] => []
  | x :: l' => insert_desc x (sorted_by_count_desc l')
  end.

(** [counter.most_common(n)] *)
Definition most_common (n : nat) (c : Counter) : list (string * nat) :=
  take n (sorted_by_count_desc c).

(** String comparison ([<=] on [str]). *)
Definition str_le (s1 s2 : string) : Prop := String.leb s1 s2 = true.

#[global] Instance str_le_dec : RelDecision str_le.
Proof. intros s1 s2. unfold str_le. apply _. Defined.

(** [sorted(l)] on a list of strings. *)
Definition sorted (l : list string) : list string := merge_sort str_le l.

(** The order in which Python enumerates a [set] of strings depends on the
    hash seed of the process. A [SetOrder] is one such enumeration. *)
Record SetOrder : Type := {
  list_of_set : gset string -> list string;
  list_of_set_perm : forall X, list_of_set X ≡ₚ elements X
}.

Definition default_order : SetOrder :=
  {| list_of_set := elements; list_of_set_perm := fun X => reflexivity _ |}.

Definition reversed_order : SetOrder :=
  {| list_of_set := fun X => reverse (elements X);
     list_of_set_perm := fun X => reverse_Permutation (elements X) |}.

End Py.

(** ** keras_preprocessing.text.Tokenizer

    A third-party collaborator. [fit_on_texts] follows the library: every
    text is cut into words, words are counted in first-seen order, the
    counted words are sorted by descending count (stable), the
    out-of-vocabulary token is put in front, and the words are numbered
    from 1 (index 0 is never assigned: it is the padding id). *)

Module Keras.

Record Tokenizer : Type := {
  oov_token : option string;
  filters : string;
  lower : bool;
  word_counts : Py.Counter;
  word_index : gmap string nat
}.

Definition new_Tokenizer (oov : option string) (flt : string) (low : bool) : Tokenizer :=
  {| oov_token := oov; filters := flt; lower := low;
     word_counts := []; word_index := ∅ |}.

Definition lower_char (c : ascii) : ascii :=
  let n := nat_of_ascii c in
  if (65 <=? n) && (n <=? 90) then ascii_of_nat (n + 32) else c.

Fixpoint map_string (f : ascii -> ascii) (s : string) : string :=
  match s with
  | EmptyString => EmptyString
  | String c s' => String (f c) (map_string f s')
  end.

Definition translate (flt : string) (c : ascii) : ascii :=
  if existsb (Ascii.eqb c) (list_ascii_of_string flt) then " "%char else c.

(** [text_to_word_sequence(text, filters, lower, split=' ')] *)
Definition text_to_word_sequence (text flt : string) (low : bool) : list string :=
  let text := if low then map_string lower_char text else text in
  let text := map_string (translate flt) text in
  filter (fun w => w <> EmptyString) (Py.split_on " "%char text).

(** [dict(zip(sorted_voc, range(1, len(sorted_voc) + 1)))]: a later pair
    overrides an earlier one with the same key. *)
Definition dict_of_pairs (l : list (string * nat)) : gmap string nat :=
  foldl (fun m kv => <[kv.1 := kv.2]> m) ∅ l.

Definition fit_on_texts (tk : Tokenizer) (texts : list string) : Tokenizer :=
  let counts :=
    foldl (fun c text =>
             Py.counter_update c (text_to_word_sequence text (filters tk) (lower tk)))
          (word_counts tk) texts in
  let wcounts := Py.sorted_by_count_desc counts in
  let sorted_voc :=
    match oov_token tk with
    | None => []
    | Some oov => [oov]
    end ++ map fst wcounts in
  {| oov_token := oov_token tk; filters := filters tk; lower := lower tk;
     word_counts := counts;
     word_index := dict_of_pairs (zip sorted_voc (seq 1 (length sorted_voc))) |}.

End Keras.

(** ** headliner/trainer.py: the vocabulary builder *)

Definition START_TOKEN : string := "<start>".
Definition END_TOKEN : string := "<end>".
Definition OOV_TOKEN : string := "<unk>".

(** The failure the specification calls EmptyCorpusError: the code has no
    exception class of that name, an empty corpus makes the unpacking of
    line 240 raise this [ValueError]. *)
Definition EmptyCorpusError : exn :=
  ValueError "not enough values to unpack (expected 2, got 0)".

(** [a, b = zip( *pairs )]: the unpacking needs exactly two columns, and
    [zip()] of no rows has none. *)
Definition unzip2 (pairs : list (string * string)) : result (list string * list string) :=
  match pairs with
  | [] => Raise EmptyCorpusError
  | _ => OK (map fst pairs, map snd pairs)
  end.

(** Lines 241-254 for one side: count, select, add the reserved tokens,
    fit a tokenizer on the sorted tokens. *)
Definition side_counter (texts : list string) : Py.Counter :=
  foldl (fun c text => Py.counter_update c (Py.split text)) [] texts.

Definition side_tokens (max_vocab_size : nat) (texts : list string) : gset string :=
  list_to_set (map fst (Py.most_common max_vocab_size (side_counter texts)))
    ∪ {[START_TOKEN; END_TOKEN]}.

Definition side_tokenizer (h : Py.SetOrder) (max_vocab_size : nat)
    (texts : list string) : Keras.Tokenizer :=
  Keras.fit_on_texts (Keras.new_Tokenizer (Some OOV_TOKEN) EmptyString false)
    (Py.sorted (Py.list_of_set h (side_tokens max_vocab_size texts))).

Definition _create_tokenizers (h : Py.SetOrder) (max_vocab_size : nat)
    (train_data_preprocessed : list (string * string))
  : result (Keras.Tokenizer * Keras.Tokenizer) :=
  let! columns := unzip2 train_data_preprocessed in
  let train_text_encoder := columns.1 in
  let train_text_decoder := columns.2 in
  OK (side_tokenizer h max_vocab_size train_text_encoder,
      side_tokenizer h max_vocab_size train_text_decoder).

(** ** Collaborators of the training loop *)

(** Python's [float]: only the operations the code applies to floats.
    [fdiv_int x n] is [x / n] for a non-zero [int] [n]; division by zero is
    raised by the caller before it is applied. *)
Class PyFloat (F : Type) : Type := {
  fzero : F;
  fadd : F -> F -> F;
  fdiv_int : F -> nat -> F
}.

Definition TextPair : Type := string * string.

(** A [Preprocessor] is called on a text pair. *)
Definition Preprocessor : Type := TextPair -> TextPair.

(** [Vectorizer(tokenizer_encoder, tokenizer_decoder)] *)
Record Vectorizer : Type := {
  tokenizer_encoder : Keras.Tokenizer;
  tokenizer_decoder : Keras.Tokenizer
}.

(** The attributes of a summarizer the trainer reads and writes; [weights]
    stands for everything else the model holds. *)
Record Summarizer (Params : Type) : Type := {
  preprocessor : option Preprocessor;
  vectorizer : option Vectorizer;
  embedding_size : nat;
  weights : Params
}.
Arguments preprocessor {Params} s.
Arguments vectorizer {Params} s.
Arguments embedding_size {Params} s.
Arguments weights {Params} s.

(** The [logs] dict: metric name to value. *)
Abbreviation Logs F := (gmap string F).

(** A callback's [on_epoch_end(epoch, logs)]; it sees the summarizer it was
    built with in its current state, and returns the [logs] dict as it has
    left it. *)
Definition Callback (F Params : Type) : Type :=
  Summarizer Params -> nat -> Logs F -> result (Logs F).

(** What one full iteration over a dataset yields, by the number of the
    pass (0 for the first). A corpus that can be read only once gives
    batches on one pass and none afterwards. *)
Definition Dataset (Batch : Type) : Type := nat -> list Batch.

(** The collaborators whose code is outside these files: the model, the
    embedding reader, the data pipeline behind [DatasetGenerator] and the
    standard callbacks other than [EvaluationCallback]. *)
Record Collab (F : Type) : Type := {
  Params : Type;
  States : Type;
  Batch : Type;
  Matrix : Type;
  Embedding : Type;
  Prediction : Type;
  (* summarizer.init_model builds the weights for a vectorizer *)
  new_weights : Vectorizer -> option Matrix -> option Matrix -> Params -> Params;
  (* summarizer.encoder.init_states(batch_size) *)
  init_states : Params -> nat -> States;
  (* summarizer.train_step(source_seq, target_seq, en_initial_states, loss_function) *)
  train_step : Params -> Batch -> States -> Params * F;
  (* summarizer.predict_vectors(input_text, target_text) *)
  predict_vectors : Summarizer Params -> string -> string -> Prediction;
  read_glove : string -> nat -> Embedding;
  embedding_to_matrix : Embedding -> gmap string nat -> nat -> Matrix;
  (* self.dataset_generator(lambda: vectorize(data)) for the preprocessor
     and vectorizer attached to the summarizer; [true] is with bucketing *)
  dataset_generator :
    nat -> bool -> option Preprocessor -> option Vectorizer -> list TextPair -> Dataset Batch;
  BleuScorer : gset string -> Prediction -> F;
  ValidationCallback : Dataset Batch -> nat -> Callback F Params;
  ModelCheckpointCallback : string -> string -> string -> Callback F Params;
  TensorBoard : string -> Callback F Params
}.
Arguments Params {F} c.
Arguments States {F} c.
Arguments Batch {F} c.
Arguments Matrix {F} c.
Arguments Embedding {F} c.
Arguments Prediction {F} c.
Arguments new_weights {F} c.
Arguments init_states {F} c.
Arguments train_step {F} c.
Arguments predict_vectors {F} c.
Arguments read_glove {F} c.
Arguments embedding_to_matrix {F} c.
Arguments dataset_generator {F} c.
Arguments BleuScorer {F} c.
Arguments ValidationCallback {F} c.
Arguments ModelCheckpointCallback {F} c.
Arguments TensorBoard {F} c.

(** ** headliner/callbacks/evaluation_callback.py *)

Module EvaluationCallback.
Section Evaluation.
Context {F : Type} {PF : PyFloat F} (W : Collab F).

(** [val_data] holds the pairs that the iteration of line 32 yields:
    [self.val_data] is an [Iterable], and one call iterates it once. What
    a later call finds there is modelled by [ValData] below. *)
Record t : Type := {
  scorers : gmap string (Prediction W -> F);
  val_data : list TextPair;
  print_num_examples : nat
}.

(** Lines 40-42: [val_scores[score_name] += scorer(prediction)] for every
    scorer. Every name is a key of [val_scores] (line 30). *)
Definition add_scores (self : t) (prediction : Prediction W)
    (val_scores : gmap string F) : gmap string F :=
  foldl (fun vs item => alter (fun v => fadd v (item.2 prediction)) item.1 vs)
        val_scores (map_to_list (scorers self)).

(** Lines 32-42: the loop over the validation pairs; the state is
    [(val_scores, count_val)]. The log line of lines 36-39 has no effect on
    it. *)
Definition score_pairs (self : t) (s : Summarizer (Params W))
    (acc : gmap string F * nat) : gmap string F * nat :=
  foldl (fun acc d =>
           let count_val := S acc.2 in
           let prediction := predict_vectors W s d.1 d.2 in
           (add_scores self prediction acc.1, count_val))
        acc (val_data self).

(** Lines 43-44: [logs[score_name] = float(score / count_val)] *)
Definition average_into (count_val : nat) (val_scores : gmap string F)
    (logs : Logs F) : result (Logs F) :=
  foldl (fun acc item =>
           let! logs := acc in
           if count_val =? 0 then Raise ZeroDivisionError
           else OK (<[item.1 := fdiv_int item.2 count_val]> logs))
        (OK logs) (map_to_list val_scores).

(** [on_epoch_end(batch, logs)]; the result is the dict bound to [logs]
    when the method returns: the caller's dict if one was passed. *)
Definition on_epoch_end (self : t) (s : Summarizer (Params W)) (batch : nat)
    (logs : option (Logs F)) : result (Logs F) :=
  let logs := match logs with None => ∅ | Some logs => logs end in
  let val_scores : gmap string F := (fun _ => fzero) <$> scorers self in
  let acc := score_pairs self s (val_scores, 0) in
  average_into acc.2 acc.1 logs.

Definition as_callback (self : t) : Callback F (Params W) :=
  fun s epoch logs => on_epoch_end self s epoch (Some logs).

End Evaluation.
Arguments scorers {F W} _.
Arguments val_data {F W} _.
Arguments print_num_examples {F W} _.
End EvaluationCallback.

(** ** headliner/trainer.py: the trainer *)

Section Training.
Context {F : Type} {PF : PyFloat F} (W : Collab F).

Record Trainer : Type := {
  batch_size : nat;
  max_vocab_size : nat;
  glove_path : option string;
  steps_per_epoch : nat;
  tensorboard_dir : string;
  model_save_path : string;
  num_print_predictions : nat;
  trainer_preprocessor : Preprocessor;
  trainer_vectorizer : option Vectorizer
}.

(** [self.val_scorers] *)
Definition val_scorers : gmap string (Prediction W -> F) :=
  {[ "bleu_score"%string := BleuScorer W {[OOV_TOKEN; START_TOKEN; END_TOKEN]} ]}.

(** Modelled from the spec: [Summarizer.init_model] (the model class is not
    among these files) attaches the preprocessor and the vectorizer to the
    model and builds its weights from the embedding matrices. *)
Definition init_model (s : Summarizer (Params W)) (pre : Preprocessor)
    (vec : Vectorizer) (embedding_weights_encoder embedding_weights_decoder : option (Matrix W))
  : Summarizer (Params W) :=
  {| preprocessor := Some pre;
     vectorizer := Some vec;
     embedding_size := embedding_size s;
     weights := new_weights W vec embedding_weights_encoder embedding_weights_decoder (weights s) |}.

Definition _init_model (h : Py.SetOrder) (self : Trainer) (s : Summarizer (Params W))
    (train_data : list TextPair) : result (Summarizer (Params W)) :=
  match trainer_vectorizer self with
  | Some vec => OK (init_model s (trainer_preprocessor self) vec None None)
  | None =>
      let train_preprocessed := map (trainer_preprocessor self) train_data in
      let! tokenizers := _create_tokenizers h (max_vocab_size self) train_preprocessed in
      let vec := {| tokenizer_encoder := tokenizers.1; tokenizer_decoder := tokenizers.2 |} in
      let embedding_weights :=
        match glove_path self with
        | None => (None, None)
        | Some path =>
            let embedding := read_glove W path (embedding_size s) in
            (Some (embedding_to_matrix W embedding (Keras.word_index tokenizers.1) (embedding_size s)),
             Some (embedding_to_matrix W embedding (Keras.word_index tokenizers.2) (embedding_size s)))
        end in
      OK (init_model s (trainer_preprocessor self) vec embedding_weights.1 embedding_weights.2)
  end.

(** What a run does to the outside, in order. *)
Inductive event : Type :=
| EvInitModel
    (* self._init_model(summarizer, train_data) is entered *)
| EvTrainStep (batch : Batch W)
| EvOnEpochEnd (callback : nat) (epoch : nat) (logs : Logs F)
    (* the callback at this position of the list is called with these arguments *)
| EvSave (path : string).

(** The summarizer, the locals of [train] and the events so far (latest
    first). *)
Record TrainingState : Type := {
  summarizer : Summarizer (Params W);
  logs : Logs F;
  epoch_count : nat;
  batch_count : nat;
  trace : list event
}.

Inductive outcome : Type :=
| Done (st : TrainingState)
| Failed (e : exn) (st : TrainingState)
| OutOfFuel (st : TrainingState).

Definition final_state (o : outcome) : TrainingState :=
  match o with
  | Done st | Failed _ st | OutOfFuel st => st
  end.

Definition emit (ev : event) (st : TrainingState) : TrainingState :=
  {| summarizer := summarizer st; logs := logs st; epoch_count := epoch_count st;
     batch_count := batch_count st; trace := ev :: trace st |}.

(** Line 179-180: the callbacks in list order, each on the [logs] dict the
    previous ones have left. *)
Definition set_logs (logs' : Logs F) (st : TrainingState) : TrainingState :=
  {| summarizer := summarizer st; logs := logs'; epoch_count := epoch_count st;
     batch_count := batch_count st; trace := trace st |}.

Fixpoint run_callbacks (i : nat) (cbs : list (Callback F (Params W)))
    (st : TrainingState) : outcome :=
  match cbs with
  | [] => Done st
  | cb :: cbs' =>
      let st := emit (EvOnEpochEnd i (epoch_count st) (logs st)) st in
      match cb (summarizer st) (epoch_count st) (logs st) with
      | OK logs' => run_callbacks (S i) cbs' (set_logs logs' st)
      | Raise e => Failed e st
      end
  end.

(** Lines 169-174: count the batch, take the optimization step, store the
    loss. *)
Definition apply_train_step (en_initial_states : States W) (st : TrainingState)
    (batch : Batch W) : TrainingState :=
  let stepped := train_step W (weights (summarizer st)) batch en_initial_states in
  {| summarizer :=
       {| preprocessor := preprocessor (summarizer st);
          vectorizer := vectorizer (summarizer st);
          embedding_size := embedding_size (summarizer st);
          weights := stepped.1 |};
     logs := <["loss"%string := stepped.2]> (logs st);
     epoch_count := epoch_count st;
     batch_count := S (batch_count st);
     trace := EvTrainStep batch :: trace st |}.

(** Lines 181-182: save the model, count the epoch. *)
Definition end_epoch (self : Trainer) (st : TrainingState) : TrainingState :=
  {| summarizer := summarizer st; logs := logs st;
     epoch_count := S (epoch_count st);
     batch_count := batch_count st;
     trace := EvSave (model_save_path self) :: trace st |}.

(** Lines 169-182: the body of the [for] loop. [train_callbacks] is [None]
    when the name was never assigned. *)
Definition train_batch (self : Trainer)
    (train_callbacks : option (list (Callback F (Params W))))
    (en_initial_states : States W) (st : TrainingState) (batch : Batch W) : outcome :=
  let st := apply_train_step en_initial_states st batch in
  if steps_per_epoch self =? 0 then Failed ZeroDivisionError st
  else if batch_count st mod steps_per_epoch self =? 0 then
    match train_callbacks with
    | None => Failed (UnboundLocalError "train_callbacks") st
    | Some cbs =>
        match run_callbacks 0 cbs st with
        | Done st => Done (end_epoch self st)
        | o => o
        end
    end
  else Done st.

(** Line 168: one pass over the dataset. *)
Fixpoint run_pass (self : Trainer)
    (train_callbacks : option (list (Callback F (Params W))))
    (en_initial_states : States W) (batches : list (Batch W))
    (st : TrainingState) : outcome :=
  match batches with
  | [] => Done st
  | batch :: batches' =>
      match train_batch self train_callbacks en_initial_states st batch with
      | Done st' => run_pass self train_callbacks en_initial_states batches' st'
      | o => o
      end
  end.

(** Lines 166-185: the [while] loop; [fuel] bounds the number of passes,
    [pass] counts those already made. *)
Fixpoint train_loop (self : Trainer)
    (train_callbacks : option (list (Callback F (Params W))))
    (train_dataset : Dataset (Batch W)) (num_epochs : nat)
    (fuel : nat) (pass : nat) (st : TrainingState) : outcome :=
  if epoch_count st <? num_epochs then
    match fuel with
    | 0 => OutOfFuel st
    | S fuel' =>
        let en_initial_states := init_states W (weights (summarizer st)) (batch_size self) in
        match run_pass self train_callbacks en_initial_states (train_dataset pass) st with
        | Done st' =>
            if batch_count st' =? 0
            then Failed (ValueError "Iterating over the dataset yielded zero batches!") st'
            else train_loop self train_callbacks train_dataset num_epochs fuel' (S pass) st'
        | o => o
        end
    end
  else Done st.

(** Lines 144-162: the callbacks of the run. *)
Definition choose_callbacks (self : Trainer) (s : Summarizer (Params W))
    (val_data : option (list TextPair))
    (callbacks : option (list (Callback F (Params W))))
  : option (list (Callback F (Params W))) :=
  match callbacks with
  | Some callbacks => Some callbacks
  | None =>
      match val_data with
      | Some val_data =>
          let val_dataset :=
            dataset_generator W (batch_size self) false (preprocessor s) (vectorizer s) val_data in
          Some [ EvaluationCallback.as_callback W
                   {| EvaluationCallback.scorers := val_scorers;
                      EvaluationCallback.val_data := val_data;
                      EvaluationCallback.print_num_examples := num_print_predictions self |};
                 ValidationCallback W val_dataset (batch_size self);
                 ModelCheckpointCallback W (model_save_path self) "loss_val" "min";
                 TensorBoard W (tensorboard_dir self) ]
      | None => None
      end
  end.

Definition start_state (s : Summarizer (Params W)) (tr : list event) : TrainingState :=
  {| summarizer := s; logs := ∅; epoch_count := 0; batch_count := 0; trace := tr |}.

Definition needs_init (s : Summarizer (Params W)) : bool :=
  bool_decide (preprocessor s = None) || bool_decide (vectorizer s = None).

(** Lines 130-134: initialize a bare model; the second component is what
    this adds to the trace. *)
Definition initialize (h : Py.SetOrder) (self : Trainer) (s : Summarizer (Params W))
    (train_data : list TextPair) : result (Summarizer (Params W)) * list event :=
  if needs_init s
  then (_init_model h self s train_data, [EvInitModel])
  else (OK s, []).

(** [Trainer.train] *)
Definition train (h : Py.SetOrder) (self : Trainer) (s : Summarizer (Params W))
    (train_data : list TextPair) (val_data : option (list TextPair))
    (num_epochs : nat) (callbacks : option (list (Callback F (Params W))))
    (fuel : nat) : outcome :=
  let initialized := initialize h self s train_data in
  match initialized.1 with
  | Raise e => Failed e (start_state s initialized.2)
  | OK s =>
      let train_dataset :=
        dataset_generator W (batch_size self) true (preprocessor s) (vectorizer s) train_data in
      let train_callbacks := choose_callbacks self s val_data callbacks in
      train_loop self train_callbacks train_dataset num_epochs fuel 0
        (start_state s initialized.2)
  end.

End Training.

Arguments summarizer {F W} _.
Arguments logs {F W} _.
Arguments epoch_count {F W} _.
Arguments batch_count {F W} _.
Arguments trace {F W} _.
Arguments Done {F W} st.
Arguments Failed {F W} e st.
Arguments OutOfFuel {F W} st.
Arguments EvInitModel {F W}.
Arguments EvTrainStep {F W} batch.
Arguments EvOnEpochEnd {F W} callback epoch logs.
Arguments EvSave {F W} path.

(** ** Notions used to state the properties *)

Section Notions.
Context {F : Type} {PF : PyFloat F} (W : Collab F).

(** The calls of one end of epoch: the callbacks in list order, each given
    the epoch number and the [logs] dict as the previous one left it;
    [final] is the dict after the last one. *)
Inductive epoch_end_calls (s : Summarizer (Params W)) (epoch : nat) :
    nat -> list (Callback F (Params W)) -> Logs F -> list (event W) -> Logs F -> Prop :=
| calls_nil i l : epoch_end_calls s epoch i [] l [] l
| calls_cons i cb cbs l l' evs final :
    cb s epoch l = OK l' ->
    epoch_end_calls s epoch (S i) cbs l' evs final ->
    epoch_end_calls s epoch i (cb :: cbs) l (EvOnEpochEnd i epoch l :: evs) final.

(** No callback of the list raises. *)
Definition callbacks_total (cbs : list (Callback F (Params W))) : Prop :=
  forall cb, cb ∈ cbs -> forall s epoch l, exists l', cb s epoch l = OK l'.

Definition is_epoch_end_of (i : nat) (ev : event W) : bool :=
  match ev with
  | EvOnEpochEnd j _ _ => bool_decide (i = j)
  | _ => false
  end.

Definition is_save (ev : event W) : bool :=
  match ev with EvSave _ => true | _ => false end.

Definition is_train_step (ev : event W) : bool :=
  match ev with EvTrainStep _ => true | _ => false end.

Definition is_init_model (ev : event W) : bool :=
  match ev with EvInitModel => true | _ => false end.

Definition count_events (p : event W -> bool) (tr : list (event W)) : nat :=
  length (List.filter p tr).

(** The preprocessor and the vectorizer attached to the model. *)
Definition attached (st : TrainingState W) : option Preprocessor * option Vectorizer :=
  (preprocessor (summarizer st), vectorizer (summarizer st)).

Definition is_epoch_end (ev : event W) : bool :=
  match ev with EvOnEpochEnd _ _ _ => true | _ => false end.

(** The trace accounts for the counters: one train step per counted batch,
    and per counted epoch one save and one call of every callback. *)
Definition consistent (cbs : list (Callback F (Params W))) (st : TrainingState W) : Prop :=
  count_events (is_train_step) (trace st) = batch_count st /\
  count_events (is_save) (trace st) = epoch_count st /\
  forall j, j < length cbs ->
    count_events (is_epoch_end_of j) (trace st) = epoch_count st.

(** Between [st] and [st'] train steps were taken and nothing else: no
    callback was called, the model was not saved, no epoch was counted. *)
Definition only_steps (st st' : TrainingState W) : Prop :=
  epoch_count st' = epoch_count st /\
  count_events is_save (trace st') = count_events is_save (trace st) /\
  count_events is_epoch_end (trace st') = count_events is_epoch_end (trace st) /\
  count_events is_train_step (trace st') + batch_count st
    = count_events is_train_step (trace st) + batch_count st'.

(** Batches pulled in the first [k] passes over a dataset. *)
Fixpoint pulled (ds : Dataset (Batch W)) (k : nat) : nat :=
  match k with
  | 0 => 0
  | S k' => pulled ds k' + length (ds k')
  end.

End Notions.

(** ** Notions used to state the vocabulary properties *)

Fixpoint all_chars (p : ascii -> bool) (s : string) : bool :=
  match s with
  | EmptyString => true
  | String c s' => p c && all_chars p s'
  end.

(** A token as [split()] yields them: not empty and without whitespace. *)
Definition token_like (w : string) : Prop :=
  w <> EmptyString /\ all_chars (fun c => negb (Py.is_space c)) w = true.

(** All the tokens of one side of the corpus, in order. *)
Definition token_stream (texts : list string) : list string :=
  concat (map Py.split texts).

(** How often a token occurs on one side of the corpus. *)
Definition frequency (texts : list string) (tok : string) : nat :=
  length (filter (fun t => t = tok) (token_stream texts)).

(** The number of distinct tokens on one side. *)
Definition distinct_tokens (texts : list string) : nat :=
  size (list_to_set (token_stream texts) : gset string).

(** Descending count. *)
Definition count_ge (x y : string * nat) : Prop := y.2 <= x.2.

(** [zip(keys, range(a, a + len(keys)))] *)
Definition numbered_from (a : nat) (keys : list string) : list (string * nat) :=
  zip keys (seq a (length keys)).

(** The tokens selected by [most_common] on one side (lines 247-248). *)
Definition selected_tokens (max_vocab_size : nat) (texts : list string) : list string :=
  map fst (Py.most_common max_vocab_size (side_counter texts)).

(** The list a side's tokenizer is fitted on (lines 253-254). *)
Definition fitted_token_list (h : Py.SetOrder) (max_vocab_size : nat)
    (texts : list string) : list string :=
  Py.sorted (Py.list_of_set h (side_tokens max_vocab_size texts)).

(** What the vocabulary of one side has to be: [top] are the selected
    tokens, [sorted_tokens] the list the ids are assigned over. *)
Definition vocabulary_of (max_vocab_size : nat) (texts : list string)
    (tk : Keras.Tokenizer) : Prop :=
  exists top sorted_tokens : list string,
    NoDup top /\
    length top = max_vocab_size `min` distinct_tokens texts /\
    (forall t, t ∈ top -> 0 < frequency texts t) /\
    (forall t u, t ∈ top -> u ∉ top -> frequency texts u <= frequency texts t) /\
    (forall t, t ∈ sorted_tokens <-> t ∈ top \/ t = START_TOKEN \/ t = END_TOKEN) /\
    StronglySorted Py.str_le sorted_tokens /\
    NoDup sorted_tokens /\
    (forall i t, sorted_tokens !! i = Some t ->
       Keras.word_index tk !! t = Some (i + 2)) /\
    (forall t, t ∉ sorted_tokens ->
       Keras.word_index tk !! t = if decide (t = OOV_TOKEN) then Some 1 else None).

(** ** Notions used to state the property of the evaluation callback *)

Section Means.
Context {F : Type} {PF : PyFloat F} (W : Collab F).

(** The values of one scorer on the validation pairs, in order. *)
Definition scores_of (s : Summarizer (Params W)) (scorer : Prediction W -> F)
    (val_data : list TextPair) : list F :=
  map (fun d => scorer (predict_vectors W s d.1 d.2)) val_data.

(** The arithmetic mean as floats compute it: the sum from [0.], in
    order, divided by the count. *)
Definition mean (xs : list F) : F :=
  fdiv_int (foldl fadd fzero xs) (length xs).

End Means.

(** ** A small world to run the definitions in *)

#[global] Instance Q_PyFloat : PyFloat Q :=
  {| fzero := 0%Q;
     fadd := Qplus;
     fdiv_int := fun x n => Qdiv x (inject_Z (Z.of_nat n)) |}.

(** Batches are numbers, the weights count the steps taken, a prediction is
    the input text and its score is its length. *)
Definition demo_world (ds : Dataset nat) : Collab Q :=
  {| Params := nat; States := unit; Batch := nat; Matrix := unit;
     Embedding := unit; Prediction := string;
     new_weights := fun _ _ _ p => p;
     init_states := fun _ _ => tt;
     train_step := fun p b _ => (S p, inject_Z (Z.of_nat b));
     predict_vectors := fun _ input _ => input;
     read_glove := fun _ _ => tt;
     embedding_to_matrix := fun _ _ _ => tt;
     dataset_generator := fun _ bucketing _ _ _ => if bucketing then ds else fun _ => [];
     BleuScorer := fun _ p => inject_Z (Z.of_nat (String.length p));
     ValidationCallback := fun _ _ _ _ l => OK l;
     ModelCheckpointCallback := fun _ _ _ _ _ l => OK l;
     TensorBoard := fun _ _ _ l => OK l |}.

Definition demo_trainer (steps : nat) : Trainer :=
  {| batch_size := 2; max_vocab_size := 3; glove_path := None;
     steps_per_epoch := steps; tensorboard_dir := "/tmp/tb";
     model_save_path := "/tmp/model"; num_print_predictions := 5;
     trainer_preprocessor := fun d => d; trainer_vectorizer := None |}.

Definition demo_corpus : list (string * string) :=
  [("<start> b a b <end>", "<start> x <end>");
   ("<start> c b  a <end>", "<start> y x <end>")]%string.

Definition demo_vectorizer : Vectorizer :=
  {| tokenizer_encoder := side_tokenizer Py.default_order 3 (map fst demo_corpus);
     tokenizer_decoder := side_tokenizer Py.default_order 3 (map snd demo_corpus) |}.

(** A model that is already initialized, and a bare one. *)
Definition demo_summarizer (ds : Dataset nat) : Summarizer (Params (demo_world ds)) :=
  {| preprocessor := Some (fun d => d); vectorizer := Some demo_vectorizer;
     embedding_size := 4; weights := 0 |}.

Definition bare_summarizer (ds : Dataset nat) : Summarizer (Params (demo_world ds)) :=
  {| preprocessor := None; vectorizer := None; embedding_size := 4; weights := 0 |}.

(** A callback that records the epoch under its own name. *)
Definition mark (name : string) (ds : Dataset nat) : Callback Q (Params (demo_world ds)) :=
  fun _ epoch l => OK (<[name := inject_Z (Z.of_nat epoch)]> l).

(** An evaluation callback without scorers and without validation data,
    and one with two scorers and two validation pairs. *)
Definition idle_evaluation (ds : Dataset nat) : EvaluationCallback.t (demo_world ds) :=
  {| EvaluationCallback.scorers := ∅;
     EvaluationCallback.val_data := [];
     EvaluationCallback.print_num_examples := 5 |}.

Definition demo_evaluation (ds : Dataset nat) : EvaluationCallback.t (demo_world ds) :=
  {| EvaluationCallback.scorers :=
       {[ "len"%string := (fun p : string => inject_Z (Z.of_nat (String.length p)));
          "one"%string := (fun _ : string => 1%Q) ]};
     EvaluationCallback.val_data := [("ab", "x"); ("abcd", "y")]%string;
     EvaluationCallback.print_num_examples := 5 |}.

(** Three batches on every pass. *)
Definition three_per_pass : Dataset nat := fun _ => [1; 2; 3].

(** A corpus that can be read once: one batch on the first pass, none
    afterwards. *)
Definition one_shot : Dataset nat := fun pass => if pass =? 0 then [7] else [].

(** No batch at all. *)
Definition no_batches : Dataset nat := fun _ => [].

(** ** headliner/trainer.py: [Trainer.from_config]

    The configuration is the mapping [yaml.load] returns. [from_config]
    passes its values through without looking at them, except for the
    logging level; so the values are the YAML scalars (floats, sequences
    and nested mappings would be passed through alike). The result is the
    keyword arguments computed from the mapping, with which [Trainer] is
    then called; the caller's own [**kwargs] are handed on untouched. *)

Module Config.

Inductive yaml : Type :=
| YNull
| YBool (b : bool)
| YInt (z : Z)
| YStr (s : string).

#[global] Instance yaml_eq_dec : EqDecision yaml.
Proof. solve_decision. Defined.

(** [logging.DEBUG], [logging.INFO], [logging.ERROR] *)
Inductive LoggingLevel : Type := DEBUG | INFO | ERROR.

Record TrainerArgs : Type := {
  batch_size : yaml;
  max_vocab_size : yaml;
  glove_path : yaml;
  steps_per_epoch : yaml;
  tensorboard_dir : yaml;
  model_save_path : yaml;
  bucketing_buffer_size_batches : yaml;
  bucketing_batches_to_bucket : yaml;
  logging_level : LoggingLevel
}.

(** A value, or the [KeyError] of a [cfg[key]] on a missing key. *)
Inductive loaded (A : Type) : Type :=
| Loaded (a : A)
| KeyError (key : string).
Arguments Loaded {A} a.
Arguments KeyError {A} key.

Definition and_then {A B} (r : loaded A) (k : A -> loaded B) : loaded B :=
  match r with
  | Loaded a => k a
  | KeyError key => KeyError key
  end.

(** [cfg[key]] *)
Definition item (cfg : gmap string yaml) (key : string) : loaded yaml :=
  match cfg !! key with
  | Some v => Loaded v
  | None => KeyError key
  end.

(** The keys, in the order lines 86-95 read them. *)
Definition keys_read : list string :=
  ["batch_size"; "max_vocab_size"; "glove_path"; "steps_per_epoch";
   "tensorboard_dir"; "model_save_path"; "bucketing_buffer_size_batches";
   "bucketing_batches_to_bucket"; "logging_level"]%string.

Definition from_config (cfg : gmap string yaml) : loaded TrainerArgs :=
  and_then (item cfg "batch_size") (fun batch_size =>
  and_then (item cfg "max_vocab_size") (fun max_vocab_size =>
  and_then (item cfg "glove_path") (fun glove_path =>
  and_then (item cfg "steps_per_epoch") (fun steps_per_epoch =>
  and_then (item cfg "tensorboard_dir") (fun tensorboard_dir =>
  and_then (item cfg "model_save_path") (fun model_save_path =>
  and_then (item cfg "bucketing_buffer_size_batches") (fun bucketing_buffer_size_batches =>
  and_then (item cfg "bucketing_batches_to_bucket") (fun bucketing_batches_to_bucket =>
  let logging_level := INFO in
  and_then (item cfg "logging_level") (fun logging_level_string =>
  let logging_level :=
    if decide (logging_level_string = YStr "debug") then DEBUG
    else if decide (logging_level_string = YStr "error") then ERROR
    else logging_level in
  Loaded {| batch_size := batch_size;
            max_vocab_size := max_vocab_size;
            glove_path := glove_path;
            steps_per_epoch := steps_per_epoch;
            tensorboard_dir := tensorboard_dir;
            model_save_path := model_save_path;
            bucketing_buffer_size_batches := bucketing_buffer_size_batches;
            bucketing_batches_to_bucket := bucketing_batches_to_bucket;
            logging_level := logging_level |}))))))))).

End Config.

(** ** Further notions and inputs *)

(** The two tokenizers [_create_tokenizers] returns, each with the side of
    the corpus it is built from. *)
Definition built_sides (corpus : list (string * string)) (te td : Keras.Tokenizer)
  : list (Keras.Tokenizer * list string) :=
  [(te, map fst corpus); (td, map snd corpus)].

(** A callback that raises. *)
Definition raising (e : exn) (ds : Dataset nat) : Callback Q (Params (demo_world ds)) :=
  fun _ _ _ => Raise e.

(** A corpus in which the out-of-vocabulary token itself occurs. *)
Definition unk_corpus : list (string * string) :=
  [("<start> <unk> a <end>", "<start> b <end>")]%string.

(** A trainer that brings its own vectorizer, and an embedding path. *)
Definition trainer_with_vectorizer (steps : nat) : Trainer :=
  {| batch_size := 2; max_vocab_size := 3; glove_path := Some "glove.txt"%string;
     steps_per_epoch := steps; tensorboard_dir := "/tmp/tb";
     model_save_path := "/tmp/model"; num_print_predictions := 5;
     trainer_preprocessor := fun d => d; trainer_vectorizer := Some demo_vectorizer |}.

(** Five hundred batches on every pass. *)
Definition five_hundred_per_pass : Dataset nat := fun _ => repeat 1 500.

(** ** headliner/callbacks/evaluation_callback.py: [self.val_data] over
    several calls

    [self.val_data] is an [Iterable], handed through from [train]. A
    container (a list, a tuple) yields its pairs at every iteration; a
    generator yields what is left of it and nothing afterwards. *)
Inductive ValData : Type :=
| Container (pairs : list TextPair)
| Generator (rest : list TextPair).

(** One [for d in self.val_data]: the pairs yielded, and the iterable
    after the loop. *)
Definition iterate (d : ValData) : list TextPair * ValData :=
  match d with
  | Container pairs => (pairs, Container pairs)
  | Generator rest => (rest, Generator [])
  end.

(** One call of [on_epoch_end] on a callback whose [val_data] is the
    iterable [d]: the result of the call and the iterable afterwards. The
    loop of line 32 runs to its end before line 43 divides. *)
Definition on_epoch_end_over {F : Type} {PF : PyFloat F} (W : Collab F)
    (scorers : gmap string (Prediction W -> F)) (print_num_examples : nat)
    (s : Summarizer (Params W)) (d : ValData) (batch : nat)
    (logs : option (Logs F)) : result (Logs F) * ValData :=
  let yielded := iterate d in
  (EvaluationCallback.on_epoch_end W
     {| EvaluationCallback.scorers := scorers;
        EvaluationCallback.val_data := yielded.1;
        EvaluationCallback.print_num_examples := print_num_examples |}
     s batch logs,
   yielded.2).

(** A configuration with all the keys, and one without the last. *)
Definition demo_cfg : gmap string Config.yaml :=
  list_to_map
    [("batch_size", Config.YInt 16); ("max_vocab_size", Config.YInt 200000);
     ("glove_path", Config.YNull); ("steps_per_epoch", Config.YInt 500);
     ("tensorboard_dir", Config.YStr "/tmp/tb");
     ("model_save_path", Config.YStr "/tmp/model");
     ("bucketing_buffer_size_batches", Config.YInt 10000);
     ("bucketing_batches_to_bucket", Config.YInt 100);
     ("logging_level", Config.YStr "warning")]%string.

(** * Properties *)

(** ** Arithmetic of blocks of [steps_per_epoch] batches *)

Lemma div_succ_step (b s : nat) :
  s <> 0 -> S b / s = b / s + (if S b mod s =? 0 then 1 else 0).
Proof.
  intros Hs.
  pose proof (Nat.div_mod b s Hs) as Hb.
  pose proof (Nat.mod_upper_bound b s Hs) as Hr.
  destruct (decide (S (b mod s) = s)) as [Heq|Hne].
  - assert (Hm : S b mod s = 0).
    { symmetry. apply (Nat.mod_unique (S b) s (S (b / s)) 0); lia. }
    assert (Hd : S b / s = S (b / s)).
    { symmetry. apply (Nat.div_unique (S b) s (S (b / s)) 0); lia. }
    rewrite Hm, Hd. simpl. lia.
  - assert (Hm : S b mod s = S (b mod s)).
    { symmetry. apply (Nat.mod_unique (S b) s (b / s) (S (b mod s))); lia. }
    assert (Hd : S b / s = b / s).
    { symmetry. apply (Nat.div_unique (S b) s (b / s) (S (b mod s))); lia. }
    rewrite Hm, Hd. simpl. lia.
Qed.

Lemma div_le_succ (b s : nat) : s <> 0 -> b / s <= S b / s.
Proof. intros Hs. rewrite (div_succ_step b s Hs). lia. Qed.

Lemma div_add_mono (b n s : nat) : s <> 0 -> b / s <= (b + n) / s.
Proof.
  intros Hs. apply Nat.Div0.div_le_mono. lia.
Qed.

(** ** The training loop, step by step *)

Section LoopFacts.
Context {F : Type} {PF : PyFloat F} (W : Collab F).
Implicit Types (st : TrainingState W) (cbs : list (Callback F (Params W))).

Lemma run_callbacks_calls cbs : forall i st evs final,
  epoch_end_calls W (summarizer st) (epoch_count st) i cbs (logs st) evs final ->
  run_callbacks W i cbs st =
    Done {| summarizer := summarizer st; logs := final;
            epoch_count := epoch_count st; batch_count := batch_count st;
            trace := rev evs ++ trace st |}.
Proof.
  induction cbs as [|cb cbs IH]; intros i st evs final Hc; inversion Hc; subst; simpl.
  - destruct st; reflexivity.
  - match goal with H : cb _ _ _ = OK _ |- _ => rewrite H end.
    erewrite IH; [|simpl; eassumption].
    simpl. rewrite <- app_assoc. reflexivity.
Qed.

Lemma run_callbacks_Done cbs : forall i st st',
  run_callbacks W i cbs st = Done st' ->
  exists evs,
    epoch_end_calls W (summarizer st) (epoch_count st) i cbs (logs st) evs (logs st') /\
    st' = {| summarizer := summarizer st; logs := logs st';
             epoch_count := epoch_count st; batch_count := batch_count st;
             trace := rev evs ++ trace st |}.
Proof.
  induction cbs as [|cb cbs IH]; intros i st st' Hrun; simpl in Hrun.
  - inversion Hrun; subst. exists []. split; [constructor|]. destruct st'; reflexivity.
  - destruct (cb (summarizer st) (epoch_count st) (logs st)) as [l'|e] eqn:Hcb;
      [|discriminate].
    apply IH in Hrun as (evs & Hcalls & Hst). simpl in Hcalls, Hst.
    exists (EvOnEpochEnd i (epoch_count st) (logs st) :: evs). split.
    + econstructor; eassumption.
    + rewrite Hst at 1. simpl. rewrite <- app_assoc. reflexivity.
Qed.

Lemma run_callbacks_total cbs : callbacks_total W cbs ->
  forall i st, exists st', run_callbacks W i cbs st = Done st'.
Proof.
  induction cbs as [|cb cbs IH]; intros Htot i st; simpl.
  - eauto.
  - destruct (Htot cb (list_elem_of_here _ _) (summarizer st) (epoch_count st) (logs st))
      as [l' Hl']. rewrite Hl'.
    apply IH. intros cb' Hin. apply Htot. by apply list_elem_of_further.
Qed.

(** The callbacks change the [logs] and add their calls to the trace,
    nothing else; this holds also when one of them raises. *)
Lemma run_callbacks_frame cbs : forall i st,
  let st' := final_state W (run_callbacks W i cbs st) in
  summarizer st' = summarizer st /\ epoch_count st' = epoch_count st /\
  batch_count st' = batch_count st /\
  count_events W (is_init_model W) (trace st') = count_events W (is_init_model W) (trace st) /\
  count_events W (is_save W) (trace st') = count_events W (is_save W) (trace st) /\
  count_events W (is_train_step W) (trace st') = count_events W (is_train_step W) (trace st).
Proof.
  induction cbs as [|cb cbs IH]; intros i st; simpl.
  - repeat split.
  - destruct (cb (summarizer st) (epoch_count st) (logs st)) as [l'|e]; simpl.
    + specialize (IH (S i)
        (set_logs W l' (emit W (EvOnEpochEnd i (epoch_count st) (logs st)) st))).
      simpl in IH. exact IH.
    + repeat split.
Qed.

Lemma count_epoch_end_calls s epoch cbs : forall i l evs final j,
  epoch_end_calls W s epoch i cbs l evs final ->
  count_events W (is_epoch_end_of W j) (rev evs) =
    if bool_decide (i <= j < i + length cbs) then 1 else 0.
Proof.
  induction cbs as [|cb cbs IH]; intros i l evs final j Hc; inversion Hc; subst.
  - simpl. rewrite bool_decide_eq_false_2 by lia. reflexivity.
  - unfold count_events in *. simpl. rewrite List.filter_app, length_app.
    erewrite IH by eassumption. simpl.
    destruct (decide (j = i)) as [->|Hne].
    + rewrite (bool_decide_eq_true_2 (i = i)) by reflexivity. simpl.
      rewrite bool_decide_eq_false_2 by lia.
      rewrite bool_decide_eq_true_2 by lia. reflexivity.
    + rewrite (bool_decide_eq_false_2 (j = i)) by assumption. simpl.
      destruct (decide (S i <= j < S i + length cbs)).
      * rewrite !bool_decide_eq_true_2 by lia. reflexivity.
      * rewrite !bool_decide_eq_false_2 by lia. reflexivity.
Qed.

Lemma epoch_end_calls_only s epoch (p : event W -> bool) i cbs l evs final :
  (forall j e l', p (EvOnEpochEnd j e l') = false) ->
  epoch_end_calls W s epoch i cbs l evs final ->
  length (List.filter p (rev evs)) = 0.
Proof.
  intros Hp Hc. induction Hc; simpl; [done|].
  rewrite List.filter_app, length_app. simpl. rewrite Hp. simpl. lia.
Qed.

Section Batch.
Variables (self : Trainer) (en_initial_states : States W).

Lemma train_batch_zero_steps tc st batch :
  steps_per_epoch self = 0 ->
  train_batch W self tc en_initial_states st batch =
    Failed ZeroDivisionError (apply_train_step W en_initial_states st batch).
Proof. intros H. unfold train_batch. rewrite H. reflexivity. Qed.

Lemma train_batch_inside tc st batch :
  steps_per_epoch self <> 0 ->
  S (batch_count st) mod steps_per_epoch self <> 0 ->
  train_batch W self tc en_initial_states st batch =
    Done (apply_train_step W en_initial_states st batch).
Proof.
  intros Hs Hm. unfold train_batch. simpl.
  destruct (Nat.eqb_spec (steps_per_epoch self) 0); [done|].
  destruct (Nat.eqb_spec (S (batch_count st) mod steps_per_epoch self) 0); done.
Qed.

Lemma train_batch_unbound st batch :
  steps_per_epoch self <> 0 ->
  S (batch_count st) mod steps_per_epoch self = 0 ->
  train_batch W self None en_initial_states st batch =
    Failed (UnboundLocalError "train_callbacks")
           (apply_train_step W en_initial_states st batch).
Proof.
  intros Hs Hm. unfold train_batch. simpl.
  destruct (Nat.eqb_spec (steps_per_epoch self) 0); [done|].
  rewrite Hm. reflexivity.
Qed.

Lemma train_batch_block cbs st batch evs final :
  steps_per_epoch self <> 0 ->
  S (batch_count st) mod steps_per_epoch self = 0 ->
  let st1 := apply_train_step W en_initial_states st batch in
  epoch_end_calls W (summarizer st1) (epoch_count st) 0 cbs (logs st1) evs final ->
  train_batch W self (Some cbs) en_initial_states st batch =
    Done {| summarizer := summarizer st1; logs := final;
            epoch_count := S (epoch_count st);
            batch_count := S (batch_count st);
            trace := EvSave (model_save_path self) :: rev evs
                       ++ EvTrainStep batch :: trace st |}.
Proof.
  intros Hs Hm st1 Hc. unfold train_batch. fold st1. simpl.
  destruct (Nat.eqb_spec (steps_per_epoch self) 0); [done|].
  rewrite Hm. simpl.
  rewrite (run_callbacks_calls cbs 0 st1 evs final Hc). reflexivity.
Qed.

(** What one batch does to the counters, when the loop goes on. *)
Lemma train_batch_Done tc st batch st' :
  train_batch W self tc en_initial_states st batch = Done st' ->
  let hit := if S (batch_count st) mod steps_per_epoch self =? 0 then 1 else 0 in
  steps_per_epoch self <> 0 /\
  batch_count st' = S (batch_count st) /\
  epoch_count st' = epoch_count st + hit /\
  count_events W (is_save W) (trace st') = count_events W (is_save W) (trace st) + hit /\
  count_events W (is_train_step W) (trace st')
    = S (count_events W (is_train_step W) (trace st)) /\
  forall cbs j, tc = Some cbs ->
    count_events W (is_epoch_end_of W j) (trace st')
    = count_events W (is_epoch_end_of W j) (trace st)
      + if bool_decide (j < length cbs) then hit else 0.
Proof.
  unfold train_batch. simpl.
  destruct (Nat.eqb_spec (steps_per_epoch self) 0) as [|Hs]; [done|].
  destruct (Nat.eqb_spec (S (batch_count st) mod steps_per_epoch self) 0) as [Hm|Hm].
  - destruct tc as [cbs|]; [|done].
    destruct (run_callbacks W 0 cbs _) as [st1| |] eqn:Hrun; [|done..].
    intros [= <-]. apply run_callbacks_Done in Hrun as (evs & Hcalls & ->).
    simpl in *. unfold count_events. simpl.
    rewrite !List.filter_app, !length_app. simpl.
    repeat split; try lia.
    + rewrite (epoch_end_calls_only _ _ (is_save W) _ _ _ _ _ (fun _ _ _ => eq_refl) Hcalls).
      lia.
    + rewrite (epoch_end_calls_only _ _ (is_train_step W) _ _ _ _ _
                 (fun _ _ _ => eq_refl) Hcalls).
      lia.
    + intros cbs' j [= <-].
      pose proof (count_epoch_end_calls _ _ _ _ _ _ _ j Hcalls) as Hc.
      unfold count_events in Hc.
      rewrite List.filter_app, length_app. simpl. rewrite Hc.
      destruct (decide (j < length cbs)).
      * rewrite !bool_decide_eq_true_2 by lia. lia.
      * rewrite !bool_decide_eq_false_2 by lia. lia.
  - intros [= <-]. simpl. unfold count_events. simpl.
    repeat split; try lia.
    intros cbs j _. destruct (bool_decide _); lia.
Qed.

(** What one batch never does, however it ends. *)
Lemma train_batch_frame tc st batch :
  let st' := final_state W (train_batch W self tc en_initial_states st batch) in
  attached W st' = attached W st /\
  batch_count st' = S (batch_count st) /\
  epoch_count st <= epoch_count st' /\
  count_events W (is_init_model W) (trace st')
    = count_events W (is_init_model W) (trace st).
Proof.
  unfold train_batch. simpl.
  destruct (steps_per_epoch self =? 0); [simpl; by repeat split|].
  destruct (_ mod _ =? 0); [|simpl; by repeat split].
  destruct tc as [cbs|]; [|simpl; by repeat split].
  pose proof (run_callbacks_frame cbs 0 (apply_train_step W en_initial_states st batch))
    as Hf. simpl in Hf.
  destruct (run_callbacks W 0 cbs _) as [st1|e st1|st1]; simpl in *;
    destruct Hf as (Hs & He & Hb & Hi & _); unfold attached; simpl;
    rewrite Hs, He, Hb; simpl;
    (split; [reflexivity|]); (split; [reflexivity|]); (split; [lia|]); exact Hi.
Qed.

End Batch.

Lemma first_reach_or_none (P : nat -> Prop) `{!forall n, Decision (P n)} (n : nat) :
  (exists k, k <= n /\ P k /\ forall j, j < k -> ~ P j) \/ (forall j, j <= n -> ~ P j).
Proof.
  induction n as [|n [(k & Hk & Hpk & Hmin)|Hnone]].
  - destruct (decide (P 0)) as [Hp|Hp].
    + left. exists 0. repeat split; [lia|done|lia].
    + right. intros j Hj. by replace j with 0 by lia.
  - left. exists k. repeat split; [lia|done..].
  - destruct (decide (P (S n))) as [Hp|Hp].
    + left. exists (S n). repeat split; [lia|done|].
      intros j Hj. apply Hnone. lia.
    + right. intros j Hj. destruct (decide (j = S n)) as [->|]; [done|].
      apply Hnone. lia.
Qed.

Lemma first_reach (P : nat -> Prop) `{!forall n, Decision (P n)} (n : nat) :
  P n -> exists k, k <= n /\ P k /\ forall j, j < k -> ~ P j.
Proof.
  intros Hn. destruct (first_reach_or_none P n) as [?|Hnone]; [done|].
  by destruct (Hnone n).
Qed.

Section Pass.
Variables (self : Trainer).

Lemma run_callbacks_fuel cbs : forall i st st', run_callbacks W i cbs st <> OutOfFuel st'.
Proof.
  induction cbs as [|cb cbs IH]; intros i st st'; simpl; [done|].
  destruct (cb _ _ _); [apply IH|done].
Qed.

Lemma train_batch_fuel tc states st batch st' :
  train_batch W self tc states st batch <> OutOfFuel st'.
Proof.
  unfold train_batch. simpl.
  destruct (_ =? 0); [done|]. destruct (_ =? 0); [|done].
  destruct tc as [cbs|]; [|done].
  pose proof (run_callbacks_fuel cbs 0 (apply_train_step W states st batch)) as Hf.
  destruct (run_callbacks W 0 cbs _); [done|done|]. intros [= <-]. by eapply Hf.
Qed.

Lemma run_pass_fuel tc states bs : forall st st',
  run_pass W self tc states bs st <> OutOfFuel st'.
Proof.
  induction bs as [|b bs IH]; intros st st'; simpl; [done|].
  pose proof (train_batch_fuel tc states st b) as Hf.
  destruct (train_batch W self tc states st b); [apply IH|done|].
  intros [= <-]. by eapply Hf.
Qed.

Lemma run_pass_frame tc states bs : forall st,
  let st' := final_state W (run_pass W self tc states bs st) in
  attached W st' = attached W st /\
  batch_count st <= batch_count st' /\
  epoch_count st <= epoch_count st' /\
  count_events W (is_init_model W) (trace st')
    = count_events W (is_init_model W) (trace st).
Proof.
  induction bs as [|b bs IH]; intros st; simpl; [by repeat split|].
  pose proof (train_batch_frame self states tc st b) as Hb. simpl in Hb.
  destruct (train_batch W self tc states st b) as [st1|e st1|st1]; simpl in *.
  - specialize (IH st1). simpl in IH.
    destruct Hb as (Ha & ? & ? & Hi), IH as (Ha' & ? & ? & Hi').
    rewrite Ha', Ha, Hi', Hi. repeat split; lia.
  - destruct Hb as (? & ? & ? & ?). repeat split; try done; lia.
  - destruct Hb as (? & ? & ? & ?). repeat split; try done; lia.
Qed.

(** A counter that a batch advances exactly when it completes a block
    advances over a pass by the number of blocks completed. *)
Lemma run_pass_blocks (c : TrainingState W -> nat) tc states
    (Hc : forall st b st', train_batch W self tc states st b = Done st' ->
          c st' = c st + if S (batch_count st) mod steps_per_epoch self =? 0 then 1 else 0) :
  forall bs st st', run_pass W self tc states bs st = Done st' ->
  batch_count st' = batch_count st + length bs /\
  c st' = c st + ((batch_count st + length bs) / steps_per_epoch self
                  - batch_count st / steps_per_epoch self).
Proof.
  induction bs as [|b bs IH]; intros st st' Hrun; simpl in Hrun.
  - injection Hrun as <-. simpl. rewrite Nat.add_0_r. lia.
  - destruct (train_batch W self tc states st b) as [st1| |] eqn:Hb; [|done..].
    pose proof (Hc _ _ _ Hb) as Hc1.
    apply train_batch_Done in Hb as (Hs & Hbc & _).
    apply IH in Hrun as [Hbc' Hc']. rewrite Hbc', Hc', Hc1, Hbc.
    cbn [length]. split; [lia|].
    replace (batch_count st + S (length bs)) with (S (batch_count st) + length bs) by lia.
    pose proof (div_succ_step (batch_count st) _ Hs).
    pose proof (div_add_mono (S (batch_count st)) (length bs) _ Hs).
    destruct (_ =? 0); lia.
Qed.

Lemma run_pass_epochs tc states bs st st' :
  run_pass W self tc states bs st = Done st' ->
  batch_count st' = batch_count st + length bs /\
  epoch_count st' = epoch_count st
    + ((batch_count st + length bs) / steps_per_epoch self
       - batch_count st / steps_per_epoch self).
Proof.
  apply (run_pass_blocks (@epoch_count F W)). intros st0 b st1 Hb.
  by apply train_batch_Done in Hb as (_ & _ & -> & _).
Qed.

Lemma run_pass_consistent cbs states bs : forall st st',
  run_pass W self (Some cbs) states bs st = Done st' ->
  consistent W cbs st -> consistent W cbs st'.
Proof.
  induction bs as [|b bs IH]; intros st st' Hrun Hst; simpl in Hrun.
  - by injection Hrun as <-.
  - destruct (train_batch W self (Some cbs) states st b) as [st1| |] eqn:Hb; [|done..].
    apply (IH st1 st' Hrun).
    apply train_batch_Done in Hb as (_ & Hbc & Hec & Hsave & Hstep & Hcb).
    destruct Hst as (Hs1 & Hs2 & Hs3). repeat split.
    + rewrite Hstep, Hbc, Hs1. reflexivity.
    + rewrite Hsave, Hec, Hs2. reflexivity.
    + intros j Hj. rewrite (Hcb cbs j eq_refl), Hec, (Hs3 j Hj).
      rewrite bool_decide_eq_true_2 by done. reflexivity.
Qed.

Lemma run_pass_total cbs states bs : forall st,
  steps_per_epoch self <> 0 -> callbacks_total W cbs ->
  exists st', run_pass W self (Some cbs) states bs st = Done st'.
Proof.
  induction bs as [|b bs IH]; intros st Hs Htot; simpl; [eauto|].
  assert (exists st1, train_batch W self (Some cbs) states st b = Done st1) as [st1 ->].
  { unfold train_batch. simpl.
    destruct (Nat.eqb_spec (steps_per_epoch self) 0); [done|].
    destruct (_ =? 0); [|eauto].
    destruct (run_callbacks_total cbs Htot 0 (apply_train_step W states st b)) as [st1 ->].
    eauto. }
  by apply IH.
Qed.

(** Without a callback list a pass goes on until the batch that completes
    the first block, and stops there. *)
Lemma run_pass_unbound states bs : forall st,
  steps_per_epoch self <> 0 -> batch_count st < steps_per_epoch self ->
  exists st', only_steps W st st' /\
    if decide (steps_per_epoch self <= batch_count st + length bs)
    then run_pass W self None states bs st
           = Failed (UnboundLocalError "train_callbacks") st'
         /\ batch_count st' = steps_per_epoch self
    else run_pass W self None states bs st = Done st'
         /\ batch_count st' = batch_count st + length bs.
Proof.
  induction bs as [|b bs IH]; intros st Hs Hlt; simpl.
  - exists st. split; [by repeat split|].
    rewrite decide_False by lia. split; [done|lia].
  - destruct (decide (S (batch_count st) = steps_per_epoch self)) as [Heq|Hne].
    + rewrite train_batch_unbound by (rewrite ?Heq, ?Nat.Div0.mod_same; done).
      eexists. rewrite decide_True by lia. split; [|split; [reflexivity|simpl; lia]].
      unfold only_steps, count_events. simpl. repeat split; lia.
    + rewrite train_batch_inside by (rewrite ?Nat.mod_small by lia; done).
      destruct (IH (apply_train_step W states st b) Hs) as (st' & Hos & Hif);
        [simpl; lia|].
      exists st'. split.
      * destruct Hos as (H1 & H2 & H3 & H4). unfold only_steps, count_events in *.
        simpl in *. repeat split; lia.
      * simpl in Hif. cbn [length].
        destruct (decide (steps_per_epoch self <= S (batch_count st + length bs))).
        -- rewrite decide_True by lia. done.
        -- rewrite decide_False by lia. destruct Hif. split; [done|lia].
Qed.

End Pass.

Section Loop.
Variables (self : Trainer) (ds : Dataset (Batch W)) (num_epochs : nat).
Abbreviation steps := (steps_per_epoch self).
Abbreviation zero_batches :=
  (ValueError "Iterating over the dataset yielded zero batches!").

Lemma train_loop_halted tc fuel pass st :
  num_epochs <= epoch_count st ->
  train_loop W self tc ds num_epochs fuel pass st = Done st.
Proof.
  intros Hle. destruct fuel; simpl;
    destruct (Nat.ltb_spec (epoch_count st) num_epochs); done || lia.
Qed.

Lemma train_loop_pass tc fuel pass st :
  epoch_count st < num_epochs ->
  train_loop W self tc ds num_epochs (S fuel) pass st =
    match run_pass W self tc (init_states W (weights (summarizer st)) (batch_size self))
            (ds pass) st with
    | Done st' =>
        if batch_count st' =? 0 then Failed zero_batches st'
        else train_loop W self tc ds num_epochs fuel (S pass) st'
    | o => o
    end.
Proof.
  intros Hlt. simpl. destruct (Nat.ltb_spec (epoch_count st) num_epochs); done || lia.
Qed.

(** The check of line 184 on a run that has pulled no batch so far. *)
Lemma train_loop_zero_batches tc fuel pass st :
  epoch_count st < num_epochs -> batch_count st = 0 -> ds pass = [] ->
  train_loop W self tc ds num_epochs (S fuel) pass st = Failed zero_batches st.
Proof.
  intros Hlt Hz Hds. rewrite train_loop_pass by done. rewrite Hds. simpl.
  by rewrite Hz.
Qed.

Lemma train_loop_frame tc : forall fuel pass st,
  let st' := final_state W (train_loop W self tc ds num_epochs fuel pass st) in
  attached W st' = attached W st /\
  count_events W (is_init_model W) (trace st')
    = count_events W (is_init_model W) (trace st).
Proof.
  induction fuel as [|fuel IH]; intros pass st; simpl.
  - destruct (_ <? _); simpl; done.
  - destruct (_ <? _); simpl; [|done].
    pose proof (run_pass_frame self tc
                  (init_states W (weights (summarizer st)) (batch_size self))
                  (ds pass) st) as Hp. simpl in Hp.
    destruct (run_pass W self tc _ (ds pass) st) as [st1|e st1|st1]; simpl in *;
      destruct Hp as (Ha & _ & _ & Hi); [|done..].
    destruct (batch_count st1 =? 0); simpl; [done|].
    specialize (IH (S pass) st1). simpl in IH. destruct IH as [Ha' Hi'].
    by rewrite Ha', Hi'.
Qed.

Lemma blocks_reached (b : nat) :
  steps <> 0 -> b / steps < num_epochs -> b < num_epochs * steps.
Proof.
  intros Hs Hlt. destruct (Nat.lt_ge_cases b (num_epochs * steps)) as [|Hge]; [done|].
  pose proof (Nat.div_le_lower_bound b steps num_epochs Hs). lia.
Qed.

(** Every pass yields a batch: the loop ends, whatever the callbacks do. *)
Lemma train_loop_terminates tc :
  steps <> 0 -> (forall p, ds p <> []) ->
  forall fuel pass st,
    epoch_count st = batch_count st / steps ->
    num_epochs * steps <= batch_count st + fuel ->
    forall st', train_loop W self tc ds num_epochs fuel pass st <> OutOfFuel st'.
Proof.
  intros Hs Hds. induction fuel as [|fuel IH]; intros pass st Hinv Hfuel st'.
  - rewrite train_loop_halted; [done|].
    destruct (Nat.lt_ge_cases (epoch_count st) num_epochs) as [Hlt|]; [|done].
    rewrite Hinv in Hlt. apply (blocks_reached _ Hs) in Hlt. lia.
  - destruct (Nat.lt_ge_cases (epoch_count st) num_epochs) as [Hlt|];
      [|by rewrite train_loop_halted].
    rewrite train_loop_pass by done.
    pose proof (run_pass_fuel self tc
                  (init_states W (weights (summarizer st)) (batch_size self))
                  (ds pass) st) as Hf.
    destruct (run_pass W self tc _ (ds pass) st) as [st1|e st1|st1] eqn:Hrun;
      [|done|intros [= <-]; by eapply Hf].
    apply run_pass_epochs in Hrun as [Hbc Hec].
    assert (length (ds pass) <> 0) by (specialize (Hds pass); by destruct (ds pass)).
    destruct (Nat.eqb_spec (batch_count st1) 0); [done|].
    apply IH; [|lia].
    rewrite Hec, Hbc, Hinv.
    pose proof (div_add_mono (batch_count st) (length (ds pass)) _ Hs). lia.
Qed.

(** With callbacks that do not raise, the loop makes exactly the passes up
    to the first one after which enough blocks are complete. *)
Lemma train_loop_exact cbs :
  steps <> 0 -> (forall p, ds p <> []) -> callbacks_total W cbs ->
  forall n k p st fuel,
    k = p + n ->
    batch_count st = pulled W ds p -> epoch_count st = pulled W ds p / steps ->
    num_epochs <= pulled W ds k / steps ->
    (forall j, p <= j < k -> pulled W ds j / steps < num_epochs) ->
    n <= fuel -> consistent W cbs st ->
    exists st', train_loop W self (Some cbs) ds num_epochs fuel p st = Done st' /\
      batch_count st' = pulled W ds k /\ epoch_count st' = pulled W ds k / steps /\
      consistent W cbs st'.
Proof.
  intros Hs Hds Htot. induction n as [|n IH]; intros k p st fuel -> Hbc Hec Hk Hmin Hfuel Hcons.
  - rewrite Nat.add_0_r in *. exists st. rewrite train_loop_halted by lia. done.
  - destruct fuel as [|fuel]; [lia|].
    assert (Hlt : epoch_count st < num_epochs) by (rewrite Hec; apply Hmin; lia).
    rewrite train_loop_pass by done.
    destruct (run_pass_total self cbs
                (init_states W (weights (summarizer st)) (batch_size self))
                (ds p) st Hs Htot) as [st1 Hrun].
    rewrite Hrun.
    pose proof (run_pass_consistent self cbs _ _ _ _ Hrun Hcons) as Hcons1.
    apply run_pass_epochs in Hrun as [Hbc1 Hec1].
    assert (length (ds p) <> 0) by (specialize (Hds p); by destruct (ds p)).
    destruct (Nat.eqb_spec (batch_count st1) 0); [lia|].
    replace (p + S n) with (S p + n) in * by lia.
    assert (Hp1 : batch_count st1 = pulled W ds (S p)) by (simpl; lia).
    apply (IH (S p + n) (S p) st1 fuel); [reflexivity|exact Hp1| |exact Hk| |lia|exact Hcons1].
    + rewrite Hec1, <- Hbc1, Hp1, Hec, Hbc.
      pose proof (div_add_mono (pulled W ds p) (length (ds p)) _ Hs).
      simpl. lia.
    + intros j Hj. apply Hmin. lia.
Qed.

(** Without a callback list the loop fails at the batch that completes the
    first block. *)
Lemma train_loop_unbound :
  steps <> 0 -> (forall p, ds p <> []) ->
  forall n p st fuel,
    epoch_count st < num_epochs -> batch_count st < steps ->
    steps - batch_count st <= n -> n <= fuel ->
    exists st', train_loop W self None ds num_epochs fuel p st
                  = Failed (UnboundLocalError "train_callbacks") st' /\
      batch_count st' = steps /\ only_steps W st st'.
Proof.
  intros Hs Hds. induction n as [|n IH]; intros p st fuel Hlt Hbc Hn Hfuel; [lia|].
  destruct fuel as [|fuel]; [lia|].
  rewrite train_loop_pass by done.
  destruct (run_pass_unbound self
              (init_states W (weights (summarizer st)) (batch_size self))
              (ds p) st Hs Hbc) as (st1 & Hos & Hif).
  destruct (decide (steps <= batch_count st + length (ds p))).
  - destruct Hif as [-> Hb1]. eauto.
  - destruct Hif as [-> Hb1].
    assert (length (ds p) <> 0) by (specialize (Hds p); by destruct (ds p)).
    destruct (Nat.eqb_spec (batch_count st1) 0); [lia|].
    destruct (IH (S p) st1 fuel) as (st' & Hrun & Hb' & Hos'); try lia.
    { destruct Hos as [-> _]. done. }
    exists st'. repeat split; try done;
      destruct Hos as (? & ? & ? & ?), Hos' as (? & ? & ? & ?); lia.
Qed.

End Loop.

End LoopFacts.

(** ** [Trainer.train] as a whole *)

Section TrainFacts.
Context {F : Type} {PF : PyFloat F} (W : Collab F).
Variables (h : Py.SetOrder) (self : Trainer).
Implicit Types (s : Summarizer (Params W)) (train_data : list TextPair).

Lemma needs_init_iff s :
  needs_init W s = true <-> preprocessor s = None \/ vectorizer s = None.
Proof.
  unfold needs_init. rewrite orb_true_iff, !bool_decide_eq_true. reflexivity.
Qed.

Lemma initialize_trace s train_data :
  (initialize W h self s train_data).2 = if needs_init W s then [EvInitModel] else [].
Proof. unfold initialize. by destruct (needs_init W s). Qed.

Lemma initialize_keeps s train_data :
  needs_init W s = false -> (initialize W h self s train_data).1 = OK s.
Proof. unfold initialize. by intros ->. Qed.

Lemma start_state_counts s train_data (p : event W -> bool) :
  p EvInitModel = false ->
  count_events W p (initialize W h self s train_data).2 = 0.
Proof.
  intros Hp. rewrite initialize_trace. unfold count_events.
  destruct (needs_init W s); simpl; [by rewrite Hp|done].
Qed.

Lemma start_state_consistent s s' train_data cbs :
  consistent W cbs (start_state W s' (initialize W h self s train_data).2).
Proof.
  unfold consistent. simpl. rewrite initialize_trace.
  destruct (needs_init W s); by repeat split.
Qed.

Lemma train_initialized s s' train_data val_data num_epochs callbacks fuel :
  (initialize W h self s train_data).1 = OK s' ->
  train W h self s train_data val_data num_epochs callbacks fuel =
    train_loop W self (choose_callbacks W self s' val_data callbacks)
      (dataset_generator W (batch_size self) true (preprocessor s') (vectorizer s')
         train_data)
      num_epochs fuel 0 (start_state W s' (initialize W h self s train_data).2).
Proof. unfold train. by intros ->. Qed.

Lemma train_init_failed s e train_data val_data num_epochs callbacks fuel :
  (initialize W h self s train_data).1 = Raise e ->
  train W h self s train_data val_data num_epochs callbacks fuel =
    Failed e (start_state W s (initialize W h self s train_data).2).
Proof. unfold train. by intros ->. Qed.

(** The first pass yields no batch: the run fails with the [ValueError] of
    line 185 as soon as that pass is over. *)
Lemma train_first_pass_empty s s' train_data val_data num_epochs callbacks fuel :
  (initialize W h self s train_data).1 = OK s' ->
  num_epochs <> 0 ->
  dataset_generator W (batch_size self) true (preprocessor s') (vectorizer s')
    train_data 0 = [] ->
  train W h self s train_data val_data num_epochs callbacks (S fuel) =
    Failed (ValueError "Iterating over the dataset yielded zero batches!")
           (start_state W s' (initialize W h self s train_data).2).
Proof.
  intros Hi Hn Hds. rewrite (train_initialized _ _ _ _ _ _ _ Hi).
  apply train_loop_zero_batches; simpl; [lia|done..].
Qed.

(** The loop leaves the attached preprocessor and vectorizer alone. *)
Lemma train_keeps_attached s s' train_data val_data num_epochs callbacks fuel :
  (initialize W h self s train_data).1 = OK s' ->
  attached W (final_state W
    (train W h self s train_data val_data num_epochs callbacks fuel))
  = (preprocessor s', vectorizer s').
Proof.
  intros Hi. rewrite (train_initialized _ _ _ _ _ _ _ Hi).
  by rewrite (proj1 (train_loop_frame W self _ _ _ _ _ _)).
Qed.

End TrainFacts.

(** C2, at the input on which the code departs from it: the call with
    the defaults [callbacks=None] and [val_data=None], 500 steps per epoch
    and 500 batches on a pass. The docstring promises the standard
    callbacks when [callbacks] is [None] and calls [val_data] optional, but
    lines 144-162 then bind no callback list: the batch that completes the
    block is not followed by the callbacks, the save and the increment of
    [epoch_count], the run fails there with the unbound name. *)
Theorem C2_default_call_fails_at_block_end :
  let W := demo_world five_hundred_per_pass in
  length (five_hundred_per_pass 0) = 500 /\
  forall fuel, exists st',
    train W Py.default_order (demo_trainer 500) (demo_summarizer five_hundred_per_pass)
      demo_corpus None 1 None (S fuel)
      = Failed (UnboundLocalError "train_callbacks") st' /\
    batch_count st' = 500 /\ epoch_count st' = 0 /\
    count_events W (is_train_step W) (trace st') = 500 /\
    count_events W (is_epoch_end W) (trace st') = 0 /\
    count_events W (is_save W) (trace st') = 0.
Proof.
  intros W. split; [apply repeat_length|]. intros fuel.
  rewrite (train_initialized W Py.default_order (demo_trainer 500)
             (demo_summarizer five_hundred_per_pass)
             (demo_summarizer five_hundred_per_pass)
             demo_corpus None 1 None (S fuel) eq_refl).
  change (dataset_generator W _ true _ _ demo_corpus) with five_hundred_per_pass.
  change (choose_callbacks W _ _ None None) with (@None (list (Callback Q nat))).
  rewrite train_loop_pass by (simpl; lia).
  destruct (run_pass_unbound W (demo_trainer 500) tt (five_hundred_per_pass 0)
              (start_state W (demo_summarizer five_hundred_per_pass) []))
    as (st' & Hos & Hif); [simpl; lia..|].
  rewrite decide_True in Hif
    by (unfold five_hundred_per_pass; rewrite repeat_length; simpl; lia).
  destruct Hif as [Hrun Hb].
  match goal with
  | |- context [run_pass ?a ?b ?c ?d ?e ?f] =>
      assert (Hrun' : run_pass a b c d e f = Failed (UnboundLocalError "train_callbacks") st')
        by exact Hrun;
      rewrite Hrun'
  end.
  clear Hrun Hrun'. exists st'. split; [reflexivity|].
  destruct Hos as (He & Hsv & Hee & Hts).
  change (batch_count st' = 500) in Hb.
  change (epoch_count st' = 0) in He.
  change (count_events W (is_save W) (trace st') = 0) in Hsv.
  change (count_events W (is_epoch_end W) (trace st') = 0) in Hee.
  change (count_events W (is_train_step W) (trace st') + 0 = 0 + batch_count st') in Hts.
  repeat split; lia.
Qed.

(** X23: for a run that has a callback list, the batch that completes a
    block of [steps_per_epoch] batches is followed by the calls of all
    callbacks in list order, each on the [logs] dict as the previous one
    left it, then by the save of the model, then by the increment of
    [epoch_count]; any other batch is followed by none of these; and over
    a pass every callback is called, and the model saved, once per
    completed block. With [steps_per_epoch = 500] and 500 batches that is
    exactly once. *)
Theorem X23_epoch_end_once_per_block {F : Type} {PF : PyFloat F} (W : Collab F)
    (self : Trainer) (cbs : list (Callback F (Params W))) (states : States W) :
  steps_per_epoch self <> 0 ->
  (forall st batch evs final,
     S (batch_count st) mod steps_per_epoch self = 0 ->
     let st1 := apply_train_step W states st batch in
     epoch_end_calls W (summarizer st1) (epoch_count st) 0 cbs (logs st1) evs final ->
     train_batch W self (Some cbs) states st batch =
       Done {| summarizer := summarizer st1; logs := final;
               epoch_count := S (epoch_count st);
               batch_count := S (batch_count st);
               trace := EvSave (model_save_path self) :: rev evs
                          ++ EvTrainStep batch :: trace st |}) /\
  (forall st batch,
     S (batch_count st) mod steps_per_epoch self <> 0 ->
     train_batch W self (Some cbs) states st batch
       = Done (apply_train_step W states st batch)) /\
  (callbacks_total W cbs ->
   forall bs st, consistent W cbs st ->
   exists st',
     run_pass W self (Some cbs) states bs st = Done st' /\
     batch_count st' = batch_count st + length bs /\
     epoch_count st' = epoch_count st
       + ((batch_count st + length bs) / steps_per_epoch self
          - batch_count st / steps_per_epoch self) /\
     consistent W cbs st').
Proof.
  intros Hs. split; [|split].
  - intros st batch evs final Hm st1 Hc. by apply train_batch_block.
  - intros st batch Hm. by apply train_batch_inside.
  - intros Htot bs st Hcons.
    destruct (run_pass_total W self cbs states bs st Hs Htot) as [st' Hrun].
    exists st'. split; [done|].
    destruct (run_pass_epochs W self _ _ _ _ _ Hrun) as [Hb He].
    split; [exact Hb|]. split; [exact He|].
    exact (run_pass_consistent W self cbs states bs st st' Hrun Hcons).
Qed.

(** The case of the specification: 500 steps per epoch, 500 batches, two
    callbacks. *)
Lemma X23_witness_500 :
  let W := demo_world no_batches in
  let cbs := [mark "first" no_batches; mark "second" no_batches] in
  let st := start_state W (demo_summarizer no_batches) [] in
  steps_per_epoch (demo_trainer 500) <> 0 /\
  exists st',
    run_pass W (demo_trainer 500) (Some cbs) tt (repeat 1 500) st = Done st' /\
    batch_count st' = 500 /\ epoch_count st' = 1 /\
    count_events W (is_save W) (trace st') = 1 /\
    count_events W (is_epoch_end_of W 0) (trace st') = 1 /\
    count_events W (is_epoch_end_of W 1) (trace st') = 1.
Proof.
  intros W cbs st.
  assert (Hs : steps_per_epoch (demo_trainer 500) <> 0) by (simpl; lia).
  split; [exact Hs|].
  destruct (X23_epoch_end_once_per_block W (demo_trainer 500) cbs tt Hs) as (_ & _ & Hpass).
  assert (Htot : callbacks_total W cbs).
  { intros cb Hcb s epoch l.
    apply elem_of_cons in Hcb as [->|Hcb]; [eexists; reflexivity|].
    apply elem_of_cons in Hcb as [->|Hcb]; [eexists; reflexivity|].
    by apply not_elem_of_nil in Hcb. }
  assert (Hst : consistent W cbs st) by (repeat split).
  destruct (Hpass Htot (repeat 1 500) st Hst) as (st' & Hrun & Hb & He & Hc1 & Hc2 & Hc3).
  exists st'. rewrite repeat_length in Hb, He.
  change (epoch_count st' = 1) in He.
  change (batch_count st' = 500) in Hb.
  split; [exact Hrun|]. split; [exact Hb|]. split; [exact He|].
  rewrite Hc2, (Hc3 0), (Hc3 1), He by (simpl; lia). done.
Defined.

(** C9: with [callbacks=None] and [val_data=None] no callback list is
    assigned; every batch that completes a block of [steps_per_epoch]
    batches then raises the unbound-name error, and a run whose passes all
    yield batches fails with it at batch number [steps_per_epoch], after
    that many train steps, with no callback called, the model not saved and
    [epoch_count] still 0. *)
Theorem C9_unbound_callbacks {F : Type} {PF : PyFloat F} (W : Collab F)
    (h : Py.SetOrder) (self : Trainer) (s s' : Summarizer (Params W))
    (train_data : list TextPair) (num_epochs : nat) :
  (initialize W h self s train_data).1 = OK s' ->
  steps_per_epoch self <> 0 ->
  num_epochs <> 0 ->
  (forall p, dataset_generator W (batch_size self) true (preprocessor s') (vectorizer s')
               train_data p <> []) ->
  choose_callbacks W self s' None None = None /\
  (forall states st batch,
     S (batch_count st) mod steps_per_epoch self = 0 ->
     train_batch W self None states st batch =
       Failed (UnboundLocalError "train_callbacks") (apply_train_step W states st batch)) /\
  forall fuel, steps_per_epoch self <= fuel ->
    exists st',
      train W h self s train_data None num_epochs None fuel
        = Failed (UnboundLocalError "train_callbacks") st' /\
      batch_count st' = steps_per_epoch self /\
      epoch_count st' = 0 /\
      count_events W (is_train_step W) (trace st') = steps_per_epoch self /\
      count_events W (is_epoch_end W) (trace st') = 0 /\
      count_events W (is_save W) (trace st') = 0.
Proof.
  intros Hi Hs Hn Hds. split; [reflexivity|]. split.
  - intros states st batch Hm. by apply train_batch_unbound.
  - intros fuel Hfuel. rewrite (train_initialized W h self _ _ _ _ _ _ _ Hi).
    change (choose_callbacks W self s' None None) with (@None (list (Callback F (Params W)))).
    destruct (train_loop_unbound W self _ num_epochs Hs Hds (steps_per_epoch self) 0
                (start_state W s' (initialize W h self s train_data).2) fuel)
      as (st' & Hrun & Hb & He & Hsave & Hee & Hsteps); simpl; try lia.
    exists st'. split; [exact Hrun|]. split; [exact Hb|]. split; [exact He|].
    simpl in Hsave, Hee, Hsteps.
    rewrite (start_state_counts W h self) in Hsave, Hee, Hsteps by reflexivity.
    repeat split; lia.
Qed.

Lemma C9_witness :
  let W := demo_world three_per_pass in
  exists st',
    train W Py.default_order (demo_trainer 2) (demo_summarizer three_per_pass)
      demo_corpus None 1 None 2
      = Failed (UnboundLocalError "train_callbacks") st' /\
    batch_count st' = 2 /\ epoch_count st' = 0 /\
    count_events W (is_train_step W) (trace st') = 2 /\
    count_events W (is_epoch_end W) (trace st') = 0 /\
    count_events W (is_save W) (trace st') = 0.
Proof.
  intros W.
  refine (proj2 (proj2 (C9_unbound_callbacks W Py.default_order (demo_trainer 2)
            (demo_summarizer three_per_pass) (demo_summarizer three_per_pass)
            demo_corpus 1 eq_refl _ _ _)) 2 _); simpl; try lia.
  intros p Hp; discriminate Hp.
Defined.

(** C3, at the input on which the code departs from it: one step per
    epoch, three batches per pass, [num_epochs = 1] ("number of epochs to
    train", line 124). The test [epoch_count < num_epochs] is reached only
    between passes, there is none inside the [for] loop: the run does not
    fail, but it goes on after [epoch_count] has reached 1 and ends with
    [epoch_count = 3], three epochs trained and saved. *)
Theorem C3_runs_past_num_epochs :
  let W := demo_world three_per_pass in
  let run := train W Py.default_order (demo_trainer 1) (demo_summarizer three_per_pass)
               demo_corpus None 1 (Some []) in
  (forall fuel, 1 <= fuel ->
     exists st, run fuel = Done st /\ epoch_count st = 3 /\ batch_count st = 3 /\
       count_events W (is_save W) (trace st) = 3) /\
  ~ (exists fuel st, run fuel = Done st /\ epoch_count st = 1).
Proof.
  intros W run.
  assert (Hrun : forall fuel, 1 <= fuel ->
            exists st, run fuel = Done st /\ epoch_count st = 3 /\ batch_count st = 3 /\
              count_events W (is_save W) (trace st) = 3).
  { intros fuel Hfuel. destruct fuel as [|fuel]; [lia|].
    unfold run.
    rewrite (train_initialized W Py.default_order (demo_trainer 1)
               (demo_summarizer three_per_pass) (demo_summarizer three_per_pass)
               demo_corpus None 1 (Some []) (S fuel) eq_refl).
    rewrite train_loop_pass by (simpl; lia).
    destruct (run_pass_total W (demo_trainer 1) [] tt (three_per_pass 0)
                (start_state W (demo_summarizer three_per_pass) [])) as [st1 Hp];
      [simpl; lia|intros cb Hcb; by apply not_elem_of_nil in Hcb|].
    match goal with
    | |- context [run_pass ?a ?b ?c ?d ?e ?f] =>
        assert (Hp' : run_pass a b c d e f = Done st1) by exact Hp; rewrite Hp'
    end.
    assert (Hcons : consistent W [] st1).
    { apply (run_pass_consistent W (demo_trainer 1) [] tt (three_per_pass 0) _ _ Hp).
      by repeat split. }
    apply run_pass_epochs in Hp as [Hb He]. simpl in Hb, He.
    rewrite Hb. simpl. rewrite train_loop_halted by lia.
    exists st1. split; [done|]. split; [exact He|]. split; [exact Hb|].
    destruct Hcons as (_ & Hsave & _). by rewrite Hsave, He. }
  split; [exact Hrun|].
  intros (fuel & st & Hdone & He).
  destruct fuel as [|fuel]; [discriminate|].
  destruct (Hrun (S fuel)) as (st' & Hdone' & He' & _); [lia|].
  rewrite Hdone in Hdone'. injection Hdone' as ->. lia.
Qed.

(** X24: when [steps_per_epoch] is not 0 and every pass yields at
    least one batch, a run ends (it is done or it has failed) within
    [num_epochs * steps_per_epoch] passes. The loop condition is tested
    between passes only: when the model is initialized and the callbacks do
    not raise, the run makes exactly the passes up to the first one after
    which [num_epochs] blocks are complete, and ends with
    [epoch_count >= num_epochs]. *)
Theorem X24_halts_between_passes {F : Type} {PF : PyFloat F} (W : Collab F)
    (h : Py.SetOrder) (self : Trainer) (s : Summarizer (Params W))
    (train_data : list TextPair) (val_data : option (list TextPair))
    (num_epochs : nat) (callbacks : option (list (Callback F (Params W)))) :
  steps_per_epoch self <> 0 ->
  (forall pre vec p,
     dataset_generator W (batch_size self) true pre vec train_data p <> []) ->
  (forall fuel st', num_epochs * steps_per_epoch self <= fuel ->
     train W h self s train_data val_data num_epochs callbacks fuel <> OutOfFuel st') /\
  (forall s' cbs,
     (initialize W h self s train_data).1 = OK s' ->
     choose_callbacks W self s' val_data callbacks = Some cbs ->
     callbacks_total W cbs ->
     let ds := dataset_generator W (batch_size self) true (preprocessor s') (vectorizer s')
                 train_data in
     exists k,
       num_epochs <= pulled W ds k / steps_per_epoch self /\
       (forall j, j < k -> pulled W ds j / steps_per_epoch self < num_epochs) /\
       forall fuel, k <= fuel ->
         exists st',
           train W h self s train_data val_data num_epochs callbacks fuel = Done st' /\
           batch_count st' = pulled W ds k /\
           epoch_count st' = pulled W ds k / steps_per_epoch self /\
           num_epochs <= epoch_count st').
Proof.
  intros Hs Hds. split.
  - intros fuel st' Hfuel.
    destruct ((initialize W h self s train_data).1) as [s'|e] eqn:Hi.
    + rewrite (train_initialized W h self _ _ _ _ _ _ _ Hi).
      apply train_loop_terminates; simpl; try done. by rewrite Nat.Div0.div_0_l.
    + by rewrite (train_init_failed W h self _ _ _ _ _ _ _ Hi).
  - intros s' cbs Hi Hcbs Htot ds.
    assert (Hgrow : forall k, k <= pulled W ds k).
    { induction k as [|k IH]; simpl; [lia|].
      specialize (Hds (preprocessor s') (vectorizer s') k). fold ds in Hds.
      destruct (ds k); [done|simpl; lia]. }
    destruct (first_reach (fun k => num_epochs <= pulled W ds k / steps_per_epoch self)
                (num_epochs * steps_per_epoch self)) as (k & _ & Hk & Hmin).
    { apply Nat.div_le_lower_bound; [done|].
      specialize (Hgrow (num_epochs * steps_per_epoch self)). lia. }
    exists k. split; [exact Hk|]. split.
    { intros j Hj. specialize (Hmin j Hj). lia. }
    intros fuel Hfuel. rewrite (train_initialized W h self _ _ _ _ _ _ _ Hi), Hcbs.
    destruct (train_loop_exact W self ds num_epochs cbs Hs (Hds _ _) Htot k k 0
                (start_state W s' (initialize W h self s train_data).2) fuel)
      as (st' & Hrun & Hb & He & _); try done.
    + simpl. by rewrite Nat.Div0.div_0_l.
    + intros j Hj. specialize (Hmin j). lia.
    + apply start_state_consistent.
    + exists st'. repeat split; try done. by rewrite He.
Qed.

Lemma X24_witness :
  let W := demo_world three_per_pass in
  exists st',
    train W Py.default_order (demo_trainer 2) (demo_summarizer three_per_pass)
      demo_corpus None 2 (Some [mark "m" three_per_pass]) 4 = Done st' /\
    2 <= epoch_count st'.
Proof.
  intros W.
  destruct (X24_halts_between_passes W Py.default_order (demo_trainer 2)
              (demo_summarizer three_per_pass) demo_corpus None 2
              (Some [mark "m" three_per_pass])) as [_ Hexact].
  { simpl. lia. }
  { intros pre vec p Hp. discriminate Hp. }
  destruct (Hexact (demo_summarizer three_per_pass) [mark "m" three_per_pass]
              eq_refl eq_refl) as (k & _ & Hmin & Hrun).
  { intros cb Hcb s epoch l.
    apply list_elem_of_singleton in Hcb as ->. eexists. reflexivity. }
  assert (Hk : k <= 4).
  { destruct (Nat.le_gt_cases k 2) as [|Hgt]; [lia|].
    specialize (Hmin 2 ltac:(lia)). vm_compute in Hmin. lia. }
  destruct (Hrun 4 Hk) as (st' & Hdone & _ & _ & Hge).
  exists st'. split; [exact Hdone|exact Hge].
Defined.

(** C1, at the input on which the code departs from it: a corpus that
    yields one batch on the first pass and none afterwards, two steps per
    epoch, one epoch asked for. Every pass after the first yields zero
    batches, yet no [ValueError] is raised: whatever the number of passes
    allowed, the loop is still running, with [batch_count = 1]. *)
Theorem C1_later_empty_pass_not_detected :
  let W := demo_world one_shot in
  (forall pass, one_shot (S pass) = []) /\
  forall fuel, exists st,
    train W Py.default_order (demo_trainer 2) (demo_summarizer one_shot)
      demo_corpus None 1 (Some []) fuel = OutOfFuel st /\
    epoch_count st = 0 /\
    batch_count st = if fuel =? 0 then 0 else 1.
Proof.
  intros W. split; [reflexivity|]. intros fuel.
  rewrite (train_initialized W Py.default_order (demo_trainer 2)
             (demo_summarizer one_shot) (demo_summarizer one_shot)
             demo_corpus None 1 (Some []) fuel eq_refl).
  change (dataset_generator W _ true _ _ demo_corpus) with one_shot.
  change (choose_callbacks W _ _ None (Some [])) with (Some (@nil (Callback Q nat))).
  destruct fuel as [|fuel]; [simpl; eauto|].
  rewrite train_loop_pass by (simpl; lia).
  destruct (run_pass_total W (demo_trainer 2) [] tt (one_shot 0)
              (start_state W (demo_summarizer one_shot) [])) as [st1 Hp];
    [simpl; lia|intros cb Hcb; by apply not_elem_of_nil in Hcb|].
  match goal with
  | |- context [run_pass ?a ?b ?c ?d ?e ?f] =>
      assert (Hp' : run_pass a b c d e f = Done st1) by exact Hp; rewrite Hp'
  end.
  apply run_pass_epochs in Hp as [Hb He]. simpl in Hb, He.
  rewrite Hb. simpl.
  assert (Hloop : forall n pass st, epoch_count st = 0 -> batch_count st = 1 ->
            train_loop W (demo_trainer 2) (Some []) one_shot 1 n (S pass) st = OutOfFuel st).
  { induction n as [|n IH]; intros pass st Hec Hbc.
    - simpl. by rewrite Hec.
    - rewrite train_loop_pass by lia. simpl. rewrite Hbc. simpl. by apply IH. }
  rewrite Hloop by done. eauto.
Qed.

(** ** The order on strings and [sorted] *)

Lemma str_compare_le_trans (a : string) : forall b c,
  String.compare a b <> Gt -> String.compare b c <> Gt -> String.compare a c <> Gt.
Proof.
  induction a as [|x a IH]; intros [|y b] [|z c]; simpl; try done.
  unfold Ascii.compare.
  destruct (N.compare_spec (N_of_ascii x) (N_of_ascii y)) as [Hxy|Hxy|Hxy];
    destruct (N.compare_spec (N_of_ascii y) (N_of_ascii z)) as [Hyz|Hyz|Hyz];
    destruct (N.compare_spec (N_of_ascii x) (N_of_ascii z)) as [Hxz|Hxz|Hxz];
    try done; try lia.
  apply IH.
Qed.

#[global] Instance str_le_trans : Transitive Py.str_le.
Proof.
  intros a b c. unfold Py.str_le, String.leb. intros Hab Hbc.
  pose proof (str_compare_le_trans a b c) as Ht.
  destruct (String.compare a b), (String.compare b c), (String.compare a c);
    try done; exfalso; by apply Ht.
Qed.

#[global] Instance str_le_antisym : AntiSymm (=) Py.str_le.
Proof. intros a b. apply String.leb_antisym. Qed.

#[global] Instance str_le_total : Total Py.str_le.
Proof. intros a b. apply String.leb_total. Qed.

Lemma sorted_Sorted (l : list string) : StronglySorted Py.str_le (Py.sorted l).
Proof. apply StronglySorted_merge_sort; apply _. Qed.

Lemma sorted_Permutation (l : list string) : Py.sorted l ≡ₚ l.
Proof. apply merge_sort_Permutation. Qed.

(** [sorted] forgets the order of its argument. *)
Lemma sorted_of_Permutation (l1 l2 : list string) :
  l1 ≡ₚ l2 -> Py.sorted l1 = Py.sorted l2.
Proof.
  intros Hp. apply (StronglySorted_unique Py.str_le); try apply sorted_Sorted.
  by rewrite !sorted_Permutation.
Qed.

Lemma sorted_list_of_set (h : Py.SetOrder) (X : gset string) :
  Py.sorted (Py.list_of_set h X) = Py.sorted (elements X).
Proof. apply sorted_of_Permutation, Py.list_of_set_perm. Qed.

(** C4: vocabulary building on an empty corpus fails, with the
    [ValueError] that stands for EmptyCorpusError; so does [_init_model]
    for a trainer without a vectorizer of its own, which is the one path
    that builds vocabularies. *)
Theorem C4_empty_corpus_fails :
  (forall h max_vocab_size,
     _create_tokenizers h max_vocab_size [] = Raise EmptyCorpusError) /\
  (forall F (W : Collab F) h (self : Trainer) s,
     trainer_vectorizer self = None ->
     _init_model W h self s [] = Raise EmptyCorpusError).
Proof.
  split; [reflexivity|].
  intros F W h self s Hv. unfold _init_model. by rewrite Hv.
Qed.

Lemma C4_witness :
  _init_model (demo_world no_batches) Py.default_order (demo_trainer 1)
    (bare_summarizer no_batches) [] = Raise EmptyCorpusError.
Proof.
  exact (proj2 C4_empty_corpus_fails Q (demo_world no_batches) Py.default_order
           (demo_trainer 1) (bare_summarizer no_batches) eq_refl).
Defined.

(** C6: two runs of [_create_tokenizers] on the same corpus with the same
    maximum size give the same tokenizers, hence the same token-to-id
    mappings on both sides, whatever order each run enumerates its token
    sets in. *)
Theorem C6_create_tokenizers_deterministic (h1 h2 : Py.SetOrder)
    (max_vocab_size : nat) (corpus : list (string * string)) :
  _create_tokenizers h1 max_vocab_size corpus
    = _create_tokenizers h2 max_vocab_size corpus /\
  forall te1 td1 te2 td2,
    _create_tokenizers h1 max_vocab_size corpus = OK (te1, td1) ->
    _create_tokenizers h2 max_vocab_size corpus = OK (te2, td2) ->
    Keras.word_index te1 = Keras.word_index te2 /\
    Keras.word_index td1 = Keras.word_index td2.
Proof.
  assert (Heq : _create_tokenizers h1 max_vocab_size corpus
                = _create_tokenizers h2 max_vocab_size corpus).
  { unfold _create_tokenizers, side_tokenizer.
    destruct (unzip2 corpus) as [cols|e]; simpl; [|done].
    by rewrite !(sorted_list_of_set h1), !(sorted_list_of_set h2). }
  split; [exact Heq|].
  intros te1 td1 te2 td2 H1 H2. rewrite Heq, H2 in H1. by injection H1 as <- <-.
Qed.

Lemma C6_witness :
  exists te td,
    _create_tokenizers Py.default_order 2 demo_corpus = OK (te, td) /\
    _create_tokenizers Py.reversed_order 2 demo_corpus = OK (te, td).
Proof.
  destruct (_create_tokenizers Py.default_order 2 demo_corpus) as [[te td]|e] eqn:H1;
    [|discriminate H1].
  exists te, td. split; [reflexivity|].
  rewrite <- H1. symmetry.
  exact (proj1 (C6_create_tokenizers_deterministic Py.default_order Py.reversed_order
                  2 demo_corpus)).
Defined.

(** ** [split()] and keras' word splitting *)

Lemma str_app_assoc (a b c : string) :
  ((a +:+ b) +:+ c = a +:+ (b +:+ c))%string.
Proof.
  induction a as [|x a IH]; [done|].
  change (String x ((a +:+ b) +:+ c) = String x (a +:+ (b +:+ c)))%string.
  by rewrite IH.
Qed.

Lemma str_app_nil_r (a : string) : (a +:+ EmptyString)%string = a.
Proof.
  induction a as [|x a IH]; [done|].
  change (String x (a +:+ EmptyString) = String x a)%string. by rewrite IH.
Qed.

Lemma all_chars_app p (a b : string) :
  all_chars p (a +:+ b) = all_chars p a && all_chars p b.
Proof.
  induction a as [|x a IH]; [done|].
  change (p x && all_chars p (a +:+ b) = p x && all_chars p a && all_chars p b).
  by rewrite IH, andb_assoc.
Qed.

Lemma snoc_char_not_empty w c : Py.snoc_char w c <> EmptyString.
Proof. by destruct w. Qed.

Lemma split_from_tokens (s : string) : forall word,
  word = EmptyString \/ token_like word ->
  Forall token_like (Py.split_from word s).
Proof.
  induction s as [|c s IH]; intros word Hword; simpl.
  - destruct (decide (word = EmptyString)); [constructor|].
    destruct Hword; [done|]. constructor; [done|constructor].
  - destruct (Py.is_space c) eqn:Hc.
    + destruct (decide (word = EmptyString)); [by apply IH; left|].
      destruct Hword; [done|]. constructor; [done|]. by apply IH; left.
    + apply IH. right. split; [apply snoc_char_not_empty|].
      unfold Py.snoc_char. rewrite all_chars_app. simpl. rewrite Hc. simpl.
      destruct Hword as [->|[_ ->]]; done.
Qed.

Lemma split_tokens (s : string) : Forall token_like (Py.split s).
Proof. apply split_from_tokens. by left. Qed.

Lemma token_stream_tokens texts : Forall token_like (token_stream texts).
Proof.
  unfold token_stream. induction texts as [|t texts IH]; simpl; [constructor|].
  apply Forall_app. split; [apply split_tokens|done].
Qed.

Lemma map_string_translate_nil (s : string) :
  Keras.map_string (Keras.translate EmptyString) s = s.
Proof. induction s as [|c s IH]; simpl; [done|]. by rewrite IH. Qed.

Lemma split_on_from_no_sep sep (s : string) : forall word,
  all_chars (fun c => negb (Ascii.eqb c sep)) s = true ->
  Py.split_on_from sep word s = [(word +:+ s)%string].
Proof.
  induction s as [|c s IH]; intros word Hs; simpl in *.
  - by rewrite str_app_nil_r.
  - apply andb_true_iff in Hs as [Hc Hs].
    destruct (Ascii.eqb c sep); [done|].
    rewrite IH by done. unfold Py.snoc_char. by rewrite str_app_assoc.
Qed.

Lemma all_chars_impl (p q : ascii -> bool) (s : string) :
  (forall c, p c = true -> q c = true) -> all_chars p s = true -> all_chars q s = true.
Proof.
  intros Hpq. induction s as [|c s IH]; simpl; [done|].
  rewrite !andb_true_iff. intros [? ?]. auto.
Qed.

(** keras sees a token of [split()] as one word. *)
Lemma text_to_word_sequence_token (t : string) :
  token_like t -> Keras.text_to_word_sequence t EmptyString false = [t].
Proof.
  intros [Hne Hsp]. unfold Keras.text_to_word_sequence, Py.split_on.
  rewrite map_string_translate_nil, split_on_from_no_sep.
  - simpl. unfold filter. simpl. by rewrite decide_True.
  - revert Hsp. apply all_chars_impl. intros c Hc.
    destruct (Ascii.eqb_spec c " "%char) as [->|]; [done|done].
Qed.

Lemma reserved_token_like : token_like START_TOKEN /\ token_like END_TOKEN.
Proof. by repeat split. Qed.

(** ** Counters *)

Lemma counter_incr_get (t : string) (c : Py.Counter) (k : string) :
  Py.counter_get (Py.counter_incr t c) k
  = Py.counter_get c k + if decide (t = k) then 1 else 0.
Proof.
  induction c as [|[k' n] c IH]; simpl.
  - by destruct (decide (t = k)).
  - destruct (decide (k' = t)) as [->|Hne]; simpl.
    + destruct (decide (t = k)); lia.
    + destruct (decide (k' = k)) as [->|]; [|done].
      rewrite decide_False by done. lia.
Qed.

Lemma counter_update_get (l : list string) : forall (c : Py.Counter) (k : string),
  Py.counter_get (Py.counter_update c l) k
  = Py.counter_get c k + length (filter (fun t => t = k) l).
Proof.
  unfold Py.counter_update.
  induction l as [|t l IH]; intros c k; simpl; [lia|].
  rewrite IH, counter_incr_get, filter_cons.
  destruct (decide (t = k)); simpl; lia.
Qed.

Lemma counter_incr_keys (t : string) (c : Py.Counter) :
  map fst (Py.counter_incr t c)
  = if decide (t ∈ map fst c) then map fst c else map fst c ++ [t].
Proof.
  induction c as [|[k n] c IH].
  - rewrite decide_False; [done|]. apply not_elem_of_nil.
  - cbn [Py.counter_incr]. destruct (decide (k = t)) as [->|Hne].
    + rewrite decide_True; [done|]. apply list_elem_of_here.
    + cbn [List.map fst]. rewrite IH.
      destruct (decide (t ∈ map fst c)) as [Hin|Hnin].
      * rewrite decide_True; [done|]. by apply list_elem_of_further.
      * rewrite decide_False; [done|].
        intros Hin. apply elem_of_cons in Hin as [->|]; done.
Qed.

Lemma counter_incr_NoDup t c :
  NoDup (map fst c) -> NoDup (map fst (Py.counter_incr t c)).
Proof.
  intros Hnd. rewrite counter_incr_keys. destruct (decide _) as [|Hnin]; [done|].
  apply NoDup_app. split; [done|]. split; [|apply NoDup_singleton].
  intros x Hx Hx'. apply list_elem_of_singleton in Hx' as ->. done.
Qed.

Lemma counter_incr_elem_of t c k :
  k ∈ map fst (Py.counter_incr t c) <-> k ∈ map fst c \/ k = t.
Proof.
  rewrite counter_incr_keys. destruct (decide _) as [Hin|Hnin].
  - split; [by left|]. intros [?| ->]; done.
  - rewrite elem_of_app, list_elem_of_singleton. done.
Qed.

Lemma counter_update_keys (l : list string) : forall c : Py.Counter,
  NoDup (map fst c) ->
  NoDup (map fst (Py.counter_update c l)) /\
  forall k, k ∈ map fst (Py.counter_update c l) <-> k ∈ map fst c \/ k ∈ l.
Proof.
  unfold Py.counter_update.
  induction l as [|t l IH]; intros c Hnd; simpl.
  - split; [done|]. intros k. rewrite elem_of_nil. tauto.
  - destruct (IH (Py.counter_incr t c) (counter_incr_NoDup t c Hnd)) as [Hnd' Hk].
    split; [done|]. intros k. rewrite Hk, counter_incr_elem_of, elem_of_cons. tauto.
Qed.

(** A counter with distinct keys holds each key with its count. *)
Lemma counter_entry (c : Py.Counter) (k : string) (n : nat) :
  NoDup (map fst c) -> (k, n) ∈ c -> Py.counter_get c k = n.
Proof.
  induction c as [|[k' n'] c IH]; intros Hnd Hin; simpl.
  - by apply not_elem_of_nil in Hin.
  - apply NoDup_cons in Hnd as [Hk' Hnd].
    apply elem_of_cons in Hin as [[= -> ->]|Hin].
    + by rewrite decide_True.
    + rewrite decide_False; [by apply IH|].
      intros ->. apply Hk'. apply list_elem_of_In, in_map_iff.
      exists (k, n). split; [done|]. by apply list_elem_of_In.
Qed.

Lemma side_counter_stream (texts : list string) :
  side_counter texts = Py.counter_update [] (token_stream texts).
Proof.
  unfold side_counter, token_stream. generalize (@nil (string * nat)).
  induction texts as [|t texts IH]; intros c; simpl; [done|].
  rewrite IH. unfold Py.counter_update. by rewrite foldl_app.
Qed.

Lemma side_counter_NoDup texts : NoDup (map fst (side_counter texts)).
Proof.
  rewrite side_counter_stream. apply counter_update_keys. constructor.
Qed.

Lemma side_counter_keys texts k :
  k ∈ map fst (side_counter texts) <-> k ∈ token_stream texts.
Proof.
  rewrite side_counter_stream.
  rewrite (proj2 (counter_update_keys _ [] (NoDup_nil_2))). simpl.
  rewrite elem_of_nil. tauto.
Qed.

(** The counter of a side holds the frequencies of its tokens. *)
Lemma side_counter_get texts tok :
  Py.counter_get (side_counter texts) tok = frequency texts tok.
Proof. rewrite side_counter_stream, counter_update_get. reflexivity. Qed.

Lemma side_counter_length texts :
  length (side_counter texts) = distinct_tokens texts.
Proof.
  unfold distinct_tokens.
  rewrite <- (length_map fst), <- (size_list_to_set (C:=gset string))
    by apply side_counter_NoDup.
  f_equal. apply set_eq. intros k.
  by rewrite !elem_of_list_to_set, side_counter_keys.
Qed.

Lemma frequency_pos texts tok : tok ∈ token_stream texts <-> 0 < frequency texts tok.
Proof.
  unfold frequency. generalize (token_stream texts). intros l.
  induction l as [|t l IH]; simpl.
  - rewrite elem_of_nil. simpl. lia.
  - rewrite filter_cons, elem_of_cons.
    destruct (decide (t = tok)) as [->|]; simpl; [intuition lia|].
    rewrite IH. intuition congruence.
Qed.

(** ** Sorting by descending count *)

Lemma insert_desc_Permutation x l : Py.insert_desc x l ≡ₚ x :: l.
Proof.
  induction l as [|y l IH]; simpl; [done|].
  destruct (x.2 <? y.2); [|done]. rewrite IH. apply Permutation_swap.
Qed.

Lemma sorted_by_count_desc_Permutation l : Py.sorted_by_count_desc l ≡ₚ l.
Proof.
  induction l as [|x l IH]; simpl; [done|].
  by rewrite insert_desc_Permutation, IH.
Qed.

#[global] Instance count_ge_trans : Transitive count_ge.
Proof. intros x y z. unfold count_ge. lia. Qed.

Lemma insert_desc_HdRel y x l :
  count_ge y x -> HdRel count_ge y l -> HdRel count_ge y (Py.insert_desc x l).
Proof.
  intros Hyx Hl. destruct l as [|z l]; simpl; [by constructor|].
  destruct (x.2 <? z.2); constructor; [by inversion Hl|done].
Qed.

Lemma insert_desc_Sorted x l :
  Sorted count_ge l -> Sorted count_ge (Py.insert_desc x l).
Proof.
  induction l as [|y l IH]; intros Hl; simpl.
  - by repeat constructor.
  - destruct (Nat.ltb_spec x.2 y.2) as [Hlt|Hge].
    + inversion Hl; subst. constructor; [by apply IH|].
      apply insert_desc_HdRel; [unfold count_ge; lia|done].
    + constructor; [done|]. constructor. unfold count_ge. lia.
Qed.

Lemma sorted_by_count_desc_Sorted l : StronglySorted count_ge (Py.sorted_by_count_desc l).
Proof.
  apply Sorted_StronglySorted; [apply _|].
  induction l as [|x l IH]; simpl; [constructor|]. by apply insert_desc_Sorted.
Qed.

(** Items that all have the same count are left in their order. *)
Lemma sorted_by_count_desc_same (n : nat) l :
  Forall (fun x => x.2 = n) l -> Py.sorted_by_count_desc l = l.
Proof.
  induction 1 as [|x l Hx Hl IH]; simpl; [done|].
  rewrite IH. destruct Hl as [|y l Hy Hl]; simpl; [done|].
  rewrite Hx, Hy, Nat.ltb_irrefl. done.
Qed.

(** What [most_common] selects has counts at least as high as what it
    leaves. *)
Lemma most_common_ge (n : nat) (c : Py.Counter) x y :
  x ∈ Py.most_common n c -> y ∈ c -> y ∉ Py.most_common n c -> count_ge x y.
Proof.
  unfold Py.most_common. intros Hx Hy Hny.
  pose proof (sorted_by_count_desc_Sorted c) as Hs.
  rewrite <- (take_drop n (Py.sorted_by_count_desc c)) in Hs.
  apply (StronglySorted_app_1_elem_of _ _ _ _ _ Hs Hx).
  rewrite <- (sorted_by_count_desc_Permutation c) in Hy.
  rewrite <- (take_drop n (Py.sorted_by_count_desc c)) in Hy.
  apply elem_of_app in Hy as [|]; done.
Qed.

Lemma most_common_subset n c x : x ∈ Py.most_common n c -> x ∈ c.
Proof.
  unfold Py.most_common. intros Hx.
  rewrite <- (sorted_by_count_desc_Permutation c).
  rewrite <- (take_drop n (Py.sorted_by_count_desc c)). apply elem_of_app. by left.
Qed.

Lemma most_common_length n c : length (Py.most_common n c) = n `min` length c.
Proof.
  unfold Py.most_common.
  by rewrite length_take, (Permutation_length (sorted_by_count_desc_Permutation c)).
Qed.

Lemma most_common_NoDup n c :
  NoDup (map fst c) -> NoDup (map fst (Py.most_common n c)).
Proof.
  unfold Py.most_common. intros Hnd.
  assert (Hs : NoDup (map fst (Py.sorted_by_count_desc c))).
  { assert (Hp : map fst (Py.sorted_by_count_desc c) ≡ₚ map fst c)
      by apply Permutation_map, sorted_by_count_desc_Permutation.
    by rewrite Hp. }
  rewrite <- (take_drop n (Py.sorted_by_count_desc c)), map_app in Hs.
  by apply NoDup_app in Hs as [? _].
Qed.

(** ** keras' numbering of the words *)

Lemma dict_of_pairs_snoc (l : list (string * nat)) kv :
  Keras.dict_of_pairs (l ++ [kv]) = <[kv.1 := kv.2]> (Keras.dict_of_pairs l).
Proof. unfold Keras.dict_of_pairs. by rewrite foldl_app. Qed.

Lemma numbered_from_snoc a (ks : list string) k :
  numbered_from a (ks ++ [k]) = numbered_from a ks ++ [(k, a + length ks)].
Proof.
  unfold numbered_from. rewrite length_app. simpl.
  rewrite seq_app. simpl. rewrite zip_with_app by by rewrite length_seq. done.
Qed.

Lemma dict_numbered_lookup_None a (ks : list string) k :
  k ∉ ks -> Keras.dict_of_pairs (numbered_from a ks) !! k = None.
Proof.
  induction ks as [|x ks IH] using rev_ind; intros Hk; [done|].
  rewrite numbered_from_snoc, dict_of_pairs_snoc. simpl.
  rewrite elem_of_app, list_elem_of_singleton in Hk.
  rewrite lookup_insert_ne by (intros ->; tauto). apply IH. tauto.
Qed.

(** A key gets the number of its last position. *)
Lemma dict_numbered_lookup_last a (ks : list string) : forall i k,
  ks !! i = Some k -> (forall j, i < j -> ks !! j <> Some k) ->
  Keras.dict_of_pairs (numbered_from a ks) !! k = Some (a + i).
Proof.
  induction ks as [|x ks IH] using rev_ind; intros i k Hi Hlast; [done|].
  rewrite numbered_from_snoc, dict_of_pairs_snoc. simpl.
  destruct (decide (i = length ks)) as [->|Hne].
  - rewrite lookup_app_r, Nat.sub_diag in Hi by lia. injection Hi as ->.
    by rewrite lookup_insert_eq.
  - assert (Hlt : i < length ks).
    { apply lookup_lt_Some in Hi. rewrite length_app in Hi. simpl in Hi. lia. }
    rewrite lookup_app_l in Hi by done.
    rewrite lookup_insert_ne.
    + apply IH; [done|]. intros j Hj Hjk. apply (Hlast j Hj).
      rewrite lookup_app_l; [done|]. by apply lookup_lt_Some in Hjk.
    + intros ->. apply (Hlast (length ks)); [lia|].
      by rewrite lookup_app_r, Nat.sub_diag by lia.
Qed.

Lemma dict_of_pairs_size (l : list (string * nat)) :
  size (Keras.dict_of_pairs l) <= length l.
Proof.
  induction l as [|kv l IH] using rev_ind; [done|].
  rewrite dict_of_pairs_snoc, length_app. simpl.
  destruct (Keras.dict_of_pairs l !! kv.1) as [v|] eqn:Hl.
  - rewrite map_size_insert_Some by (by eexists). lia.
  - rewrite map_size_insert_None by done. lia.
Qed.

Lemma counter_incr_fresh t (c : Py.Counter) :
  t ∉ map fst c -> Py.counter_incr t c = c ++ [(t, 1)].
Proof.
  induction c as [|[k n] c IH]; intros Hnin; [done|].
  cbn [Py.counter_incr]. cbn [List.map fst] in Hnin.
  rewrite not_elem_of_cons in Hnin. destruct Hnin as [Hne Hnin].
  rewrite decide_False by done. by rewrite IH.
Qed.

(** Counting distinct tokens as keras does: each once, in order. *)
Lemma fit_counts (L : list string) : forall c : Py.Counter,
  Forall token_like L -> NoDup (map fst c ++ L) ->
  foldl (fun c text =>
           Py.counter_update c (Keras.text_to_word_sequence text EmptyString false))
        c L
  = c ++ map (fun t => (t, 1)) L.
Proof.
  induction L as [|t L IH]; intros c Htok Hnd; simpl.
  - by rewrite app_nil_r.
  - apply Forall_cons in Htok as [Ht Htok].
    rewrite text_to_word_sequence_token by done.
    unfold Py.counter_update at 2. simpl.
    apply NoDup_app in Hnd as (Hc & Hdisj & HL).
    apply NoDup_cons in HL as [HtL HL].
    rewrite counter_incr_fresh by (intros Hin; apply (Hdisj t Hin), list_elem_of_here).
    rewrite IH; [by rewrite <- app_assoc|done|].
    rewrite map_app. simpl. rewrite <- app_assoc. simpl.
    apply NoDup_app. repeat split; [done| |by constructor].
    intros x Hx Hx'. apply elem_of_cons in Hx' as [->|Hx'].
    + apply (Hdisj t Hx), list_elem_of_here.
    + apply (Hdisj x Hx). by apply list_elem_of_further.
Qed.

(** Fitting a tokenizer with out-of-vocabulary token [oov] on distinct
    tokens numbers [oov] and then the tokens, from 1. *)
Lemma fit_on_tokens_index (oov : string) (L : list string) :
  Forall token_like L -> NoDup L ->
  Keras.word_index
    (Keras.fit_on_texts (Keras.new_Tokenizer (Some oov) EmptyString false) L)
  = Keras.dict_of_pairs (numbered_from 1 (oov :: L)).
Proof.
  intros Htok Hnd. unfold Keras.fit_on_texts. simpl.
  rewrite (fit_counts L []) by done. simpl.
  rewrite (sorted_by_count_desc_same 1).
  - rewrite map_map. simpl. rewrite map_id. reflexivity.
  - apply Forall_forall. intros x Hx. apply list_elem_of_In, in_map_iff in Hx.
    by destruct Hx as (t & <- & _).
Qed.

Lemma fit_on_tokens_lookup (oov : string) (L : list string) i t :
  Forall token_like L -> NoDup L -> L !! i = Some t ->
  Keras.word_index
    (Keras.fit_on_texts (Keras.new_Tokenizer (Some oov) EmptyString false) L) !! t
  = Some (i + 2).
Proof.
  intros Htok Hnd Hi. rewrite fit_on_tokens_index by done.
  rewrite (dict_numbered_lookup_last 1 (oov :: L) (S i) t); [f_equal; lia|done|].
  intros [|j] Hj Hjt; [lia|]. simpl in Hjt.
  pose proof (NoDup_lookup L i j t Hnd Hi Hjt). lia.
Qed.

Lemma fit_on_tokens_lookup_other (oov : string) (L : list string) t :
  Forall token_like L -> NoDup L -> t ∉ L ->
  Keras.word_index
    (Keras.fit_on_texts (Keras.new_Tokenizer (Some oov) EmptyString false) L) !! t
  = if decide (t = oov) then Some 1 else None.
Proof.
  intros Htok Hnd Ht. rewrite fit_on_tokens_index by done.
  destruct (decide (t = oov)) as [->|Hne].
  - rewrite (dict_numbered_lookup_last 1 (oov :: L) 0 oov); [done|done|].
    intros [|j] Hj Hjt; [lia|]. simpl in Hjt.
    apply Ht, list_elem_of_lookup. eauto.
  - apply dict_numbered_lookup_None. rewrite not_elem_of_cons. done.
Qed.

Lemma fit_on_tokens_size (oov : string) (L : list string) :
  Forall token_like L -> NoDup L ->
  size (Keras.word_index
          (Keras.fit_on_texts (Keras.new_Tokenizer (Some oov) EmptyString false) L))
  <= S (length L).
Proof.
  intros Htok Hnd. rewrite fit_on_tokens_index by done.
  etransitivity; [apply dict_of_pairs_size|].
  unfold numbered_from. rewrite length_zip_with, length_seq. simpl. lia.
Qed.

(** ** The vocabulary of one side *)

Section Side.
Variables (h : Py.SetOrder) (max_vocab_size : nat) (texts : list string).

Local Abbreviation selected := (selected_tokens max_vocab_size texts).
Local Abbreviation fitted_tokens := (fitted_token_list h max_vocab_size texts).

Lemma selected_NoDup : NoDup selected.
Proof. apply most_common_NoDup, side_counter_NoDup. Qed.

Lemma selected_length : length selected = max_vocab_size `min` distinct_tokens texts.
Proof.
  unfold selected_tokens. by rewrite length_map, most_common_length, side_counter_length.
Qed.

Lemma selected_entry t :
  t ∈ selected ->
  (t, frequency texts t) ∈ Py.most_common max_vocab_size (side_counter texts).
Proof.
  unfold selected_tokens. intros Ht. apply list_elem_of_In, in_map_iff in Ht.
  destruct Ht as ([t' n] & Heq & Hin). simpl in Heq. subst t'.
  apply list_elem_of_In in Hin.
  pose proof (most_common_subset _ _ _ Hin) as Hc.
  pose proof (counter_entry _ _ _ (side_counter_NoDup texts) Hc) as Hn.
  rewrite side_counter_get in Hn. by rewrite Hn.
Qed.

Lemma selected_in_stream t : t ∈ selected -> t ∈ token_stream texts.
Proof.
  intros Ht. apply selected_entry, most_common_subset in Ht.
  apply side_counter_keys, list_elem_of_In, in_map_iff.
  exists (t, frequency texts t). split; [done|]. by apply list_elem_of_In.
Qed.

Lemma selected_top t u :
  t ∈ selected -> u ∉ selected -> frequency texts u <= frequency texts t.
Proof.
  intros Ht Hu.
  destruct (decide (u ∈ token_stream texts)) as [Hin|Hnin].
  - apply side_counter_keys, list_elem_of_In, in_map_iff in Hin.
    destruct Hin as ([u' n] & Heq & Hin). simpl in Heq. subst u'.
    apply list_elem_of_In in Hin.
    pose proof (counter_entry _ _ _ (side_counter_NoDup texts) Hin) as Hn.
    rewrite side_counter_get in Hn. subst n.
    apply (most_common_ge max_vocab_size (side_counter texts)
             (t, frequency texts t) (u, frequency texts u)); [by apply selected_entry|done|].
    intros Hsel. apply Hu. unfold selected_tokens.
    apply list_elem_of_In, in_map_iff. exists (u, frequency texts u).
    split; [done|]. by apply list_elem_of_In.
  - assert (frequency texts u = 0); [|lia].
    destruct (frequency texts u) eqn:Hf; [done|].
    exfalso. apply Hnin, frequency_pos. lia.
Qed.

Lemma side_tokens_elem_of t :
  t ∈ side_tokens max_vocab_size texts
  <-> t ∈ selected \/ t = START_TOKEN \/ t = END_TOKEN.
Proof.
  unfold side_tokens. fold selected.
  rewrite elem_of_union, elem_of_list_to_set, elem_of_union, !elem_of_singleton.
  reflexivity.
Qed.

Lemma fitted_tokens_elem_of t :
  t ∈ fitted_tokens <-> t ∈ selected \/ t = START_TOKEN \/ t = END_TOKEN.
Proof.
  unfold fitted_token_list.
  rewrite sorted_Permutation, Py.list_of_set_perm, elem_of_elements.
  apply side_tokens_elem_of.
Qed.

Lemma fitted_tokens_NoDup : NoDup fitted_tokens.
Proof.
  unfold fitted_token_list. rewrite sorted_Permutation, Py.list_of_set_perm.
  apply NoDup_elements.
Qed.

Lemma fitted_tokens_token_like : Forall token_like fitted_tokens.
Proof.
  apply Forall_forall. intros t Ht. apply fitted_tokens_elem_of in Ht.
  destruct Ht as [Ht|[->| ->]]; [|apply reserved_token_like..].
  apply selected_in_stream in Ht.
  pose proof (token_stream_tokens texts) as Hall.
  rewrite Forall_forall in Hall. by apply Hall.
Qed.

Lemma fitted_tokens_length : length fitted_tokens <= max_vocab_size + 2.
Proof.
  unfold fitted_token_list.
  rewrite (Permutation_length (sorted_Permutation _)).
  rewrite (Permutation_length (Py.list_of_set_perm h _)).
  change (size (side_tokens max_vocab_size texts) <= max_vocab_size + 2).
  unfold side_tokens. fold selected.
  rewrite size_union_alt, size_list_to_set by apply selected_NoDup.
  rewrite selected_length.
  assert (size ({[START_TOKEN; END_TOKEN]} ∖ list_to_set selected : gset string) <= 2);
    [|lia].
  etransitivity; [apply subseteq_size, subseteq_difference_l; reflexivity|].
  rewrite size_union by (apply disjoint_singleton_l, not_elem_of_singleton; done).
  by rewrite !size_singleton.
Qed.

Lemma side_tokenizer_vocabulary :
  vocabulary_of max_vocab_size texts (side_tokenizer h max_vocab_size texts).
Proof.
  exists selected, fitted_tokens.
  split; [apply selected_NoDup|]. split; [apply selected_length|].
  split. { intros t Ht. by apply frequency_pos, selected_in_stream. }
  split; [apply selected_top|]. split; [apply fitted_tokens_elem_of|].
  split; [apply sorted_Sorted|]. split; [apply fitted_tokens_NoDup|]. split.
  - intros i t Hi. unfold side_tokenizer. fold fitted_tokens.
    apply fit_on_tokens_lookup;
      [apply fitted_tokens_token_like|apply fitted_tokens_NoDup|done].
  - intros t Ht. unfold side_tokenizer. fold fitted_tokens.
    apply fit_on_tokens_lookup_other;
      [apply fitted_tokens_token_like|apply fitted_tokens_NoDup|done].
Qed.

Lemma side_tokenizer_size :
  size (Keras.word_index (side_tokenizer h max_vocab_size texts)) <= max_vocab_size + 3.
Proof.
  unfold side_tokenizer. fold fitted_tokens.
  etransitivity;
    [apply fit_on_tokens_size; [apply fitted_tokens_token_like|apply fitted_tokens_NoDup]|].
  pose proof fitted_tokens_length. lia.
Qed.

End Side.

Lemma create_tokenizers_nonempty h max_vocab_size (corpus : list (string * string)) :
  corpus <> [] ->
  _create_tokenizers h max_vocab_size corpus
  = OK (side_tokenizer h max_vocab_size (map fst corpus),
        side_tokenizer h max_vocab_size (map snd corpus)).
Proof. by destruct corpus. Qed.

Lemma initialize_builds {F : Type} {PF : PyFloat F} (W : Collab F) h (self : Trainer)
    (s : Summarizer (Params W)) train_data te td :
  needs_init W s = true ->
  trainer_vectorizer self = None ->
  _create_tokenizers h (max_vocab_size self) (map (trainer_preprocessor self) train_data)
    = OK (te, td) ->
  exists s1, (initialize W h self s train_data).1 = OK s1 /\
    vectorizer s1 = Some {| tokenizer_encoder := te; tokenizer_decoder := td |}.
Proof.
  intros Hbare Hvec Hrun. unfold initialize, _init_model.
  rewrite Hbare, Hvec, Hrun. simpl. eexists. split; reflexivity.
Qed.

(** A trainer that has a vectorizer attaches it, with its preprocessor, to
    a bare model, whatever the corpus. *)
Lemma train_own_vectorizer {F : Type} {PF : PyFloat F} (W : Collab F) h (self : Trainer)
    (s : Summarizer (Params W)) train_data val_data num_epochs callbacks fuel vec :
  needs_init W s = true ->
  trainer_vectorizer self = Some vec ->
  let st' := final_state W (train W h self s train_data val_data num_epochs callbacks fuel) in
  preprocessor (summarizer st') = Some (trainer_preprocessor self) /\
  vectorizer (summarizer st') = Some vec.
Proof.
  intros Hbare Hvec st'.
  assert (Hi : (initialize W h self s train_data).1
               = OK (init_model W s (trainer_preprocessor self) vec None None)).
  { unfold initialize, _init_model. by rewrite Hbare, Hvec. }
  pose proof (train_keeps_attached W h self s _ train_data val_data num_epochs
                callbacks fuel Hi) as Hatt.
  unfold attached in Hatt. by injection Hatt.
Qed.

(** C8, as stated, fails: a bare model is initialized without any
    vocabulary being built when the trainer brings its own vectorizer
    (the guard of line 191). On a corpus whose vocabularies can be built
    they are not the ones attached, and on an empty corpus, where they
    cannot be built at all, the initialization still succeeds. *)
Lemma C8_counterexample_own_vectorizer :
  let W := demo_world three_per_pass in
  let self := trainer_with_vectorizer 1 in
  let s := bare_summarizer three_per_pass in
  let after corpus :=
    summarizer (final_state W (train W Py.default_order self s corpus None 0 None 1)) in
  preprocessor s = None /\
  ~ (exists te td,
       _create_tokenizers Py.default_order (max_vocab_size self)
         (map (trainer_preprocessor self) unk_corpus) = OK (te, td) /\
       vectorizer (after unk_corpus)
         = Some {| tokenizer_encoder := te; tokenizer_decoder := td |}) /\
  _create_tokenizers Py.default_order (max_vocab_size self)
    (map (trainer_preprocessor self) []) = Raise EmptyCorpusError /\
  vectorizer (after []) = Some demo_vectorizer.
Proof.
  intros W self s after.
  assert (Hatt : forall corpus, vectorizer (after corpus) = Some demo_vectorizer).
  { intros corpus.
    exact (proj2 (train_own_vectorizer W Py.default_order self s corpus None 0 None 1
                    demo_vectorizer eq_refl eq_refl)). }
  split; [reflexivity|].
  split; [|split; [reflexivity|apply Hatt]].
  intros (te & td & Hrun & Hvec).
  rewrite create_tokenizers_nonempty in Hrun by discriminate.
  rewrite Hatt in Hvec.
  apply (f_equal (fun r => match r with
                           | OK (te, _) => Keras.word_index te !! "b"%string
                           | Raise _ => None
                           end)) in Hrun.
  apply (f_equal (fun v => match v with
                           | Some v => Keras.word_index (tokenizer_encoder v) !! "b"%string
                           | None => None
                           end)) in Hvec.
  cbn [tokenizer_encoder] in Hvec. rewrite <- Hrun in Hvec.
  vm_compute in Hvec. discriminate Hvec.
Qed.

(** C8, amended: [train] calls [_init_model] exactly when the summarizer
    has no preprocessor or no vectorizer; when it has both, they are the
    same after the run, however the run ends. The call attaches the
    trainer's preprocessor and a vectorizer: the trainer's own when it has
    one, without building a vocabulary; otherwise the vectorizer of the
    two vocabularies built from the preprocessed training corpus, and on
    an empty corpus the call fails, the run with it, and nothing is
    attached. *)
Theorem C8_initialization_iff_bare {F : Type} {PF : PyFloat F} (W : Collab F)
    (h : Py.SetOrder) (self : Trainer) (s : Summarizer (Params W))
    (train_data : list TextPair) (val_data : option (list TextPair))
    (num_epochs : nat) (callbacks : option (list (Callback F (Params W))))
    (fuel : nat) :
  let run := train W h self s train_data val_data num_epochs callbacks fuel in
  let st' := final_state W run in
  let bare := preprocessor s = None \/ vectorizer s = None in
  (count_events W (is_init_model W) (trace st') = 1 <-> bare) /\
  (count_events W (is_init_model W) (trace st') = 0
     <-> preprocessor s <> None /\ vectorizer s <> None) /\
  (preprocessor s <> None /\ vectorizer s <> None ->
     preprocessor (summarizer st') = preprocessor s /\
     vectorizer (summarizer st') = vectorizer s) /\
  (forall s1, bare ->
     _init_model W h self s train_data = OK s1 ->
     preprocessor (summarizer st') = Some (trainer_preprocessor self) /\
     vectorizer (summarizer st') = vectorizer s1 /\
     is_Some (vectorizer s1)) /\
  (bare ->
     (initialize W h self s train_data).1 = _init_model W h self s train_data) /\
  (forall vec, bare -> trainer_vectorizer self = Some vec ->
     preprocessor (summarizer st') = Some (trainer_preprocessor self) /\
     vectorizer (summarizer st') = Some vec) /\
  (bare -> trainer_vectorizer self = None -> train_data <> [] ->
     exists te td,
       _create_tokenizers h (max_vocab_size self)
         (map (trainer_preprocessor self) train_data) = OK (te, td) /\
       preprocessor (summarizer st') = Some (trainer_preprocessor self) /\
       vectorizer (summarizer st')
         = Some {| tokenizer_encoder := te; tokenizer_decoder := td |}) /\
  (bare -> trainer_vectorizer self = None -> train_data = [] ->
     run = Failed EmptyCorpusError (start_state W s [EvInitModel])).
Proof.
  intros run st' bare.
  assert (Hcount : count_events W (is_init_model W) (trace st')
                   = if needs_init W s then 1 else 0).
  { unfold st', run, train.
    destruct ((initialize W h self s train_data).1) as [s1|e] eqn:Hi; simpl.
    - rewrite (proj2 (train_loop_frame W self _ _ _ _ _ _)). simpl.
      rewrite initialize_trace. by destruct (needs_init W s).
    - rewrite initialize_trace. by destruct (needs_init W s). }
  assert (Hatt : forall s1, (initialize W h self s train_data).1 = OK s1 ->
            attached W st' = (preprocessor s1, vectorizer s1)).
  { intros s1 Hi. by apply train_keeps_attached. }
  pose proof (needs_init_iff W s) as Hiff. fold bare in Hiff.
  assert (Hnot : needs_init W s = false <-> preprocessor s <> None /\ vectorizer s <> None).
  { unfold needs_init. rewrite orb_false_iff, !bool_decide_eq_false. reflexivity. }
  assert (Hcall : bare ->
            (initialize W h self s train_data).1 = _init_model W h self s train_data).
  { intros Hbare. apply Hiff in Hbare. unfold initialize. by rewrite Hbare. }
  split; [|split; [|split; [|split; [|split; [|split; [|split]]]]]].
  - rewrite Hcount, <- Hiff. destruct (needs_init W s); split; done.
  - rewrite Hcount, <- Hnot. destruct (needs_init W s); split; done.
  - intros Hboth. apply Hnot in Hboth.
    specialize (Hatt s (initialize_keeps W h self s train_data Hboth)).
    by injection Hatt.
  - intros s1 Hbare Hinit.
    assert (Hi : (initialize W h self s train_data).1 = OK s1)
      by (by rewrite Hcall).
    specialize (Hatt s1 Hi). injection Hatt as -> ->.
    unfold _init_model in Hinit.
    destruct (trainer_vectorizer self); [by injection Hinit as <-|].
    destruct (_create_tokenizers _ _ _); [|done]. by injection Hinit as <-.
  - exact Hcall.
  - intros vec Hbare Hvec. apply Hiff in Hbare.
    by apply train_own_vectorizer.
  - intros Hbare Hvec Hne.
    pose (corpus := map (trainer_preprocessor self) train_data).
    pose (te := side_tokenizer h (max_vocab_size self) (map fst corpus)).
    pose (td := side_tokenizer h (max_vocab_size self) (map snd corpus)).
    assert (Hrun : _create_tokenizers h (max_vocab_size self) corpus = OK (te, td)).
    { apply create_tokenizers_nonempty. unfold corpus. by destruct train_data. }
    exists te, td. split; [exact Hrun|].
    assert (Hi : exists s1, (initialize W h self s train_data).1 = OK s1 /\
               preprocessor s1 = Some (trainer_preprocessor self) /\
               vectorizer s1
               = Some {| tokenizer_encoder := te; tokenizer_decoder := td |}).
    { rewrite Hcall by done. unfold _init_model. rewrite Hvec.
      change (map (trainer_preprocessor self) train_data) with corpus.
      rewrite Hrun. simpl. eexists. split; [reflexivity|]. split; reflexivity. }
    destruct Hi as (s1 & Hi & Hp & Hv).
    specialize (Hatt s1 Hi). injection Hatt as -> ->. by rewrite Hp, Hv.
  - intros Hbare Hvec ->. unfold run.
    assert (Hi : (initialize W h self s []).1 = Raise EmptyCorpusError).
    { rewrite Hcall by done. unfold _init_model. by rewrite Hvec. }
    rewrite (train_init_failed W h self _ _ _ _ _ _ _ Hi).
    rewrite initialize_trace. apply Hiff in Hbare. by rewrite Hbare.
Qed.

(** A bare model, a trainer without a vectorizer and the two pairs of
    [demo_corpus]: the vocabularies of the corpus are the ones attached. *)
Lemma C8_witness :
  let W := demo_world three_per_pass in
  let st' := final_state W
               (train W Py.default_order (demo_trainer 1) (bare_summarizer three_per_pass)
                  demo_corpus None 0 None 1) in
  exists te td,
    _create_tokenizers Py.default_order 3 demo_corpus = OK (te, td) /\
    preprocessor (summarizer st') = Some (trainer_preprocessor (demo_trainer 1)) /\
    vectorizer (summarizer st')
      = Some {| tokenizer_encoder := te; tokenizer_decoder := td |} /\
    count_events W (is_init_model W) (trace st') = 1.
Proof.
  intros W st'.
  destruct (C8_initialization_iff_bare W Py.default_order (demo_trainer 1)
              (bare_summarizer three_per_pass) demo_corpus None 0 None 1)
    as (Hone & _ & _ & _ & _ & _ & Hbuild & _).
  destruct (Hbuild (or_introl eq_refl) eq_refl ltac:(discriminate))
    as (te & td & Hrun & Hp & Hv).
  exists te, td. split; [exact Hrun|]. split; [exact Hp|]. split; [exact Hv|].
  apply Hone. left. reflexivity.
Defined.

(** C5: on a non-empty corpus the vocabulary builder returns two
    tokenizers, one per side. For each side: the counter holds the
    frequency of every whitespace-delimited token of that side; the
    selected tokens are [max_vocab_size] of them (all, when there are
    fewer), none less frequent than a token left out; the start and end
    tokens are added; the ids follow the sorted token list, the token at
    position [i] getting [i + 2], the out-of-vocabulary token getting 1
    unless it is itself in the list. Each tokenizer depends on its own side
    of the corpus only. *)
Theorem C5_vocabulary_building (h : Py.SetOrder) (max_vocab_size : nat)
    (corpus : list (string * string)) :
  corpus <> [] ->
  exists te td,
    _create_tokenizers h max_vocab_size corpus = OK (te, td) /\
    (forall tok, Py.counter_get (side_counter (map fst corpus)) tok
                 = frequency (map fst corpus) tok) /\
    (forall tok, Py.counter_get (side_counter (map snd corpus)) tok
                 = frequency (map snd corpus) tok) /\
    vocabulary_of max_vocab_size (map fst corpus) te /\
    vocabulary_of max_vocab_size (map snd corpus) td /\
    (forall corpus', corpus' <> [] -> map fst corpus' = map fst corpus ->
       exists td', _create_tokenizers h max_vocab_size corpus' = OK (te, td')) /\
    (forall corpus', corpus' <> [] -> map snd corpus' = map snd corpus ->
       exists te', _create_tokenizers h max_vocab_size corpus' = OK (te', td)).
Proof.
  intros Hne. eexists _, _. split; [by apply create_tokenizers_nonempty|].
  split; [intros tok; apply side_counter_get|].
  split; [intros tok; apply side_counter_get|].
  split; [apply side_tokenizer_vocabulary|].
  split; [apply side_tokenizer_vocabulary|]. split.
  - intros corpus' Hne' Heq. eexists.
    rewrite create_tokenizers_nonempty by done. by rewrite Heq.
  - intros corpus' Hne' Heq. eexists.
    rewrite create_tokenizers_nonempty by done. by rewrite Heq.
Qed.

(** On the demonstration corpus with room for two tokens: "b" occurs three
    times on the source side and gets id 4, after the end and start
    tokens. *)
Lemma C5_witness :
  exists te td,
    _create_tokenizers Py.default_order 2 demo_corpus = OK (te, td) /\
    vocabulary_of 2 (map fst demo_corpus) te /\
    Keras.word_index te !! "b"%string = Some 4.
Proof.
  destruct (C5_vocabulary_building Py.default_order 2 demo_corpus)
    as (te & td & Hrun & _ & _ & Hvoc & _); [discriminate|].
  exists te, td. split; [exact Hrun|]. split; [exact Hvoc|].
  injection Hrun as <- _. vm_compute. reflexivity.
Defined.

(** C7: each vocabulary built has at most [max_vocab_size + 3] entries
    (the selected tokens, the start, end and out-of-vocabulary tokens),
    that is at most [max_vocab_size + 4] ids with the padding id 0, which
    keras never assigns; and when a run of [train] has built the
    vocabularies for a bare model, the vectorizer attached to the model
    holds exactly these tokenizers when the run ends, however it ends. *)
Theorem C7_vocabulary_bounded_and_kept (h : Py.SetOrder) (max_size : nat)
    (corpus : list (string * string)) (te td : Keras.Tokenizer) :
  _create_tokenizers h max_size corpus = OK (te, td) ->
  size (Keras.word_index te) + 1 <= max_size + 4 /\
  size (Keras.word_index td) + 1 <= max_size + 4 /\
  (forall t, Keras.word_index te !! t <> Some 0) /\
  (forall t, Keras.word_index td !! t <> Some 0) /\
  forall F (PF : PyFloat F) (W : Collab F) (self : Trainer) s train_data val_data
         num_epochs callbacks fuel,
    needs_init W s = true ->
    trainer_vectorizer self = None ->
    max_vocab_size self = max_size ->
    map (trainer_preprocessor self) train_data = corpus ->
    vectorizer (summarizer (final_state W
      (train W h self s train_data val_data num_epochs callbacks fuel)))
    = Some {| tokenizer_encoder := te; tokenizer_decoder := td |}.
Proof.
  intros Hrun.
  assert (Hne : corpus <> []) by (intros ->; discriminate Hrun).
  rewrite create_tokenizers_nonempty in Hrun by done. injection Hrun as <- <-.
  assert (Hzero : forall texts t,
            Keras.word_index (side_tokenizer h max_size texts) !! t <> Some 0).
  { intros texts t.
    destruct (side_tokenizer_vocabulary h max_size texts)
      as (top & toks & _ & _ & _ & _ & _ & _ & _ & Hin & Hout).
    destruct (decide (t ∈ toks)) as [Ht|Ht].
    - apply list_elem_of_lookup in Ht as [i Hi]. rewrite (Hin i t Hi). intros [=]. lia.
    - rewrite (Hout t Ht). by destruct (decide (t = OOV_TOKEN)). }
  split; [pose proof (side_tokenizer_size h max_size (map fst corpus)); lia|].
  split; [pose proof (side_tokenizer_size h max_size (map snd corpus)); lia|].
  split; [apply Hzero|]. split; [apply Hzero|].
  intros F PF W self s train_data val_data num_epochs callbacks fuel Hbare Hvec Hmax Hpre.
  destruct (initialize_builds W h self s train_data
              (side_tokenizer h max_size (map fst corpus))
              (side_tokenizer h max_size (map snd corpus)) Hbare Hvec)
    as (s1 & Hi & Hv).
  { rewrite Hmax, Hpre. by apply create_tokenizers_nonempty. }
  pose proof (train_keeps_attached W h self s s1 train_data val_data num_epochs
                callbacks fuel Hi) as Hatt.
  unfold attached in Hatt. injection Hatt as _ Hatt. by rewrite Hatt.
Qed.

Lemma C7_witness :
  exists te td,
    _create_tokenizers Py.default_order 3 demo_corpus = OK (te, td) /\
    size (Keras.word_index te) + 1 <= 3 + 4 /\
    size (Keras.word_index td) + 1 <= 3 + 4.
Proof.
  destruct (_create_tokenizers Py.default_order 3 demo_corpus) as [[te td]|e] eqn:Hrun;
    [|discriminate Hrun].
  exists te, td. split; [reflexivity|].
  destruct (C7_vocabulary_bounded_and_kept Py.default_order 3 demo_corpus te td Hrun)
    as (H1 & H2 & _). split; [exact H1|exact H2].
Defined.

(** ** The evaluation callback *)

(** A loop that updates a dict at the key of each item, over items with
    distinct keys, updates every key once. *)
Lemma foldl_keyed {V A : Type}
    (step : gmap string V -> string * A -> gmap string V)
    (g : A -> option V -> option V)
    (Hsame : forall m item, step m item !! item.1 = g item.2 (m !! item.1))
    (Hother : forall m item k, k <> item.1 -> step m item !! k = m !! k) :
  forall (l : list (string * A)) (m : gmap string V),
    NoDup (l.*1) ->
    (forall k a, (k, a) ∈ l -> foldl step m l !! k = g a (m !! k)) /\
    (forall k, k ∉ l.*1 -> foldl step m l !! k = m !! k).
Proof.
  induction l as [|[k0 a0] l IH]; intros m Hnd; simpl.
  - split; [|done]. intros k a Hin. by apply not_elem_of_nil in Hin.
  - rewrite fmap_cons in Hnd. apply NoDup_cons in Hnd as [Hk0 Hnd]. simpl in Hk0.
    destruct (IH (step m (k0, a0)) Hnd) as [IHin IHout]. split.
    + intros k a Hin. apply elem_of_cons in Hin as [[= -> ->]|Hin].
      * rewrite (IHout k0 Hk0). apply (Hsame m (k0, a0)).
      * rewrite (IHin k a Hin). f_equal. apply (Hother m (k0, a0)). simpl.
        intros ->. apply Hk0. apply list_elem_of_fmap. by exists (k0, a).
    + intros k Hk. rewrite not_elem_of_cons in Hk. destruct Hk as [Hne Hk].
      rewrite (IHout k Hk). by apply (Hother m (k0, a0)).
Qed.

Section EvaluationFacts.
Context {F : Type} {PF : PyFloat F} (W : Collab F).
Variables (self : EvaluationCallback.t W) (s : Summarizer (Params W)).
Import EvaluationCallback.

Lemma add_scores_lookup prediction (vs : gmap string F) name :
  add_scores W self prediction vs !! name
  = match scorers self !! name with
    | Some scorer => (fun v => fadd v (scorer prediction)) <$> vs !! name
    | None => vs !! name
    end.
Proof.
  unfold add_scores.
  destruct (foldl_keyed
              (fun vs (item : string * (Prediction W -> F)) =>
                 alter (fun v => fadd v (item.2 prediction)) item.1 vs)
              (fun scorer o => (fun v => fadd v (scorer prediction)) <$> o)
              (fun m item => lookup_alter_eq _ m item.1)
              (fun m item k Hne => lookup_alter_ne _ m item.1 k (not_eq_sym Hne))
              (map_to_list (scorers self)) vs (NoDup_fst_map_to_list _)) as [Hin Hout].
  destruct (scorers self !! name) as [scorer|] eqn:Hs.
  - apply Hin. by apply elem_of_map_to_list.
  - apply Hout. intros Hk. apply list_elem_of_fmap in Hk as ([k f] & -> & Hk).
    apply elem_of_map_to_list in Hk. simpl in Hs. congruence.
Qed.

Lemma score_pairs_fold (data : list TextPair) : forall (acc : gmap string F * nat),
  let r := foldl (fun acc d =>
                    (add_scores W self (predict_vectors W s d.1 d.2) acc.1, S acc.2))
                 acc data in
  r.2 = acc.2 + length data /\
  forall name,
    r.1 !! name
    = match scorers self !! name with
      | Some scorer =>
          (fun v => foldl fadd v (scores_of W s scorer data)) <$> acc.1 !! name
      | None => acc.1 !! name
      end.
Proof.
  induction data as [|d data IH]; intros acc; simpl.
  - split; [lia|]. intros name.
    destruct (scorers self !! name); [|done]. by destruct (acc.1 !! name).
  - specialize (IH (add_scores W self (predict_vectors W s d.1 d.2) acc.1, S acc.2)).
    simpl in IH. destruct IH as [Hcount Hscores]. split; [lia|].
    intros name. rewrite Hscores, add_scores_lookup.
    destruct (scorers self !! name); [|done]. by destruct (acc.1 !! name).
Qed.

(** After the loop over the validation pairs: the count, and for every
    scorer the sum of its values. *)
Lemma score_pairs_result :
  let r := score_pairs W self s ((fun _ => fzero) <$> scorers self, 0) in
  r.2 = length (val_data self) /\
  forall name,
    r.1 !! name
    = (fun scorer => foldl fadd fzero (scores_of W s scorer (val_data self)))
        <$> scorers self !! name.
Proof.
  unfold score_pairs.
  destruct (score_pairs_fold (val_data self) ((fun _ => fzero) <$> scorers self, 0))
    as [Hcount Hscores].
  split; [exact Hcount|]. intros name. rewrite Hscores. simpl.
  rewrite lookup_fmap. by destruct (scorers self !! name).
Qed.

Lemma average_into_raised (l : list (string * F)) count e :
  foldl (fun (acc : result (Logs F)) (item : string * F) =>
           let! logs := acc in
           if count =? 0 then Raise ZeroDivisionError
           else OK (<[item.1 := fdiv_int item.2 count]> logs))
        (Raise e) l = Raise e.
Proof. induction l as [|item l IH]; simpl; done. Qed.

Lemma average_into_zero (vs : gmap string F) (logs : Logs F) :
  vs <> ∅ -> average_into 0 vs logs = Raise ZeroDivisionError.
Proof.
  intros Hvs. unfold average_into.
  destruct (map_to_list vs) as [|item l] eqn:Hl.
  - by apply map_to_list_empty_iff in Hl.
  - exact (average_into_raised l 0 ZeroDivisionError).
Qed.

Lemma average_into_empty count (logs : Logs F) : average_into count ∅ logs = OK logs.
Proof. unfold average_into. by rewrite map_to_list_empty. Qed.

Lemma average_into_nonzero count (vs : gmap string F) (logs : Logs F) :
  count <> 0 ->
  exists logs', average_into count vs logs = OK logs' /\
    forall name, logs' !! name
                 = match vs !! name with
                   | Some v => Some (fdiv_int v count)
                   | None => logs !! name
                   end.
Proof.
  intros Hc. unfold average_into.
  exists (foldl (fun m (item : string * F) => <[item.1 := fdiv_int item.2 count]> m)
            logs (map_to_list vs)).
  split.
  - generalize logs. induction (map_to_list vs) as [|item l IH]; intros m; simpl; [done|].
    destruct (Nat.eqb_spec count 0); [done|]. apply IH.
  - intros name.
    destruct (foldl_keyed
                (fun m (item : string * F) => <[item.1 := fdiv_int item.2 count]> m)
                (fun v _ => Some (fdiv_int v count))
                (fun m item => lookup_insert_eq m item.1 _)
                (fun m item k Hne => lookup_insert_ne m item.1 k _ (not_eq_sym Hne))
                (map_to_list vs) logs (NoDup_fst_map_to_list _)) as [Hin Hout].
    destruct (vs !! name) as [v|] eqn:Hv.
    + apply Hin. by apply elem_of_map_to_list.
    + apply Hout. intros Hk. apply list_elem_of_fmap in Hk as ([k v] & -> & Hk).
      apply elem_of_map_to_list in Hk. simpl in Hv. congruence.
Qed.

End EvaluationFacts.

(** C10, as stated, fails: without scorers and without validation data
    the averaging loop has nothing to run over, no division takes place
    and the call returns. *)
Lemma C10_counterexample_no_scorers :
  EvaluationCallback.val_data (idle_evaluation no_batches) = [] /\
  EvaluationCallback.on_epoch_end (demo_world no_batches) (idle_evaluation no_batches)
    (demo_summarizer no_batches) 0 (Some ∅) = OK ∅ /\
  EvaluationCallback.on_epoch_end (demo_world no_batches) (idle_evaluation no_batches)
    (demo_summarizer no_batches) 0 (Some ∅) <> Raise ZeroDivisionError.
Proof. split; [reflexivity|]. split; [reflexivity|discriminate]. Qed.

(** C10, amended: on empty validation data the call raises
    [ZeroDivisionError] when at least one scorer is registered, and returns
    with [logs] unchanged when none is; on non-empty validation data it
    returns, with [logs[score_name]] set for every scorer to the mean of
    its values over the validation pairs, and every other key as it
    was. *)
Theorem C10_evaluation_callback {F : Type} {PF : PyFloat F} (W : Collab F)
    (self : EvaluationCallback.t W) (s : Summarizer (Params W)) (batch : nat)
    (logs : option (Logs F)) :
  let logs0 := default ∅ logs in
  (EvaluationCallback.val_data self = [] ->
   EvaluationCallback.scorers self <> ∅ ->
   EvaluationCallback.on_epoch_end W self s batch logs = Raise ZeroDivisionError) /\
  (EvaluationCallback.val_data self = [] ->
   EvaluationCallback.scorers self = ∅ ->
   EvaluationCallback.on_epoch_end W self s batch logs = OK logs0) /\
  (EvaluationCallback.val_data self <> [] ->
   exists logs',
     EvaluationCallback.on_epoch_end W self s batch logs = OK logs' /\
     (forall name scorer,
        EvaluationCallback.scorers self !! name = Some scorer ->
        logs' !! name
        = Some (mean (scores_of W s scorer (EvaluationCallback.val_data self)))) /\
     (forall name,
        EvaluationCallback.scorers self !! name = None ->
        logs' !! name = logs0 !! name)).
Proof.
  intros logs0.
  assert (Hlogs : match logs with None => ∅ | Some l => l end = logs0)
    by by destruct logs.
  unfold EvaluationCallback.on_epoch_end. rewrite Hlogs.
  destruct (score_pairs_result W self s) as [Hcount Hscores].
  split; [|split].
  - intros Hdata Hsc. rewrite Hcount, Hdata. simpl.
    unfold EvaluationCallback.score_pairs. rewrite Hdata. simpl.
    apply average_into_zero. by rewrite fmap_empty_iff.
  - intros Hdata Hsc. unfold EvaluationCallback.score_pairs. rewrite Hdata, Hsc. simpl.
    rewrite fmap_empty. apply average_into_empty.
  - intros Hdata.
    destruct (average_into_nonzero
                (EvaluationCallback.score_pairs W self s
                   ((fun _ => fzero) <$> EvaluationCallback.scorers self, 0)).2
                (EvaluationCallback.score_pairs W self s
                   ((fun _ => fzero) <$> EvaluationCallback.scorers self, 0)).1
                logs0) as (logs' & Hrun & Hlookup).
    { rewrite Hcount. by destruct (EvaluationCallback.val_data self). }
    exists logs'. split; [exact Hrun|]. split.
    + intros name scorer Hs. rewrite Hlookup, Hscores, Hs. simpl.
      unfold mean, scores_of. by rewrite Hcount, length_map.
    + intros name Hs. by rewrite Hlookup, Hscores, Hs.
Qed.

(** Two validation pairs, two scorers: the mean length of the inputs "ab"
    and "abcd" is 3, the mean of the constant 1 is 1. *)
Lemma C10_witness :
  exists logs',
    EvaluationCallback.on_epoch_end (demo_world no_batches) (demo_evaluation no_batches)
      (demo_summarizer no_batches) 0 (Some ∅) = OK logs' /\
    (exists v, logs' !! "len"%string = Some v /\ (v == 3)%Q) /\
    (exists v, logs' !! "one"%string = Some v /\ (v == 1)%Q).
Proof.
  destruct (C10_evaluation_callback (demo_world no_batches) (demo_evaluation no_batches)
              (demo_summarizer no_batches) 0 (Some ∅)) as (_ & _ & Hmean).
  destruct Hmean as (logs' & Hrun & Hin & _); [discriminate|].
  exists logs'. split; [exact Hrun|]. split.
  - eexists. split; [apply Hin; reflexivity|]. reflexivity.
  - eexists. split; [apply Hin; reflexivity|]. reflexivity.
Defined.

(** * Further properties of the code *)

(** ** The training loop at its edges *)

Section LoopEdges.
Context {F : Type} {PF : PyFloat F} (W : Collab F).
Variables (self : Trainer).
Implicit Types (st : TrainingState W) (cbs : list (Callback F (Params W))).

Lemma run_pass_app tc states (l1 l2 : list (Batch W)) st :
  run_pass W self tc states (l1 ++ l2) st =
    match run_pass W self tc states l1 st with
    | Done st' => run_pass W self tc states l2 st'
    | o => o
    end.
Proof.
  revert st. induction l1 as [|b l1 IH]; intros st; simpl; [done|].
  destruct (train_batch W self tc states st b); [apply IH|done..].
Qed.

Lemma steps_taken states (bs : list (Batch W)) : forall st,
  let st' := foldl (apply_train_step W states) st bs in
  batch_count st' = batch_count st + length bs /\
  epoch_count st' = epoch_count st /\
  trace st' = rev (map EvTrainStep bs) ++ trace st /\
  attached W st' = attached W st.
Proof.
  induction bs as [|b bs IH]; intros st; simpl; [by repeat split; lia|].
  destruct (IH (apply_train_step W states st b)) as (Hb & He & Ht & Ha).
  simpl in *. repeat split; [lia|done| |done].
  rewrite Ht. by rewrite <- app_assoc.
Qed.

(** Short of a full block, a pass is train steps and nothing else,
    whatever the callbacks are. *)
Lemma run_pass_inside tc states (bs : list (Batch W)) : forall st,
  steps_per_epoch self <> 0 ->
  batch_count st + length bs < steps_per_epoch self ->
  run_pass W self tc states bs st = Done (foldl (apply_train_step W states) st bs).
Proof.
  induction bs as [|b bs IH]; intros st Hs Hlt; simpl in *; [done|].
  rewrite train_batch_inside by (rewrite ?Nat.mod_small by lia; lia).
  apply IH; simpl; [done|lia].
Qed.

(** A pass that reaches the end of the first block: train steps up to the
    batch that completes it, then that batch. *)
Lemma run_pass_first_block tc states (bs : list (Batch W)) st :
  steps_per_epoch self <> 0 ->
  batch_count st < steps_per_epoch self ->
  steps_per_epoch self <= batch_count st + length bs ->
  exists pre b rest,
    bs = pre ++ b :: rest /\
    S (batch_count st + length pre) = steps_per_epoch self /\
    run_pass W self tc states bs st =
      match train_batch W self tc states (foldl (apply_train_step W states) st pre) b with
      | Done st' => run_pass W self tc states rest st'
      | o => o
      end.
Proof.
  intros Hs Hlt Hge.
  set (n := steps_per_epoch self - S (batch_count st)).
  destruct (lookup_lt_is_Some_2 bs n) as [b Hb]; [lia|].
  exists (take n bs), b, (drop (S n) bs).
  assert (Hlen : length (take n bs) = n) by (rewrite length_take; lia).
  split; [by rewrite take_drop_middle|]. split; [lia|].
  rewrite <- (take_drop_middle bs n b Hb) at 1.
  rewrite run_pass_app, run_pass_inside by lia. reflexivity.
Qed.

End LoopEdges.

Section TrainEdges.
Context {F : Type} {PF : PyFloat F} (W : Collab F).
Variables (h : Py.SetOrder) (self : Trainer).

(** X1: with [num_epochs = 0] an initialized run is over at once: no batch is
    pulled, no callback is called, nothing is saved, whatever the dataset
    and the callbacks are. *)
Theorem X1_zero_epochs_no_training (s s' : Summarizer (Params W))
    (train_data : list TextPair) (val_data : option (list TextPair))
    (callbacks : option (list (Callback F (Params W)))) (fuel : nat) :
  (initialize W h self s train_data).1 = OK s' ->
  exists st,
    train W h self s train_data val_data 0 callbacks fuel = Done st /\
    summarizer st = s' /\
    batch_count st = 0 /\ epoch_count st = 0 /\ logs st = ∅ /\
    count_events W (is_train_step W) (trace st) = 0 /\
    count_events W (is_epoch_end W) (trace st) = 0 /\
    count_events W (is_save W) (trace st) = 0.
Proof.
  intros Hi. rewrite (train_initialized W h self _ _ _ _ _ _ _ Hi).
  rewrite train_loop_halted by (simpl; lia).
  eexists. split; [reflexivity|]. simpl.
  rewrite !(start_state_counts W h self) by reflexivity. by repeat split.
Qed.

(** X2: when the first pass over the training dataset yields no batch and at
    least one epoch is asked for, the run fails with the [ValueError] of
    line 185 before any train step, callback or save. *)
Theorem X2_first_pass_without_batches (s s' : Summarizer (Params W))
    (train_data : list TextPair) (val_data : option (list TextPair))
    (num_epochs : nat) (callbacks : option (list (Callback F (Params W)))) (fuel : nat) :
  (initialize W h self s train_data).1 = OK s' ->
  num_epochs <> 0 ->
  dataset_generator W (batch_size self) true (preprocessor s') (vectorizer s')
    train_data 0 = [] ->
  exists st,
    train W h self s train_data val_data num_epochs callbacks (S fuel)
      = Failed (ValueError "Iterating over the dataset yielded zero batches!") st /\
    batch_count st = 0 /\ epoch_count st = 0 /\
    count_events W (is_train_step W) (trace st) = 0 /\
    count_events W (is_epoch_end W) (trace st) = 0 /\
    count_events W (is_save W) (trace st) = 0.
Proof.
  intros Hi Hn Hds.
  rewrite (train_first_pass_empty W h self _ _ _ _ _ _ _ Hi Hn Hds).
  eexists. split; [reflexivity|]. simpl.
  rewrite !(start_state_counts W h self) by reflexivity. by repeat split.
Qed.

(** X3: with [steps_per_epoch = 0] the test of line 178 divides by zero: a run
    that pulls a batch fails with [ZeroDivisionError] right after the
    train step of its first batch. *)
Theorem X3_zero_steps_per_epoch (s s' : Summarizer (Params W))
    (train_data : list TextPair) (val_data : option (list TextPair))
    (num_epochs : nat) (callbacks : option (list (Callback F (Params W)))) (fuel : nat)
    (b : Batch W) (bs : list (Batch W)) :
  (initialize W h self s train_data).1 = OK s' ->
  steps_per_epoch self = 0 ->
  num_epochs <> 0 ->
  dataset_generator W (batch_size self) true (preprocessor s') (vectorizer s')
    train_data 0 = b :: bs ->
  train W h self s train_data val_data num_epochs callbacks (S fuel)
    = Failed ZeroDivisionError
        (apply_train_step W (init_states W (weights s') (batch_size self))
           (start_state W s' (initialize W h self s train_data).2) b).
Proof.
  intros Hi Hs Hn Hds. rewrite (train_initialized W h self _ _ _ _ _ _ _ Hi).
  rewrite train_loop_pass by (simpl; lia). rewrite Hds. simpl run_pass.
  by rewrite train_batch_zero_steps.
Qed.

(** X4: a bare model, a trainer without a vectorizer of its own and an empty
    corpus: the run fails in the initialization with the [ValueError] of
    the unpacking, for every [num_epochs] (0 too), the model untouched
    and no batch pulled. *)
Theorem X4_bare_model_empty_corpus (s : Summarizer (Params W))
    (val_data : option (list TextPair)) (num_epochs : nat)
    (callbacks : option (list (Callback F (Params W)))) (fuel : nat) :
  preprocessor s = None \/ vectorizer s = None ->
  trainer_vectorizer self = None ->
  train W h self s [] val_data num_epochs callbacks fuel
    = Failed EmptyCorpusError (start_state W s [EvInitModel]).
Proof.
  intros Hbare Hvec. apply needs_init_iff in Hbare.
  assert (Hi : initialize W h self s [] = (Raise EmptyCorpusError, [EvInitModel])).
  { unfold initialize, _init_model. by rewrite Hbare, Hvec. }
  rewrite (train_init_failed W h self s EmptyCorpusError); by rewrite Hi.
Qed.

(** X5: a trainer that brings its own vectorizer initializes a bare model
    without building a vocabulary: it cannot fail on the corpus (an empty
    one included), the embedding file is not read even when [glove_path]
    is set, and the trainer's preprocessor and vectorizer are the ones
    attached when the run ends. *)
Theorem X5_own_vectorizer_skips_vocabulary (s : Summarizer (Params W))
    (vec : Vectorizer) (train_data : list TextPair) (val_data : option (list TextPair))
    (num_epochs : nat) (callbacks : option (list (Callback F (Params W)))) (fuel : nat) :
  preprocessor s = None \/ vectorizer s = None ->
  trainer_vectorizer self = Some vec ->
  let st' := final_state W (train W h self s train_data val_data num_epochs callbacks fuel) in
  (initialize W h self s train_data).1
    = OK {| preprocessor := Some (trainer_preprocessor self);
            vectorizer := Some vec;
            embedding_size := embedding_size s;
            weights := new_weights W vec None None (weights s) |} /\
  preprocessor (summarizer st') = Some (trainer_preprocessor self) /\
  vectorizer (summarizer st') = Some vec.
Proof.
  intros Hbare Hvec st'. apply needs_init_iff in Hbare.
  assert (Hi : (initialize W h self s train_data).1
               = OK (init_model W s (trainer_preprocessor self) vec None None)).
  { unfold initialize, _init_model. by rewrite Hbare, Hvec. }
  split; [exact Hi|].
  pose proof (train_keeps_attached W h self s _ train_data val_data num_epochs
                callbacks fuel Hi) as Hatt.
  unfold attached in Hatt. by injection Hatt.
Qed.

End TrainEdges.

(** ** Callbacks that raise, and what the callbacks see *)

Section CallbackEdges.
Context {F : Type} {PF : PyFloat F} (W : Collab F).
Variables (self : Trainer).
Implicit Types (st : TrainingState W) (cbs : list (Callback F (Params W))).

Lemma run_callbacks_app cbs1 : forall i cbs2 st evs final,
  epoch_end_calls W (summarizer st) (epoch_count st) i cbs1 (logs st) evs final ->
  run_callbacks W i (cbs1 ++ cbs2) st =
    run_callbacks W (i + length cbs1) cbs2
      {| summarizer := summarizer st; logs := final;
         epoch_count := epoch_count st; batch_count := batch_count st;
         trace := rev evs ++ trace st |}.
Proof.
  induction cbs1 as [|cb cbs1 IH]; intros i cbs2 st evs final Hc; inversion Hc; subst; simpl.
  - rewrite Nat.add_0_r. by destruct st.
  - match goal with H : cb _ _ _ = OK _ |- _ => rewrite H end.
    erewrite IH; [|simpl; eassumption]. simpl.
    rewrite <- app_assoc. simpl. do 2 f_equal. lia.
Qed.

Lemma train_batch_raising states cbs1 cb cbs2 st batch evs l' e :
  steps_per_epoch self <> 0 ->
  S (batch_count st) mod steps_per_epoch self = 0 ->
  let st1 := apply_train_step W states st batch in
  epoch_end_calls W (summarizer st1) (epoch_count st) 0 cbs1 (logs st1) evs l' ->
  cb (summarizer st1) (epoch_count st) l' = Raise e ->
  train_batch W self (Some (cbs1 ++ cb :: cbs2)) states st batch =
    Failed e {| summarizer := summarizer st1; logs := l';
                epoch_count := epoch_count st;
                batch_count := S (batch_count st);
                trace := EvOnEpochEnd (length cbs1) (epoch_count st) l'
                           :: rev evs ++ EvTrainStep batch :: trace st |}.
Proof.
  intros Hs Hm st1 Hc Hcb. unfold train_batch. fold st1. simpl.
  destruct (Nat.eqb_spec (steps_per_epoch self) 0); [done|].
  rewrite Hm. simpl.
  rewrite (run_callbacks_app cbs1 0 (cb :: cbs2) st1 evs l' Hc).
  unfold st1 in *. simpl in *. by rewrite Hcb.
Qed.

Lemma run_callbacks_trace cbs : forall i st,
  exists new, trace (final_state W (run_callbacks W i cbs st)) = new ++ trace st.
Proof.
  induction cbs as [|cb cbs IH]; intros i st; simpl.
  - by exists [].
  - destruct (cb _ _ _) as [l'|e]; simpl.
    + destruct (IH (S i) (set_logs W l'
                  (emit W (EvOnEpochEnd i (epoch_count st) (logs st)) st))) as [new Hnew].
      rewrite Hnew. simpl.
      exists (new ++ [EvOnEpochEnd i (epoch_count st) (logs st)]).
      by rewrite <- app_assoc.
    + by exists [EvOnEpochEnd i (epoch_count st) (logs st)].
Qed.

(** X6: at the end of an epoch a callback that raises ends the run with
    its exception: the callbacks before it have been called in order, the
    ones after it are not called, the model is not saved, [epoch_count] is
    not incremented and the rest of the pass is not pulled. *)
Theorem X6_raising_callback_aborts (states : States W) cbs1 cb cbs2 st batch rest evs l' e :
  steps_per_epoch self <> 0 ->
  S (batch_count st) mod steps_per_epoch self = 0 ->
  let st1 := apply_train_step W states st batch in
  epoch_end_calls W (summarizer st1) (epoch_count st) 0 cbs1 (logs st1) evs l' ->
  cb (summarizer st1) (epoch_count st) l' = Raise e ->
  run_pass W self (Some (cbs1 ++ cb :: cbs2)) states (batch :: rest) st =
    Failed e {| summarizer := summarizer st1; logs := l';
                epoch_count := epoch_count st;
                batch_count := S (batch_count st);
                trace := EvOnEpochEnd (length cbs1) (epoch_count st) l'
                           :: rev evs ++ EvTrainStep batch :: trace st |}.
Proof.
  intros Hs Hm st1 Hc Hcb. simpl.
  by rewrite (train_batch_raising states cbs1 cb cbs2 st batch evs l' e Hs Hm Hc Hcb).
Qed.

(** X7: at the end of an epoch the first callback is called with a [logs]
    dict whose entry "loss" is the loss of the batch just trained on (the
    last batch of the block, not a mean over the epoch), the other entries
    being as the previous epoch end left them. *)
Theorem X7_callbacks_see_last_loss (states : States W) cb cbs st batch :
  steps_per_epoch self <> 0 ->
  S (batch_count st) mod steps_per_epoch self = 0 ->
  let loss := (train_step W (weights (summarizer st)) batch states).2 in
  let seen := <["loss"%string := loss]> (logs st) in
  EvOnEpochEnd 0 (epoch_count st) seen
    ∈ trace (final_state W (train_batch W self (Some (cb :: cbs)) states st batch)) /\
  seen !! "loss"%string = Some loss /\
  forall name, name <> "loss"%string -> seen !! name = logs st !! name.
Proof.
  intros Hs Hm loss seen. split; [|split].
  - unfold train_batch. simpl.
    destruct (Nat.eqb_spec (steps_per_epoch self) 0); [done|].
    rewrite Hm. simpl. fold loss. fold seen.
    destruct (cb _ _ seen) as [l'|e]; simpl; [|apply list_elem_of_here].
    match goal with
    | |- context [run_callbacks W 1 cbs ?st0] =>
        destruct (run_callbacks_trace cbs 1 st0) as [new Hnew];
        destruct (run_callbacks W 1 cbs st0) as [st2|e st2|st2]; simpl in *;
        rewrite Hnew; rewrite ?app_comm_cons; apply elem_of_app; right;
        apply list_elem_of_here
    end.
  - apply lookup_insert_eq.
  - intros name Hne. by apply lookup_insert_ne.
Qed.

End CallbackEdges.

(** ** The evaluation callback, on its own and in a run *)

Section EvaluationEdges.
Context {F : Type} {PF : PyFloat F} (W : Collab F).
Implicit Types (self : EvaluationCallback.t W) (s : Summarizer (Params W)).

Lemma on_epoch_end_empty_raises self s batch logs :
  EvaluationCallback.val_data self = [] ->
  EvaluationCallback.scorers self <> ∅ ->
  EvaluationCallback.on_epoch_end W self s batch logs = Raise ZeroDivisionError.
Proof.
  intros Hdata Hsc. unfold EvaluationCallback.on_epoch_end, EvaluationCallback.score_pairs.
  rewrite Hdata. simpl. apply average_into_zero. by rewrite fmap_empty_iff.
Qed.

(** What the call leaves in [logs] on validation data that is not empty. *)
Lemma on_epoch_end_lookup self s batch logs :
  EvaluationCallback.val_data self <> [] ->
  exists logs',
    EvaluationCallback.on_epoch_end W self s batch logs = OK logs' /\
    forall name,
      logs' !! name
      = match EvaluationCallback.scorers self !! name with
        | Some scorer =>
            Some (mean (scores_of W s scorer (EvaluationCallback.val_data self)))
        | None => default ∅ logs !! name
        end.
Proof.
  intros Hdata. unfold EvaluationCallback.on_epoch_end.
  destruct (score_pairs_result W self s) as [Hcount Hscores].
  destruct (average_into_nonzero
              (EvaluationCallback.score_pairs W self s
                 ((fun _ => fzero) <$> EvaluationCallback.scorers self, 0)).2
              (EvaluationCallback.score_pairs W self s
                 ((fun _ => fzero) <$> EvaluationCallback.scorers self, 0)).1
              (default ∅ logs)) as (logs' & Hrun & Hlookup).
  { rewrite Hcount. by destruct (EvaluationCallback.val_data self). }
  exists logs'. split.
  - rewrite <- Hrun. by destruct logs.
  - intros name. rewrite Hlookup, Hscores.
    destruct (EvaluationCallback.scorers self !! name); simpl; [|done].
    unfold mean, scores_of. by rewrite Hcount, length_map.
Qed.

(** On the same pairs the averages come out the same: the result does not
    depend on the [batch] argument nor on what [logs] held under the
    scorer names. *)
Lemma on_epoch_end_again self s (batch1 batch2 : nat) (logs logs1 : Logs F) :
  EvaluationCallback.on_epoch_end W self s batch1 (Some logs) = OK logs1 ->
  EvaluationCallback.on_epoch_end W self s batch2 (Some logs1) = OK logs1.
Proof.
  intros Hrun.
  destruct (decide (EvaluationCallback.val_data self = [])) as [Hdata|Hdata].
  - destruct (decide (EvaluationCallback.scorers self = ∅)) as [Hsc|Hsc].
    + unfold EvaluationCallback.on_epoch_end, EvaluationCallback.score_pairs in *.
      rewrite Hdata, Hsc in *. simpl in *. rewrite fmap_empty in *.
      by rewrite average_into_empty.
    + by rewrite on_epoch_end_empty_raises in Hrun.
  - destruct (on_epoch_end_lookup self s batch1 (Some logs) Hdata) as (l1 & Hrun1 & Hl1).
    destruct (on_epoch_end_lookup self s batch2 (Some logs1) Hdata) as (l2 & Hrun2 & Hl2).
    rewrite Hrun in Hrun1. injection Hrun1 as <-. rewrite Hrun2. f_equal.
    apply map_eq. intros name. rewrite Hl2. simpl.
    destruct (EvaluationCallback.scorers self !! name) eqn:Hs; [|done].
    by rewrite Hl1, Hs.
Qed.

(** X9: what a second call of [on_epoch_end] does depends on the kind of
    iterable [val_data] is. On a container the pairs are read again and
    the averages computed afresh: the second call returns the dict the
    first one returned, whatever its [batch] argument. A generator is
    exhausted by the first call: with at least one pair and one scorer
    the first call succeeds and the second one raises
    [ZeroDivisionError]. *)
Theorem X9_second_call_depends_on_iterable (sc : gmap string (Prediction W -> F))
    (n : nat) s (batch1 batch2 : nat) (logs : Logs F) (pairs : list TextPair) :
  (forall logs1 d1,
     on_epoch_end_over W sc n s (Container pairs) batch1 (Some logs) = (OK logs1, d1) ->
     d1 = Container pairs /\
     on_epoch_end_over W sc n s d1 batch2 (Some logs1) = (OK logs1, d1)) /\
  (pairs <> [] -> sc <> ∅ ->
   exists logs1,
     on_epoch_end_over W sc n s (Generator pairs) batch1 (Some logs)
       = (OK logs1, Generator []) /\
     on_epoch_end_over W sc n s (Generator []) batch2 (Some logs1)
       = (Raise ZeroDivisionError, Generator [])).
Proof.
  unfold on_epoch_end_over. simpl. split.
  - intros logs1 d1 [= Hrun <-]. split; [done|]. f_equal.
    exact (on_epoch_end_again _ s batch1 batch2 logs logs1 Hrun).
  - intros Hne Hsc.
    destruct (on_epoch_end_lookup
                {| EvaluationCallback.scorers := sc;
                   EvaluationCallback.val_data := pairs;
                   EvaluationCallback.print_num_examples := n |}
                s batch1 (Some logs) Hne) as (logs1 & Hrun & _).
    exists logs1. rewrite Hrun. split; [done|]. f_equal.
    by apply on_epoch_end_empty_raises.
Qed.

(** X10: on validation data that is not empty the call removes no key
    from [logs] and adds exactly the names of the scorers: the keys of the
    result are those of [logs] and those of [scorers]. *)
Theorem X10_on_epoch_end_keys self s (batch : nat) (logs : Logs F) :
  EvaluationCallback.val_data self <> [] ->
  exists logs',
    EvaluationCallback.on_epoch_end W self s batch (Some logs) = OK logs' /\
    dom logs' = dom logs ∪ dom (EvaluationCallback.scorers self).
Proof.
  intros Hdata.
  destruct (on_epoch_end_lookup self s batch (Some logs) Hdata) as (logs' & Hrun & Hl).
  exists logs'. split; [exact Hrun|].
  apply set_eq. intros name.
  rewrite elem_of_union, !elem_of_dom, Hl. simpl.
  destruct (EvaluationCallback.scorers self !! name) as [scorer|]; split.
  - intros _. right. by eexists.
  - intros _. by eexists.
  - intros ?. by left.
  - intros [?|[? ?]]; done.
Qed.

End EvaluationEdges.

Section DefaultCallbacks.
Context {F : Type} {PF : PyFloat F} (W : Collab F).
Variables (h : Py.SetOrder) (self : Trainer).

Lemma val_scorers_lookup name :
  val_scorers W !! name
  = if decide (name = "bleu_score"%string)
    then Some (BleuScorer W {[OOV_TOKEN; START_TOKEN; END_TOKEN]}) else None.
Proof.
  unfold val_scorers. destruct (decide _) as [->|Hne].
  - apply lookup_singleton_eq.
  - by apply lookup_singleton_ne.
Qed.

(** X11: without callbacks of the caller and with validation data that is
    not empty, the first callback of the run is the evaluation callback
    with the trainer's one scorer: at an epoch end it sets "bleu_score" to
    the mean of the BLEU scorer over the validation pairs and leaves every
    other entry of [logs] as it was. *)
Theorem X11_default_evaluation_callback (s : Summarizer (Params W))
    (val_data : list TextPair) (epoch : nat) (logs : Logs F) :
  val_data <> [] ->
  exists cb others logs',
    choose_callbacks W self s (Some val_data) None = Some (cb :: others) /\
    length others = 3 /\
    cb s epoch logs = OK logs' /\
    logs' !! "bleu_score"%string
      = Some (mean (scores_of W s (BleuScorer W {[OOV_TOKEN; START_TOKEN; END_TOKEN]})
                      val_data)) /\
    forall name, name <> "bleu_score"%string -> logs' !! name = logs !! name.
Proof.
  intros Hdata. unfold choose_callbacks.
  set (ev := {| EvaluationCallback.scorers := val_scorers W;
                EvaluationCallback.val_data := val_data;
                EvaluationCallback.print_num_examples := num_print_predictions self |}).
  destruct (on_epoch_end_lookup W ev s epoch (Some logs) Hdata) as (logs' & Hrun & Hl).
  eexists _, _, logs'. split; [reflexivity|]. split; [reflexivity|].
  split; [exact Hrun|]. split.
  - rewrite Hl. simpl. by rewrite val_scorers_lookup, decide_True.
  - intros name Hne. rewrite Hl. simpl. by rewrite val_scorers_lookup, decide_False.
Qed.

(** X12: [val_data=[]] is not [None]: the standard callbacks are set up,
    and the evaluation callback divides by a zero count at the first
    epoch end. A run whose first pass has at least [steps_per_epoch]
    batches fails with [ZeroDivisionError] at batch number
    [steps_per_epoch], the model not saved and no epoch counted. *)
Theorem X12_empty_validation_data_fails (s s' : Summarizer (Params W))
    (train_data : list TextPair) (num_epochs fuel : nat) :
  (initialize W h self s train_data).1 = OK s' ->
  steps_per_epoch self <> 0 ->
  num_epochs <> 0 ->
  steps_per_epoch self
    <= length (dataset_generator W (batch_size self) true (preprocessor s') (vectorizer s')
                 train_data 0) ->
  exists st',
    train W h self s train_data (Some []) num_epochs None (S fuel)
      = Failed ZeroDivisionError st' /\
    batch_count st' = steps_per_epoch self /\
    epoch_count st' = 0 /\
    count_events W (is_train_step W) (trace st') = steps_per_epoch self /\
    count_events W (is_epoch_end W) (trace st') = 1 /\
    count_events W (is_save W) (trace st') = 0.
Proof.
  intros Hi Hs Hn Hlen. rewrite (train_initialized W h self _ _ _ _ _ _ _ Hi).
  rewrite train_loop_pass by (simpl; lia).
  set (st0 := start_state W s' (initialize W h self s train_data).2).
  set (states := init_states W (weights (summarizer st0)) (batch_size self)).
  destruct (run_pass_first_block W self (choose_callbacks W self s' (Some []) None)
              states
              (dataset_generator W (batch_size self) true (preprocessor s')
                 (vectorizer s') train_data 0)
              st0 Hs) as (pre & b & rest & Hds & Hpre & Hrun);
    [simpl; lia|simpl; exact Hlen|].
  rewrite Hrun. clear Hrun.
  destruct (steps_taken W states pre st0) as (Hb & He & Ht & Ha).
  set (st1 := foldl (apply_train_step W states) st0 pre) in *.
  assert (Hm : S (batch_count st1) mod steps_per_epoch self = 0).
  { rewrite Hb, Hpre. apply Nat.Div0.mod_same. }
  change (choose_callbacks W self s' (Some []) None)
    with (Some ([] ++ EvaluationCallback.as_callback W
                   {| EvaluationCallback.scorers := val_scorers W;
                      EvaluationCallback.val_data := [];
                      EvaluationCallback.print_num_examples := num_print_predictions self |}
                 :: [ValidationCallback W
                        (dataset_generator W (batch_size self) false (preprocessor s')
                           (vectorizer s') []) (batch_size self);
                      ModelCheckpointCallback W (model_save_path self) "loss_val" "min";
                      TensorBoard W (tensorboard_dir self)])).
  erewrite (train_batch_raising W self states [] _ _ st1 b [] _ ZeroDivisionError Hs Hm).
  - eexists. split; [reflexivity|]. simpl.
    unfold count_events. simpl. rewrite Ht, He. simpl.
    rewrite !List.filter_app, !length_app.
    pose proof (start_state_counts W h self s train_data) as Hc.
    unfold count_events in Hc. rewrite !Hc by reflexivity.
    assert (Hsteps : forall l : list (Batch W),
              length (List.filter (is_train_step W) (rev (map EvTrainStep l))) = length l
              /\ length (List.filter (is_epoch_end W) (rev (map EvTrainStep l))) = 0
              /\ length (List.filter (is_save W) (rev (map EvTrainStep l))) = 0).
    { induction l as [|x l (IH1 & IH2 & IH3)]; simpl; [done|].
      rewrite !List.filter_app, !length_app. simpl. lia. }
    destruct (Hsteps pre) as (-> & -> & ->).
    unfold st0 in Hb, Hpre. simpl in Hb, Hpre. repeat split; lia.
  - constructor.
  - unfold EvaluationCallback.as_callback. apply on_epoch_end_empty_raises; [done|].
    simpl. unfold val_scorers. apply map_non_empty_singleton.
Qed.

(** X13: a run whose callbacks do not raise and whose passes all yield
    batches ends with its books balanced: one train step per counted
    batch, and per counted epoch one save of the model and one call of
    every callback. *)
Theorem X13_run_accounting (s s' : Summarizer (Params W))
    (train_data : list TextPair) (val_data : option (list TextPair))
    (num_epochs : nat) (callbacks : option (list (Callback F (Params W))))
    (cbs : list (Callback F (Params W))) (fuel : nat) :
  (initialize W h self s train_data).1 = OK s' ->
  choose_callbacks W self s' val_data callbacks = Some cbs ->
  callbacks_total W cbs ->
  steps_per_epoch self <> 0 ->
  (forall p, dataset_generator W (batch_size self) true (preprocessor s') (vectorizer s')
               train_data p <> []) ->
  num_epochs * steps_per_epoch self <= fuel ->
  exists st',
    train W h self s train_data val_data num_epochs callbacks fuel = Done st' /\
    count_events W (is_train_step W) (trace st') = batch_count st' /\
    count_events W (is_save W) (trace st') = epoch_count st' /\
    (forall j, j < length cbs ->
       count_events W (is_epoch_end_of W j) (trace st') = epoch_count st') /\
    epoch_count st' = batch_count st' / steps_per_epoch self.
Proof.
  intros Hi Hcbs Htot Hs Hds Hfuel.
  set (ds := dataset_generator W (batch_size self) true (preprocessor s') (vectorizer s')
               train_data) in *.
  assert (Hgrow : forall k, k <= pulled W ds k).
  { induction k as [|k IH]; simpl; [lia|].
    specialize (Hds k). destruct (ds k); [done|simpl; lia]. }
  destruct (first_reach (fun k => num_epochs <= pulled W ds k / steps_per_epoch self)
              (num_epochs * steps_per_epoch self)) as (k & Hk & Hreach & Hmin).
  { apply Nat.div_le_lower_bound; [done|].
    specialize (Hgrow (num_epochs * steps_per_epoch self)). lia. }
  rewrite (train_initialized W h self _ _ _ _ _ _ _ Hi), Hcbs. fold ds.
  destruct (train_loop_exact W self ds num_epochs cbs Hs Hds Htot k k 0
              (start_state W s' (initialize W h self s train_data).2) fuel)
    as (st' & Hrun & Hb & He & Hc1 & Hc2 & Hc3); try done.
  - simpl. by rewrite Nat.Div0.div_0_l.
  - intros j Hj. specialize (Hmin j). lia.
  - lia.
  - apply start_state_consistent.
  - exists st'. split; [exact Hrun|]. split; [exact Hc1|]. split; [exact Hc2|].
    split; [exact Hc3|]. by rewrite He, Hb.
Qed.

End DefaultCallbacks.

(** ** The vocabularies as a user meets them *)

Lemma StronglySorted_lookup_lt {A} (R : relation A) (l : list A) : forall i j x y,
  StronglySorted R l -> l !! i = Some x -> l !! j = Some y -> i < j -> R x y.
Proof.
  induction l as [|a l IH]; intros i j x y Hs Hi Hj Hlt; [done|].
  apply StronglySorted_cons in Hs as [Hall Hs].
  destruct j as [|j]; [lia|]. simpl in Hj.
  destruct i as [|i]; simpl in Hi.
  - injection Hi as ->. rewrite Forall_forall in Hall.
    apply Hall, list_elem_of_lookup. eauto.
  - apply (IH i j); [done..|lia].
Qed.

Lemma str_le_refl (t : string) : Py.str_le t t.
Proof. by destruct (str_le_total t t). Qed.

Lemma dict_numbered_dom a (ks : list string) :
  dom (Keras.dict_of_pairs (numbered_from a ks)) = list_to_set ks.
Proof.
  induction ks as [|k ks IH] using rev_ind; [done|].
  rewrite numbered_from_snoc, dict_of_pairs_snoc, dom_insert_L, IH. simpl.
  rewrite list_to_set_app_L, list_to_set_singleton_L. apply (comm_L (∪)).
Qed.

Section SideFacts.
Variables (h : Py.SetOrder) (max_vocab_size : nat) (texts : list string).
Local Abbreviation L := (fitted_token_list h max_vocab_size texts).
Local Abbreviation wi := (Keras.word_index (side_tokenizer h max_vocab_size texts)).

Lemma side_lookup_in i t : L !! i = Some t -> wi !! t = Some (i + 2).
Proof.
  intros Hi. unfold side_tokenizer. fold L.
  apply fit_on_tokens_lookup;
    [apply fitted_tokens_token_like|apply fitted_tokens_NoDup|done].
Qed.

Lemma side_lookup_out t :
  t ∉ L -> wi !! t = if decide (t = OOV_TOKEN) then Some 1 else None.
Proof.
  intros Ht. unfold side_tokenizer. fold L.
  apply fit_on_tokens_lookup_other;
    [apply fitted_tokens_token_like|apply fitted_tokens_NoDup|done].
Qed.

Lemma side_lookup_inv t id :
  wi !! t = Some id ->
  (exists i, L !! i = Some t /\ id = i + 2) \/ ((t ∉ L) /\ t = OOV_TOKEN /\ id = 1).
Proof.
  intros Hid. destruct (decide (t ∈ L)) as [Hin|Hout].
  - left. apply list_elem_of_lookup in Hin as [i Hi]. exists i. split; [done|].
    rewrite (side_lookup_in i t Hi) in Hid. by injection Hid.
  - right. rewrite (side_lookup_out t Hout) in Hid.
    destruct (decide (t = OOV_TOKEN)); [|done]. by injection Hid.
Qed.

Lemma side_dom : dom wi = {[OOV_TOKEN]} ∪ side_tokens max_vocab_size texts.
Proof.
  unfold side_tokenizer. fold L.
  rewrite fit_on_tokens_index
    by (apply fitted_tokens_token_like || apply fitted_tokens_NoDup).
  rewrite dict_numbered_dom, list_to_set_cons. f_equal.
  apply set_eq. intros t.
  rewrite elem_of_list_to_set, fitted_tokens_elem_of. symmetry.
  apply side_tokens_elem_of.
Qed.

Lemma side_size :
  size wi = if decide (OOV_TOKEN ∈ L) then length L else S (length L).
Proof.
  rewrite <- size_dom. unfold side_tokenizer. fold L.
  rewrite fit_on_tokens_index
    by (apply fitted_tokens_token_like || apply fitted_tokens_NoDup).
  rewrite dict_numbered_dom, list_to_set_cons.
  pose proof (size_list_to_set (C:=gset string) L
                (fitted_tokens_NoDup h max_vocab_size texts)) as Hsize.
  destruct (decide (OOV_TOKEN ∈ L)) as [Hin|Hout].
  - rewrite <- Hsize. f_equal. apply set_eq. intros t.
    rewrite elem_of_union, elem_of_singleton, elem_of_list_to_set.
    split; [intros [->|]; done|by right].
  - rewrite size_union, size_singleton, Hsize; [done|].
    apply disjoint_singleton_l. by rewrite elem_of_list_to_set.
Qed.

Lemma selected_mono (n m : nat) t :
  n <= m -> t ∈ selected_tokens n texts -> t ∈ selected_tokens m texts.
Proof.
  unfold selected_tokens, Py.most_common. intros Hnm Ht.
  apply list_elem_of_In, in_map_iff in Ht. destruct Ht as (x & <- & Hx).
  apply list_elem_of_In, elem_of_take in Hx as (i & Hi & Hlt).
  apply list_elem_of_In, in_map. apply list_elem_of_In, elem_of_take.
  exists i. split; [done|lia].
Qed.

Lemma selected_all t :
  distinct_tokens texts <= max_vocab_size ->
  t ∈ token_stream texts -> t ∈ selected_tokens max_vocab_size texts.
Proof.
  intros Hn Ht. unfold selected_tokens, Py.most_common.
  rewrite take_ge.
  - assert (Hp : map fst (Py.sorted_by_count_desc (side_counter texts))
                 ≡ₚ map fst (side_counter texts))
      by apply Permutation_map, sorted_by_count_desc_Permutation.
    rewrite Hp. by apply side_counter_keys.
  - rewrite (Permutation_length (sorted_by_count_desc_Permutation _)).
    by rewrite side_counter_length.
Qed.

End SideFacts.

Lemma create_tokenizers_sides h n corpus te td tk texts :
  _create_tokenizers h n corpus = OK (te, td) ->
  (tk, texts) ∈ built_sides corpus te td ->
  tk = side_tokenizer h n texts.
Proof.
  intros Hrun Hin.
  assert (Hne : corpus <> []) by (intros ->; discriminate Hrun).
  rewrite create_tokenizers_nonempty in Hrun by done. injection Hrun as <- <-.
  unfold built_sides in Hin.
  apply elem_of_cons in Hin as [[= -> ->]|Hin]; [done|].
  apply list_elem_of_singleton in Hin as [= -> ->]. done.
Qed.

(** X14: whatever the corpus and the maximum size (0 too), each
    vocabulary holds the start token, the end token and the
    out-of-vocabulary token; the start and end tokens have ids from 2
    on. *)
Theorem X14_reserved_tokens_present h n corpus te td tk texts :
  _create_tokenizers h n corpus = OK (te, td) ->
  (tk, texts) ∈ built_sides corpus te td ->
  (exists i, Keras.word_index tk !! START_TOKEN = Some (i + 2)) /\
  (exists i, Keras.word_index tk !! END_TOKEN = Some (i + 2)) /\
  is_Some (Keras.word_index tk !! OOV_TOKEN).
Proof.
  intros Hrun Hin. rewrite (create_tokenizers_sides _ _ _ _ _ _ _ Hrun Hin).
  assert (Hres : forall t, t = START_TOKEN \/ t = END_TOKEN ->
            exists i, Keras.word_index (side_tokenizer h n texts) !! t = Some (i + 2)).
  { intros t Ht.
    assert (Hl : t ∈ fitted_token_list h n texts) by (apply fitted_tokens_elem_of; tauto).
    apply list_elem_of_lookup in Hl as [i Hi]. exists i. by apply side_lookup_in. }
  split; [apply Hres; by left|]. split; [apply Hres; by right|].
  apply elem_of_dom. rewrite side_dom. apply elem_of_union. left.
  by apply elem_of_singleton.
Qed.

(** X15: no two tokens of a vocabulary share an id, so an id decodes to
    one token. *)
Theorem X15_ids_injective h n corpus te td tk texts t1 t2 id :
  _create_tokenizers h n corpus = OK (te, td) ->
  (tk, texts) ∈ built_sides corpus te td ->
  Keras.word_index tk !! t1 = Some id ->
  Keras.word_index tk !! t2 = Some id ->
  t1 = t2.
Proof.
  intros Hrun Hin. rewrite (create_tokenizers_sides _ _ _ _ _ _ _ Hrun Hin).
  intros H1 H2.
  apply side_lookup_inv in H1 as [(i1 & Hi1 & ->)|(_ & -> & ->)];
    apply side_lookup_inv in H2 as [(i2 & Hi2 & Heq)|(_ & -> & Heq)]; try lia; [|done].
  assert (i1 = i2) as -> by lia. rewrite Hi1 in Hi2. by injection Hi2.
Qed.

(** X16: the ids follow the order of the tokens as strings: of two tokens
    of a vocabulary other than the out-of-vocabulary token, the smaller
    one has the smaller id. *)
Theorem X16_ids_follow_token_order h n corpus te td tk texts t1 t2 id1 id2 :
  _create_tokenizers h n corpus = OK (te, td) ->
  (tk, texts) ∈ built_sides corpus te td ->
  t1 <> OOV_TOKEN -> t2 <> OOV_TOKEN ->
  Keras.word_index tk !! t1 = Some id1 ->
  Keras.word_index tk !! t2 = Some id2 ->
  (id1 <= id2 <-> Py.str_le t1 t2).
Proof.
  intros Hrun Hin Hn1 Hn2. rewrite (create_tokenizers_sides _ _ _ _ _ _ _ Hrun Hin).
  intros H1 H2.
  apply side_lookup_inv in H1 as [(i1 & Hi1 & ->)|(_ & ? & _)]; [|done].
  apply side_lookup_inv in H2 as [(i2 & Hi2 & ->)|(_ & ? & _)]; [|done].
  pose proof (sorted_Sorted (Py.list_of_set h (side_tokens n texts))) as Hs.
  fold (fitted_token_list h n texts) in Hs.
  split.
  - intros Hle. destruct (decide (i1 = i2)) as [->|Hne].
    + rewrite Hi1 in Hi2. injection Hi2 as ->. apply str_le_refl.
    + apply (StronglySorted_lookup_lt _ _ i1 i2 _ _ Hs Hi1 Hi2). lia.
  - intros Hle. destruct (Nat.le_gt_cases i1 i2) as [|Hgt]; [lia|].
    pose proof (StronglySorted_lookup_lt _ _ i2 i1 _ _ Hs Hi2 Hi1 Hgt) as Hge.
    assert (t1 = t2) as -> by by apply (anti_symm Py.str_le).
    pose proof (NoDup_lookup _ _ _ _ (fitted_tokens_NoDup h n texts) Hi1 Hi2). lia.
Qed.

(** X17: a larger [max_vocab_size] only adds tokens: every token that has
    an id with the smaller maximum has one with the larger. *)
Theorem X17_vocabulary_grows_with_max_size h n m corpus te td te' td' t :
  n <= m ->
  _create_tokenizers h n corpus = OK (te, td) ->
  _create_tokenizers h m corpus = OK (te', td') ->
  (is_Some (Keras.word_index te !! t) -> is_Some (Keras.word_index te' !! t)) /\
  (is_Some (Keras.word_index td !! t) -> is_Some (Keras.word_index td' !! t)).
Proof.
  intros Hnm Hn Hm.
  assert (Hne : corpus <> []) by (intros ->; discriminate Hn).
  rewrite create_tokenizers_nonempty in Hn, Hm by done.
  injection Hn as <- <-. injection Hm as <- <-.
  assert (Hside : forall texts,
            is_Some (Keras.word_index (side_tokenizer h n texts) !! t) ->
            is_Some (Keras.word_index (side_tokenizer h m texts) !! t)).
  { intros texts. rewrite <- !elem_of_dom, !side_dom, !elem_of_union, !side_tokens_elem_of.
    intros [?|[Hsel|?]]; [tauto| |tauto].
    right. left. by apply (selected_mono texts n m). }
  split; apply Hside.
Qed.

(** X18: when [max_vocab_size] is at least the number of distinct tokens
    of a side, every token of that side of the corpus has an id: nothing
    of the training corpus is out of vocabulary. *)
Theorem X18_full_coverage h n corpus te td tk texts t :
  _create_tokenizers h n corpus = OK (te, td) ->
  (tk, texts) ∈ built_sides corpus te td ->
  distinct_tokens texts <= n ->
  t ∈ token_stream texts ->
  is_Some (Keras.word_index tk !! t).
Proof.
  intros Hrun Hin Hn Ht. rewrite (create_tokenizers_sides _ _ _ _ _ _ _ Hrun Hin).
  apply elem_of_dom. rewrite side_dom, elem_of_union, side_tokens_elem_of.
  right. left. by apply selected_all.
Qed.

(** X19: a vocabulary holds nothing but tokens of its own side and the
    three reserved tokens: a string that is not a token of that side of
    the corpus (one that occurs on the other side only, say) and is not
    reserved has no id. *)
Theorem X19_no_foreign_tokens h n corpus te td tk texts t :
  _create_tokenizers h n corpus = OK (te, td) ->
  (tk, texts) ∈ built_sides corpus te td ->
  t ∉ token_stream texts ->
  t <> START_TOKEN -> t <> END_TOKEN -> t <> OOV_TOKEN ->
  Keras.word_index tk !! t = None.
Proof.
  intros Hrun Hin Ht Hs He Ho. rewrite (create_tokenizers_sides _ _ _ _ _ _ _ Hrun Hin).
  apply not_elem_of_dom. rewrite side_dom, elem_of_union, side_tokens_elem_of.
  rewrite elem_of_singleton.
  intros [?|[Hsel|[?|?]]]; try done. by apply Ht, (selected_in_stream n).
Qed.

(** X20: when the out-of-vocabulary token does not occur on a side of the
    corpus, the ids of that side's vocabulary are dense: they are exactly
    the numbers from 1 to the size of the vocabulary, 1 being the id of
    the out-of-vocabulary token. *)
Theorem X20_ids_dense h n corpus te td tk texts :
  _create_tokenizers h n corpus = OK (te, td) ->
  (tk, texts) ∈ built_sides corpus te td ->
  OOV_TOKEN ∉ token_stream texts ->
  Keras.word_index tk !! OOV_TOKEN = Some 1 /\
  forall id, (exists t, Keras.word_index tk !! t = Some id)
             <-> 1 <= id <= size (Keras.word_index tk).
Proof.
  intros Hrun Hin Hoov. rewrite (create_tokenizers_sides _ _ _ _ _ _ _ Hrun Hin).
  assert (Hout : OOV_TOKEN ∉ fitted_token_list h n texts).
  { rewrite fitted_tokens_elem_of. intros [Hsel|[?|?]]; [|done..].
    by apply Hoov, (selected_in_stream n). }
  assert (Hone : Keras.word_index (side_tokenizer h n texts) !! OOV_TOKEN = Some 1).
  { rewrite (side_lookup_out _ _ _ _ Hout). by rewrite decide_True. }
  split; [exact Hone|]. intros id.
  rewrite side_size, decide_False by done. split.
  - intros [t Ht]. apply side_lookup_inv in Ht as [(i & Hi & ->)|(_ & _ & ->)]; [|lia].
    apply lookup_lt_Some in Hi. lia.
  - intros [Hlo Hhi]. destruct (decide (id = 1)) as [->|Hne]; [by exists OOV_TOKEN|].
    destruct (lookup_lt_is_Some_2 (fitted_token_list h n texts) (id - 2)) as [t Ht]; [lia|].
    exists t. rewrite (side_lookup_in _ _ _ _ _ Ht). f_equal. lia.
Qed.

Lemma fitted_positions_order h n texts i1 i2 t1 t2 :
  fitted_token_list h n texts !! i1 = Some t1 ->
  fitted_token_list h n texts !! i2 = Some t2 ->
  (i1 <= i2 <-> Py.str_le t1 t2).
Proof.
  intros Hi1 Hi2.
  pose proof (sorted_Sorted (Py.list_of_set h (side_tokens n texts))) as Hs.
  fold (fitted_token_list h n texts) in Hs.
  split.
  - intros Hle. destruct (decide (i1 = i2)) as [->|Hne].
    + rewrite Hi1 in Hi2. injection Hi2 as ->. apply str_le_refl.
    + apply (StronglySorted_lookup_lt _ _ i1 i2 _ _ Hs Hi1 Hi2). lia.
  - intros Hle. destruct (Nat.le_gt_cases i1 i2) as [|Hgt]; [done|].
    pose proof (StronglySorted_lookup_lt _ _ i2 i1 _ _ Hs Hi2 Hi1 Hgt) as Hge.
    assert (t1 = t2) as -> by by apply (anti_symm Py.str_le).
    pose proof (NoDup_lookup _ _ _ _ (fitted_tokens_NoDup h n texts) Hi1 Hi2). lia.
Qed.

(** X21: when the string of the out-of-vocabulary token occurs in the
    corpus and is selected, it is numbered at its place among the sorted
    tokens (its id is its position in the sorted token list plus 2, and
    the ids of all tokens, this one included, follow the order of the
    tokens as strings) and the id 1 is assigned to no token: the ids are
    exactly the numbers from 2 to the size of the vocabulary plus 1. *)
Theorem X21_unk_in_corpus_leaves_gap h n corpus te td tk texts :
  _create_tokenizers h n corpus = OK (te, td) ->
  (tk, texts) ∈ built_sides corpus te td ->
  OOV_TOKEN ∈ selected_tokens n texts ->
  (exists i, fitted_token_list h n texts !! i = Some OOV_TOKEN /\
             Keras.word_index tk !! OOV_TOKEN = Some (i + 2)) /\
  (forall t1 t2 id1 id2,
     Keras.word_index tk !! t1 = Some id1 ->
     Keras.word_index tk !! t2 = Some id2 ->
     (id1 <= id2 <-> Py.str_le t1 t2)) /\
  (forall t, Keras.word_index tk !! t <> Some 1) /\
  forall id, (exists t, Keras.word_index tk !! t = Some id)
             <-> 2 <= id <= size (Keras.word_index tk) + 1.
Proof.
  intros Hrun Hin Hoov. rewrite (create_tokenizers_sides _ _ _ _ _ _ _ Hrun Hin).
  assert (Hl : OOV_TOKEN ∈ fitted_token_list h n texts)
    by (apply fitted_tokens_elem_of; tauto).
  assert (Hinv : forall t id, Keras.word_index (side_tokenizer h n texts) !! t = Some id ->
            exists i, fitted_token_list h n texts !! i = Some t /\ id = i + 2).
  { intros t id Ht. apply side_lookup_inv in Ht as [?|(Hout & -> & _)]; done. }
  split; [|split; [|split]].
  - apply list_elem_of_lookup in Hl as [i Hi]. exists i. split; [exact Hi|].
    by apply side_lookup_in.
  - intros t1 t2 id1 id2 H1 H2.
    apply Hinv in H1 as (i1 & Hi1 & ->). apply Hinv in H2 as (i2 & Hi2 & ->).
    rewrite <- (fitted_positions_order h n texts i1 i2 t1 t2 Hi1 Hi2). lia.
  - intros t Ht. apply Hinv in Ht as (i & _ & ?). lia.
  - intros id. rewrite side_size, decide_True by done. split.
    + intros [t Ht]. apply Hinv in Ht as (i & Hi & ->).
      apply lookup_lt_Some in Hi. lia.
    + intros [Hlo Hhi].
      destruct (lookup_lt_is_Some_2 (fitted_token_list h n texts) (id - 2)) as [t Ht];
        [lia|].
      exists t. rewrite (side_lookup_in _ _ _ _ _ Ht). f_equal. lia.
Qed.

(** ** [Trainer.from_config] *)

Ltac key_missing i :=
  split; [|split];
  [ split;
    [ let HF := fresh in
      intros HF; rewrite Forall_forall in HF;
      match goal with
      | H : _ !! ?k = None |- _ =>
          destruct (HF k) as [? ?];
          [apply list_elem_of_In; simpl; tauto | congruence]
      end
    | intros [? [=]] ]
  | intros ? [=]
  | let key := fresh in
    intros key [= <-]; split; [assumption|];
    exists (take i Config.keys_read), (drop (S i) Config.keys_read);
    split; [reflexivity|];
    simpl;
    repeat (apply Forall_cons; split;
            [match goal with
             | H : _ !! ?k = Some _ |- is_Some (_ !! ?k) => rewrite H; by eexists
             end|]);
    by apply Forall_nil ].

(** X22: [from_config] needs all of its nine keys, "glove_path" and
    "logging_level" included: it returns exactly when the configuration
    has them all, and otherwise raises [KeyError] for the first missing
    key in the order the keys are read. The logging level is [DEBUG] for
    the string "debug", [ERROR] for the string "error" and [INFO] for any
    other value. *)
Theorem X22_from_config_needs_all_keys (cfg : gmap string Config.yaml) :
  (Forall (fun k => is_Some (cfg !! k)) Config.keys_read
     <-> exists args, Config.from_config cfg = Config.Loaded args) /\
  (forall args, Config.from_config cfg = Config.Loaded args ->
     (Config.logging_level args = Config.DEBUG
        <-> cfg !! "logging_level"%string = Some (Config.YStr "debug")) /\
     (Config.logging_level args = Config.ERROR
        <-> cfg !! "logging_level"%string = Some (Config.YStr "error"))) /\
  (forall key, Config.from_config cfg = Config.KeyError key ->
     cfg !! key = None /\
     exists before after,
       Config.keys_read = before ++ key :: after /\
       Forall (fun k => is_Some (cfg !! k)) before).
Proof.
  unfold Config.from_config, Config.item, Config.and_then.
  destruct (cfg !! "batch_size"%string) eqn:H1; [|key_missing 0].
  destruct (cfg !! "max_vocab_size"%string) eqn:H2; [|key_missing 1].
  destruct (cfg !! "glove_path"%string) eqn:H3; [|key_missing 2].
  destruct (cfg !! "steps_per_epoch"%string) eqn:H4; [|key_missing 3].
  destruct (cfg !! "tensorboard_dir"%string) eqn:H5; [|key_missing 4].
  destruct (cfg !! "model_save_path"%string) eqn:H6; [|key_missing 5].
  destruct (cfg !! "bucketing_buffer_size_batches"%string) eqn:H7; [|key_missing 6].
  destruct (cfg !! "bucketing_batches_to_bucket"%string) eqn:H8; [|key_missing 7].
  destruct (cfg !! "logging_level"%string) as [level|] eqn:H9; [|key_missing 8].
  split; [|split].
  - split; [intros _; eexists; reflexivity|].
    intros _. unfold Config.keys_read.
    repeat (apply Forall_cons; split;
            [match goal with
             | H : _ !! ?k = Some _ |- is_Some (_ !! ?k) => rewrite H; by eexists
             end|]).
    by apply Forall_nil.
  - intros args [= <-]. simpl.
    destruct (decide (level = Config.YStr "debug")) as [->|Hd].
    + split; split; intros; congruence.
    + destruct (decide (level = Config.YStr "error")) as [->|He];
        split; split; intros; congruence.
  - intros key [=].
Qed.

(** * The further properties at concrete inputs *)

Lemma X1_witness :
  let W := demo_world three_per_pass in
  exists st,
    train W Py.default_order (demo_trainer 2) (demo_summarizer three_per_pass)
      demo_corpus None 0 None 3 = Done st /\
    batch_count st = 0 /\
    count_events W (is_train_step W) (trace st) = 0.
Proof.
  intros W.
  destruct (X1_zero_epochs_no_training W Py.default_order (demo_trainer 2)
              (demo_summarizer three_per_pass) (demo_summarizer three_per_pass)
              demo_corpus None None 3 eq_refl)
    as (st & Hrun & _ & Hb & _ & _ & Hs & _).
  exists st. split; [exact Hrun|]. split; [exact Hb | exact Hs].
Defined.

Lemma X2_witness :
  let W := demo_world no_batches in
  exists st,
    train W Py.default_order (demo_trainer 2) (demo_summarizer no_batches)
      demo_corpus None 1 None 1
      = Failed (ValueError "Iterating over the dataset yielded zero batches!") st /\
    batch_count st = 0.
Proof.
  intros W.
  destruct (X2_first_pass_without_batches W Py.default_order (demo_trainer 2)
              (demo_summarizer no_batches) (demo_summarizer no_batches)
              demo_corpus None 1 None 0 eq_refl ltac:(discriminate) eq_refl)
    as (st & Hrun & Hb & _).
  exists st. split; [exact Hrun | exact Hb].
Defined.

Lemma X3_witness :
  let W := demo_world three_per_pass in
  exists st,
    train W Py.default_order (demo_trainer 0) (demo_summarizer three_per_pass)
      demo_corpus None 1 None 1 = Failed ZeroDivisionError st /\
    batch_count st = 1.
Proof.
  intros W. eexists. split.
  - exact (X3_zero_steps_per_epoch W Py.default_order (demo_trainer 0)
             (demo_summarizer three_per_pass) (demo_summarizer three_per_pass)
             demo_corpus None 1 None 0 1 [2; 3]
             eq_refl eq_refl ltac:(discriminate) eq_refl).
  - reflexivity.
Defined.

Lemma X4_witness :
  let W := demo_world three_per_pass in
  train W Py.default_order (demo_trainer 1) (bare_summarizer three_per_pass)
    [] None 1 None 5
  = Failed EmptyCorpusError
      (start_state W (bare_summarizer three_per_pass) [EvInitModel]).
Proof.
  intros W.
  exact (X4_bare_model_empty_corpus W Py.default_order (demo_trainer 1)
           (bare_summarizer three_per_pass) None 1 None 5
           (or_introl eq_refl) eq_refl).
Defined.

Lemma X5_witness :
  let W := demo_world three_per_pass in
  vectorizer
    (summarizer
       (final_state W
          (train W Py.default_order (trainer_with_vectorizer 1)
             (bare_summarizer three_per_pass) [] None 1 None 5)))
  = Some demo_vectorizer.
Proof.
  intros W.
  exact (proj2 (proj2
           (X5_own_vectorizer_skips_vocabulary W Py.default_order
              (trainer_with_vectorizer 1) (bare_summarizer three_per_pass)
              demo_vectorizer [] None 1 None 5 (or_introl eq_refl) eq_refl))).
Defined.

Lemma X6_witness :
  let W := demo_world three_per_pass in
  exists st',
    run_pass W (demo_trainer 1)
      (Some [mark "first" three_per_pass;
             raising (ValueError "stop") three_per_pass;
             mark "last" three_per_pass])
      tt [1; 2; 3] (start_state W (demo_summarizer three_per_pass) [])
    = Failed (ValueError "stop") st' /\
    batch_count st' = 1 /\ epoch_count st' = 0.
Proof.
  intros W. eexists. split.
  - eapply (X6_raising_callback_aborts W (demo_trainer 1) tt
              [mark "first" three_per_pass]
              (raising (ValueError "stop") three_per_pass)
              [mark "last" three_per_pass]
              (start_state W (demo_summarizer three_per_pass) []) 1 [2; 3]).
    + discriminate.
    + reflexivity.
    + eapply calls_cons; [reflexivity | apply calls_nil].
    + reflexivity.
  - split; reflexivity.
Defined.

Lemma X7_witness :
  let W := demo_world three_per_pass in
  EvOnEpochEnd 0 0 (<["loss"%string := inject_Z (Z.of_nat 5)]> ∅)
    ∈ trace (final_state W
               (train_batch W (demo_trainer 1) (Some [mark "m" three_per_pass]) tt
                  (start_state W (demo_summarizer three_per_pass) []) 5)).
Proof.
  intros W.
  exact (proj1 (X7_callbacks_see_last_loss W (demo_trainer 1) tt
                  (mark "m" three_per_pass) []
                  (start_state W (demo_summarizer three_per_pass) []) 5
                  ltac:(discriminate) eq_refl)).
Defined.

Lemma X9_witness :
  let W := demo_world three_per_pass in
  let sc := EvaluationCallback.scorers (demo_evaluation three_per_pass) in
  exists logs1,
    on_epoch_end_over W sc 5 (demo_summarizer three_per_pass)
      (Generator [("ab", "x")]%string) 0 (Some ∅) = (OK logs1, Generator []) /\
    on_epoch_end_over W sc 5 (demo_summarizer three_per_pass)
      (Generator []) 1 (Some logs1) = (Raise ZeroDivisionError, Generator []).
Proof.
  intros W sc.
  apply (X9_second_call_depends_on_iterable W sc 5 (demo_summarizer three_per_pass)
           0 1 ∅ [("ab", "x")]%string).
  - discriminate.
  - apply insert_non_empty.
Defined.

Lemma X10_witness :
  let W := demo_world three_per_pass in
  exists logs',
    EvaluationCallback.on_epoch_end W (demo_evaluation three_per_pass)
      (demo_summarizer three_per_pass) 0 (Some ∅) = OK logs' /\
    dom logs' = dom (∅ : Logs Q)
                  ∪ dom (EvaluationCallback.scorers (demo_evaluation three_per_pass)).
Proof.
  intros W.
  exact (X10_on_epoch_end_keys W (demo_evaluation three_per_pass)
           (demo_summarizer three_per_pass) 0 ∅ ltac:(discriminate)).
Defined.

Lemma X11_witness :
  let W := demo_world three_per_pass in
  exists cb others logs',
    choose_callbacks W (demo_trainer 2) (demo_summarizer three_per_pass)
      (Some [("ab", "x")]%string) None = Some (cb :: others) /\
    length others = 3 /\
    cb (demo_summarizer three_per_pass) 0 ∅ = OK logs' /\
    is_Some (logs' !! "bleu_score"%string).
Proof.
  intros W.
  destruct (X11_default_evaluation_callback W (demo_trainer 2)
              (demo_summarizer three_per_pass) [("ab", "x")]%string 0 ∅
              ltac:(discriminate))
    as (cb & others & logs' & Hc & Hl & Hcall & Hb & _).
  exists cb, others, logs'.
  split; [exact Hc|]. split; [exact Hl|]. split; [exact Hcall|].
  rewrite Hb. by eexists.
Defined.

Lemma X12_witness :
  let W := demo_world three_per_pass in
  exists st',
    train W Py.default_order (demo_trainer 2) (demo_summarizer three_per_pass)
      demo_corpus (Some []) 1 None 1 = Failed ZeroDivisionError st' /\
    batch_count st' = 2 /\
    count_events W (is_epoch_end W) (trace st') = 1.
Proof.
  intros W.
  destruct (X12_empty_validation_data_fails W Py.default_order (demo_trainer 2)
              (demo_summarizer three_per_pass) (demo_summarizer three_per_pass)
              demo_corpus 1 0 eq_refl ltac:(discriminate) ltac:(discriminate)
              ltac:(simpl; lia))
    as (st' & Hrun & Hb & _ & _ & He & _).
  exists st'. split; [exact Hrun|]. split; [exact Hb | exact He].
Defined.

Lemma X13_witness :
  let W := demo_world three_per_pass in
  exists st',
    train W Py.default_order (demo_trainer 2) (demo_summarizer three_per_pass)
      demo_corpus None 2 (Some [mark "m" three_per_pass]) 4 = Done st' /\
    count_events W (is_train_step W) (trace st') = batch_count st' /\
    count_events W (is_save W) (trace st') = epoch_count st'.
Proof.
  intros W.
  assert (Htotal : callbacks_total W [mark "m" three_per_pass]).
  { intros cb Hcb s epoch l. apply list_elem_of_singleton in Hcb as ->.
    eexists; reflexivity. }
  destruct (X13_run_accounting W Py.default_order (demo_trainer 2)
              (demo_summarizer three_per_pass) (demo_summarizer three_per_pass)
              demo_corpus None 2 (Some [mark "m" three_per_pass])
              [mark "m" three_per_pass] 4
              eq_refl eq_refl Htotal ltac:(discriminate)
              ltac:(intros p; discriminate) ltac:(simpl; lia))
    as (st' & Hrun & Ht & Hs & _).
  exists st'. split; [exact Hrun|]. split; [exact Ht | exact Hs].
Defined.

Lemma X14_witness :
  let te := side_tokenizer Py.default_order 2 (map fst demo_corpus) in
  let td := side_tokenizer Py.default_order 2 (map snd demo_corpus) in
  _create_tokenizers Py.default_order 2 demo_corpus = OK (te, td) /\
  (exists i, Keras.word_index te !! START_TOKEN = Some (i + 2)) /\
  (exists i, Keras.word_index te !! END_TOKEN = Some (i + 2)) /\
  is_Some (Keras.word_index te !! OOV_TOKEN).
Proof.
  intros te td.
  assert (Hrun : _create_tokenizers Py.default_order 2 demo_corpus = OK (te, td))
    by (apply create_tokenizers_nonempty; discriminate).
  split; [exact Hrun|].
  apply (X14_reserved_tokens_present Py.default_order 2 demo_corpus te td
           te (map fst demo_corpus) Hrun).
  apply list_elem_of_here.
Defined.

Lemma X15_witness :
  let te := side_tokenizer Py.default_order 2 (map fst demo_corpus) in
  let td := side_tokenizer Py.default_order 2 (map snd demo_corpus) in
  _create_tokenizers Py.default_order 2 demo_corpus = OK (te, td) /\
  Keras.word_index td !! "x"%string = Some 4 /\
  "x"%string = "x"%string.
Proof.
  intros te td.
  assert (Hrun : _create_tokenizers Py.default_order 2 demo_corpus = OK (te, td))
    by (apply create_tokenizers_nonempty; discriminate).
  assert (Hx : Keras.word_index td !! "x"%string = Some 4)
    by (vm_compute; reflexivity).
  split; [exact Hrun|]. split; [exact Hx|].
  apply (X15_ids_injective Py.default_order 2 demo_corpus te td
           td (map snd demo_corpus) "x" "x" 4 Hrun);
    [apply list_elem_of_further, list_elem_of_here | exact Hx | exact Hx].
Defined.

Lemma X16_witness :
  let te := side_tokenizer Py.default_order 2 (map fst demo_corpus) in
  let td := side_tokenizer Py.default_order 2 (map snd demo_corpus) in
  _create_tokenizers Py.default_order 2 demo_corpus = OK (te, td) /\
  Keras.word_index te !! END_TOKEN = Some 2 /\
  Keras.word_index te !! "b"%string = Some 4 /\
  (2 <= 4 <-> Py.str_le END_TOKEN "b").
Proof.
  intros te td.
  assert (Hrun : _create_tokenizers Py.default_order 2 demo_corpus = OK (te, td))
    by (apply create_tokenizers_nonempty; discriminate).
  assert (H1 : Keras.word_index te !! END_TOKEN = Some 2)
    by (vm_compute; reflexivity).
  assert (H2 : Keras.word_index te !! "b"%string = Some 4)
    by (vm_compute; reflexivity).
  split; [exact Hrun|]. split; [exact H1|]. split; [exact H2|].
  apply (X16_ids_follow_token_order Py.default_order 2 demo_corpus te td
           te (map fst demo_corpus) END_TOKEN "b" 2 4 Hrun);
    [apply list_elem_of_here | discriminate | discriminate | exact H1 | exact H2].
Defined.

Lemma X17_witness :
  let te := side_tokenizer Py.default_order 1 (map fst demo_corpus) in
  let td := side_tokenizer Py.default_order 1 (map snd demo_corpus) in
  let te' := side_tokenizer Py.default_order 2 (map fst demo_corpus) in
  let td' := side_tokenizer Py.default_order 2 (map snd demo_corpus) in
  (is_Some (Keras.word_index te !! "b"%string)
     -> is_Some (Keras.word_index te' !! "b"%string)) /\
  (is_Some (Keras.word_index td !! "b"%string)
     -> is_Some (Keras.word_index td' !! "b"%string)).
Proof.
  intros te td te' td'.
  apply (X17_vocabulary_grows_with_max_size Py.default_order 1 2 demo_corpus
           te td te' td' "b");
    [lia | apply create_tokenizers_nonempty; discriminate
         | apply create_tokenizers_nonempty; discriminate].
Defined.

Lemma X18_witness :
  let te := side_tokenizer Py.default_order 10 (map fst demo_corpus) in
  let td := side_tokenizer Py.default_order 10 (map snd demo_corpus) in
  _create_tokenizers Py.default_order 10 demo_corpus = OK (te, td) /\
  is_Some (Keras.word_index te !! "c"%string).
Proof.
  intros te td.
  assert (Hrun : _create_tokenizers Py.default_order 10 demo_corpus = OK (te, td))
    by (apply create_tokenizers_nonempty; discriminate).
  split; [exact Hrun|].
  apply (X18_full_coverage Py.default_order 10 demo_corpus te td
           te (map fst demo_corpus) "c" Hrun).
  - apply list_elem_of_here.
  - vm_compute. lia.
  - apply list_elem_of_In. vm_compute. tauto.
Defined.

Lemma X19_witness :
  let te := side_tokenizer Py.default_order 10 (map fst demo_corpus) in
  let td := side_tokenizer Py.default_order 10 (map snd demo_corpus) in
  _create_tokenizers Py.default_order 10 demo_corpus = OK (te, td) /\
  Keras.word_index te !! "x"%string = None.
Proof.
  intros te td.
  assert (Hrun : _create_tokenizers Py.default_order 10 demo_corpus = OK (te, td))
    by (apply create_tokenizers_nonempty; discriminate).
  split; [exact Hrun|].
  apply (X19_no_foreign_tokens Py.default_order 10 demo_corpus te td
           te (map fst demo_corpus) "x" Hrun);
    [apply list_elem_of_here | | discriminate | discriminate | discriminate].
  intros Hin. apply list_elem_of_In in Hin. vm_compute in Hin.
  repeat (destruct Hin as [Hin|Hin]; [discriminate Hin|]). exact Hin.
Defined.

Lemma X20_witness :
  let te := side_tokenizer Py.default_order 2 (map fst demo_corpus) in
  let td := side_tokenizer Py.default_order 2 (map snd demo_corpus) in
  _create_tokenizers Py.default_order 2 demo_corpus = OK (te, td) /\
  Keras.word_index td !! OOV_TOKEN = Some 1 /\
  ((exists t, Keras.word_index td !! t = Some 3)
     <-> 1 <= 3 <= size (Keras.word_index td)).
Proof.
  intros te td.
  assert (Hrun : _create_tokenizers Py.default_order 2 demo_corpus = OK (te, td))
    by (apply create_tokenizers_nonempty; discriminate).
  split; [exact Hrun|].
  assert (Hoov : OOV_TOKEN ∉ token_stream (map snd demo_corpus)).
  { intros Hin. apply list_elem_of_In in Hin. vm_compute in Hin.
    repeat (destruct Hin as [Hin|Hin]; [discriminate Hin|]). exact Hin. }
  destruct (X20_ids_dense Py.default_order 2 demo_corpus te td
              td (map snd demo_corpus) Hrun
              ltac:(apply list_elem_of_further, list_elem_of_here) Hoov)
    as [H1 Hall].
  split; [exact H1 | exact (Hall 3)].
Defined.

Lemma X21_witness :
  let te := side_tokenizer Py.default_order 5 (map fst unk_corpus) in
  let td := side_tokenizer Py.default_order 5 (map snd unk_corpus) in
  _create_tokenizers Py.default_order 5 unk_corpus = OK (te, td) /\
  (exists i, fitted_token_list Py.default_order 5 (map fst unk_corpus) !! i
               = Some OOV_TOKEN /\
             Keras.word_index te !! OOV_TOKEN = Some (i + 2)) /\
  Keras.word_index te !! OOV_TOKEN <> Some 1 /\
  ((exists t, Keras.word_index te !! t = Some 1)
     <-> 2 <= 1 <= size (Keras.word_index te) + 1).
Proof.
  intros te td.
  assert (Hrun : _create_tokenizers Py.default_order 5 unk_corpus = OK (te, td))
    by (apply create_tokenizers_nonempty; discriminate).
  split; [exact Hrun|].
  assert (Hsel : OOV_TOKEN ∈ selected_tokens 5 (map fst unk_corpus)).
  { apply list_elem_of_In. vm_compute. tauto. }
  destruct (X21_unk_in_corpus_leaves_gap Py.default_order 5 unk_corpus te td
              te (map fst unk_corpus) Hrun ltac:(apply list_elem_of_here) Hsel)
    as (Hplace & _ & H1 & Hall).
  split; [exact Hplace|]. split; [exact (H1 OOV_TOKEN) | exact (Hall 1)].
Defined.

Lemma X22_witness :
  exists args,
    Config.from_config demo_cfg = Config.Loaded args /\
    Config.logging_level args <> Config.DEBUG /\
    Config.logging_level args <> Config.ERROR.
Proof.
  assert (Hkeys : Forall (fun k => is_Some (demo_cfg !! k)) Config.keys_read).
  { unfold Config.keys_read.
    repeat (apply Forall_cons; split; [vm_compute; by eexists|]).
    by apply Forall_nil. }
  destruct (X22_from_config_needs_all_keys demo_cfg) as (Hall & Hlevel & _).
  destruct (proj1 Hall Hkeys) as [args Hargs].
  destruct (Hlevel args Hargs) as [Hd He].
  exists args. split; [exact Hargs|].
  split; intros Hl.
  - apply Hd in Hl. vm_compute in Hl. discriminate Hl.
  - apply He in Hl. vm_compute in Hl. discriminate Hl.
Defined.
